(** * Boolean.prototype built-in object of JerryScript

    Shallow embedding of
    [src/libecmabuiltins/ecma-builtin-boolean-prototype-object.c]:
    the [valueOf] and [toString] routines, the lazy instantiation of the
    built-in properties, the routine dispatcher and the arity lookup.

    The routines run in a small state-and-trap monad: the state is the
    engine (object heap, table of instantiated built-in objects, log of the
    calls made to the collector), a trap is a failed [JERRY_ASSERT], a
    reached [JERRY_UNREACHABLE] or a broken object-model invariant. *)

From Stdlib Require Import ZArith Lia Bool.
From stdpp Require Import base numbers list strings sorting relations.

Local Open Scope Z_scope.

(** ** Constants of [ecma-globals.h]

    The enumerations [ecma_magic_string_id_t] and [ecma_simple_value_t] are
    declared in [ecma-globals.h], which is not among the sources at hand.
    As in C, their enumerators are integers; the ones the built-in names
    are taken as parameters. *)

Class ecma_globals_h : Type := {
  ECMA_MAGIC_STRING_CONSTRUCTOR : Z;
  ECMA_MAGIC_STRING_TO_STRING_UL : Z;
  ECMA_MAGIC_STRING_VALUE_OF_UL : Z;
  ECMA_MAGIC_STRING_BOOLEAN_UL : Z;
  ECMA_MAGIC_STRING_FUNCTION_UL : Z;
  ECMA_MAGIC_STRING_ERROR_UL : Z;
  ECMA_MAGIC_STRING_TRUE : Z;
  ECMA_MAGIC_STRING_FALSE : Z;
  ECMA_SIMPLE_VALUE_EMPTY : Z;
  ECMA_SIMPLE_VALUE_UNDEFINED : Z;
  ECMA_SIMPLE_VALUE_FALSE : Z;
  ECMA_SIMPLE_VALUE_TRUE : Z;
  ECMA_SIMPLE_VALUE__COUNT : Z
}.

(** ** Data model

    The integer types of the source ([ecma_magic_string_id_t],
    [ecma_simple_value_t], [ecma_length_t]) are [Z]; a pointer to an object
    of the heap is the position of the object in the heap. *)

Abbreviation ecma_magic_string_id_t := Z (only parsing).
Abbreviation ecma_simple_value_t := Z (only parsing).
Abbreviation ecma_length_t := Z (only parsing).

Abbreviation ecma_object_p := nat (only parsing).

Inductive ecma_builtin_id_t : Type :=
| ECMA_BUILTIN_ID_BOOLEAN
| ECMA_BUILTIN_ID_BOOLEAN_PROTOTYPE.

Inductive ecma_standard_error_t : Type :=
| ECMA_ERROR_COMMON
| ECMA_ERROR_EVAL
| ECMA_ERROR_RANGE
| ECMA_ERROR_REFERENCE
| ECMA_ERROR_SYNTAX
| ECMA_ERROR_TYPE
| ECMA_ERROR_URI.

(** A string descriptor: either the container of a magic string, holding
    its identifier, or any other string. *)
Inductive ecma_string_t : Type :=
| ECMA_STRING_CONTAINER_MAGIC_STRING (id : ecma_magic_string_id_t)
| ECMA_STRING_CONTAINER_CHARS (chars : string).

Inductive ecma_type_t : Type :=
| ECMA_TYPE_SIMPLE
| ECMA_TYPE_NUMBER
| ECMA_TYPE_STRING
| ECMA_TYPE_OBJECT.

(** [ecma_value_t]: the constructor is the [value_type] field, the argument
    is the [value] field (a simple value, or what the pointer refers to). *)
Inductive ecma_value_t : Type :=
| ecma_simple (v : ecma_simple_value_t)
| ecma_number (num_p : nat)
| ecma_string (str : ecma_string_t)
| ecma_object (obj_p : ecma_object_p).

Definition value_type (v : ecma_value_t) : ecma_type_t :=
  match v with
  | ecma_simple _ => ECMA_TYPE_SIMPLE
  | ecma_number _ => ECMA_TYPE_NUMBER
  | ecma_string _ => ECMA_TYPE_STRING
  | ecma_object _ => ECMA_TYPE_OBJECT
  end.

Inductive ecma_completion_value_t : Type :=
| Normal (v : ecma_value_t)
| Throw (v : ecma_value_t)
| Return (v : ecma_value_t)
| Exit (ok : bool).

Inductive ecma_property_writable_value_t : Type :=
| ECMA_PROPERTY_NOT_WRITABLE
| ECMA_PROPERTY_WRITABLE.

Inductive ecma_property_enumerable_value_t : Type :=
| ECMA_PROPERTY_NOT_ENUMERABLE
| ECMA_PROPERTY_ENUMERABLE.

Inductive ecma_property_configurable_value_t : Type :=
| ECMA_PROPERTY_NOT_CONFIGURABLE
| ECMA_PROPERTY_CONFIGURABLE.

Inductive ecma_internal_property_id_t : Type :=
| ECMA_INTERNAL_PROPERTY_CLASS
| ECMA_INTERNAL_PROPERTY_PRIMITIVE_BOOLEAN_VALUE
| ECMA_INTERNAL_PROPERTY_NON_INSTANTIATED_BUILT_IN_MASK_0_31
| ECMA_INTERNAL_PROPERTY_NON_INSTANTIATED_BUILT_IN_MASK_32_63.

(** A property of an object: a named data property, or an internal property
    whose [u.internal_property.value] is a [uint32_t]. *)
Inductive ecma_property_t : Type :=
| ECMA_PROPERTY_NAMEDDATA
    (name : ecma_string_t) (value : ecma_value_t)
    (writable : ecma_property_writable_value_t)
    (enumerable : ecma_property_enumerable_value_t)
    (configurable : ecma_property_configurable_value_t)
| ECMA_PROPERTY_INTERNAL (id : ecma_internal_property_id_t) (value : Z).

(** What an object is, beyond its property list. *)
Inductive ecma_object_kind : Type :=
| ECMA_OBJECT_GENERAL
| ECMA_OBJECT_BUILT_IN (id : ecma_builtin_id_t)
| ECMA_OBJECT_BUILT_IN_ROUTINE (id : ecma_builtin_id_t) (routine : ecma_magic_string_id_t)
| ECMA_OBJECT_STANDARD_ERROR (error : ecma_standard_error_t).

Record ecma_object_t : Type := mk_object {
  object_kind : ecma_object_kind;
  properties : list ecma_property_t
}.

(** Calls made to the allocator and the collector, in the order made. *)
Inductive ecma_gc_call : Type :=
| Call_ecma_ref_object (obj_p : ecma_object_p)
| Call_ecma_copy_value (v : ecma_value_t) (ref_if_object : bool)
| Call_ecma_gc_update_may_ref_younger_object_flag_by_value (obj_p : ecma_object_p) (v : ecma_value_t)
| Call_ecma_free_value (v : ecma_value_t) (deref_if_object : bool)
| Call_ecma_free_completion_value (c : ecma_completion_value_t).

Record ecma_engine : Type := mk_engine {
  heap : list ecma_object_t;
  ecma_builtin_objects : list (ecma_builtin_id_t * ecma_object_p);
  gc_calls : list ecma_gc_call
}.

#[global] Instance ecma_builtin_id_eq_dec : EqDecision ecma_builtin_id_t.
Proof. solve_decision. Defined.
#[global] Instance ecma_string_eq_dec : EqDecision ecma_string_t.
Proof. solve_decision. Defined.
#[global] Instance ecma_internal_property_id_eq_dec : EqDecision ecma_internal_property_id_t.
Proof. solve_decision. Defined.

(** ** The monad of the routines *)

Inductive jerry_trap : Type :=
| JERRY_ASSERT_failed (line : nat)
| JERRY_UNREACHABLE_reached (line : nat)
| ECMA_GET_POINTER_invalid (obj_p : ecma_object_p)
| ecma_get_internal_property_missing (obj_p : ecma_object_p) (id : ecma_internal_property_id_t).

Inductive outcome (A : Type) : Type :=
| Returned (a : A) (st : ecma_engine)
| Trapped (t : jerry_trap).
Arguments Returned {A} a st.
Arguments Trapped {A} t.

Definition jerry (A : Type) : Type := ecma_engine -> outcome A.

Definition ret {A} (a : A) : jerry A := fun st => Returned a st.

Definition bind {A B} (m : jerry A) (k : A -> jerry B) : jerry B :=
  fun st => match m st with
            | Returned a st' => k a st'
            | Trapped t => Trapped t
            end.

Definition trap {A} (t : jerry_trap) : jerry A := fun _ => Trapped t.

Notation "'let*' x ':=' m 'in' k" := (bind m (fun x => k))
  (at level 10, x name, m at level 100, k at level 200).
Notation "m ';;;' k" := (bind m (fun _ => k))
  (at level 100, k at level 200, right associativity).

Definition JERRY_ASSERT (line : nat) (cond : bool) : jerry unit :=
  if cond then ret tt else trap (JERRY_ASSERT_failed line).

Definition JERRY_UNREACHABLE {A} (line : nat) : jerry A :=
  trap (JERRY_UNREACHABLE_reached line).

(** The engine after one more call to the collector, and after the
    allocation of one more object. *)
Definition with_gc_call (st : ecma_engine) (c : ecma_gc_call) : ecma_engine :=
  mk_engine (heap st) (ecma_builtin_objects st) (gc_calls st ++ [c]).

Definition with_new_object (st : ecma_engine) (o : ecma_object_t) : ecma_engine :=
  mk_engine (heap st ++ [o]) (ecma_builtin_objects st) (gc_calls st).

(** The engine in which the object at [obj_p] is replaced. *)
Definition with_object (st : ecma_engine) (obj_p : ecma_object_p) (o : ecma_object_t)
    : ecma_engine :=
  mk_engine (<[obj_p := o]> (heap st)) (ecma_builtin_objects st) (gc_calls st).

Definition gc_call (c : ecma_gc_call) : jerry unit :=
  fun st => Returned tt (with_gc_call st c).

(** ** The object model, as far as the routines use it

    None of the functions of this part is among the sources at hand; each
    is modelled from the specification's description of the object model. *)

(** Modelled from the spec: [ecma_find_internal_property] is missing; an
    internal slot is looked up by its identifier in the property list. *)
Fixpoint ecma_find_internal_property (ps : list ecma_property_t)
    (id : ecma_internal_property_id_t) : option Z :=
  match ps with
  | [] => None
  | ECMA_PROPERTY_INTERNAL id' v :: ps' =>
      if decide (id' = id) then Some v else ecma_find_internal_property ps' id
  | _ :: ps' => ecma_find_internal_property ps' id
  end.

(** Assignment to [u.internal_property.value] through a property pointer. *)
Fixpoint set_internal_property_value (ps : list ecma_property_t)
    (id : ecma_internal_property_id_t) (v : Z) : list ecma_property_t :=
  match ps with
  | [] => []
  | ECMA_PROPERTY_INTERNAL id' v' :: ps' =>
      if decide (id' = id) then ECMA_PROPERTY_INTERNAL id' v :: ps'
      else ECMA_PROPERTY_INTERNAL id' v' :: set_internal_property_value ps' id v
  | p :: ps' => p :: set_internal_property_value ps' id v
  end.

(** Modelled from the spec: [ecma_find_named_property] is missing
    ([find_property(object, name) -> Option<Record>]). *)
Fixpoint ecma_find_named_property (ps : list ecma_property_t)
    (name : ecma_string_t) : option ecma_property_t :=
  match ps with
  | [] => None
  | ECMA_PROPERTY_NAMEDDATA name' v w e c :: ps' =>
      if decide (name' = name) then Some (ECMA_PROPERTY_NAMEDDATA name' v w e c)
      else ecma_find_named_property ps' name
  | _ :: ps' => ecma_find_named_property ps' name
  end.

(** Assignment to [u.named_data_property.value] through a property pointer. *)
Fixpoint set_named_data_property_value (ps : list ecma_property_t)
    (name : ecma_string_t) (v : ecma_value_t) : list ecma_property_t :=
  match ps with
  | [] => []
  | ECMA_PROPERTY_NAMEDDATA name' v' w e c :: ps' =>
      if decide (name' = name) then ECMA_PROPERTY_NAMEDDATA name' v w e c :: ps'
      else ECMA_PROPERTY_NAMEDDATA name' v' w e c :: set_named_data_property_value ps' name v
  | p :: ps' => p :: set_named_data_property_value ps' name v
  end.

(** Removal of the record of a name from a property list. *)
Fixpoint delete_named_property (ps : list ecma_property_t)
    (name : ecma_string_t) : list ecma_property_t :=
  match ps with
  | [] => []
  | ECMA_PROPERTY_NAMEDDATA name' v w e c :: ps' =>
      if decide (name' = name) then ps'
      else ECMA_PROPERTY_NAMEDDATA name' v w e c :: delete_named_property ps' name
  | p :: ps' => p :: delete_named_property ps' name
  end.

(** Modelled from the spec: the macro [ECMA_GET_POINTER] is missing; it
    gives the object a pointer refers to, and a pointer to no live object is
    an engine-invariant violation. *)
Definition ECMA_GET_POINTER (obj_p : ecma_object_p) : jerry ecma_object_t :=
  fun st => match heap st !! obj_p with
            | Some o => Returned o st
            | None => Trapped (ECMA_GET_POINTER_invalid obj_p)
            end.

Definition set_object (obj_p : ecma_object_p) (o : ecma_object_t) : jerry unit :=
  fun st => Returned tt (with_object st obj_p o).

(** Modelled from the spec: [ecma_create_object] is missing; the allocator
    returns a new object, whose pointer is the next free position. *)
Definition ecma_create_object (o : ecma_object_t) : jerry ecma_object_p :=
  fun st => Returned (length (heap st)) (with_new_object st o).

(** Pointer to an internal property, and pointer to a named data property:
    the owning object and the key of the property in its list. *)
Abbreviation ecma_internal_property_p := (nat * ecma_internal_property_id_t)%type (only parsing).
Abbreviation ecma_named_property_p := (nat * ecma_string_t)%type (only parsing).

(** Modelled from the spec: [ecma_get_internal_property] is missing
    ([get_internal_slot(object, slotId)]); a required slot that is absent is
    an engine-invariant violation and traps. *)
Definition ecma_get_internal_property (obj_p : ecma_object_p)
    (id : ecma_internal_property_id_t) : jerry ecma_internal_property_p :=
  let* o := ECMA_GET_POINTER obj_p in
  match ecma_find_internal_property (properties o) id with
  | Some _ => ret (obj_p, id)
  | None => trap (ecma_get_internal_property_missing obj_p id)
  end.

(** Read of [prop_p->u.internal_property.value]. *)
Definition internal_property_value (prop_p : ecma_internal_property_p) : jerry Z :=
  let* o := ECMA_GET_POINTER (fst prop_p) in
  match ecma_find_internal_property (properties o) (snd prop_p) with
  | Some v => ret v
  | None => trap (ecma_get_internal_property_missing (fst prop_p) (snd prop_p))
  end.

(** Write of [prop_p->u.internal_property.value]. *)
Definition internal_property_assign (prop_p : ecma_internal_property_p) (v : Z) : jerry unit :=
  let* o := ECMA_GET_POINTER (fst prop_p) in
  set_object (fst prop_p)
    (mk_object (object_kind o) (set_internal_property_value (properties o) (snd prop_p) v)).

(** Write of [prop_p->u.named_data_property.value]. *)
Definition named_data_property_assign (prop_p : ecma_named_property_p) (v : ecma_value_t) : jerry unit :=
  let* o := ECMA_GET_POINTER (fst prop_p) in
  set_object (fst prop_p)
    (mk_object (object_kind o) (set_named_data_property_value (properties o) (snd prop_p) v)).

(** The record a named-property pointer refers to. *)
Definition named_data_property_at (st : ecma_engine) (prop_p : ecma_named_property_p)
    : option ecma_property_t :=
  match heap st !! fst prop_p with
  | Some o => ecma_find_named_property (properties o) (snd prop_p)
  | None => None
  end.

(** The value of an internal slot of an object of the heap. *)
Definition internal_slot (st : ecma_engine) (obj_p : ecma_object_p)
    (id : ecma_internal_property_id_t) : option Z :=
  match heap st !! obj_p with
  | Some o => ecma_find_internal_property (properties o) id
  | None => None
  end.

(** Modelled from the spec: [ecma_is_string_magic] is missing
    ([is_interned(str) -> Option<StringId>]). *)
Definition ecma_is_string_magic (str : ecma_string_t) : option ecma_magic_string_id_t :=
  match str with
  | ECMA_STRING_CONTAINER_MAGIC_STRING id => Some id
  | ECMA_STRING_CONTAINER_CHARS _ => None
  end.

(** Modelled from the spec: [ecma_get_magic_string] is missing
    ([intern(text) -> StringId]): the string of a magic-string identifier. *)
Definition ecma_get_magic_string (id : ecma_magic_string_id_t) : ecma_string_t :=
  ECMA_STRING_CONTAINER_MAGIC_STRING id.

(** Modelled from the spec: [ecma_make_simple_value] is missing; it builds
    the Value of a simple value. *)
Definition ecma_make_simple_value (v : ecma_simple_value_t) : ecma_value_t := ecma_simple v.

(** Modelled from the spec: [ecma_make_string_value] is missing; it builds
    the Value that refers to a string. *)
Definition ecma_make_string_value (str : ecma_string_t) : ecma_value_t := ecma_string str.

(** Modelled from the spec: [ecma_make_object_value] is missing; it builds
    the Value that refers to an object. *)
Definition ecma_make_object_value (obj_p : ecma_object_p) : ecma_value_t := ecma_object obj_p.

(** Modelled from the spec: [ecma_make_normal_completion_value] is missing;
    it builds Normal(v). *)
Definition ecma_make_normal_completion_value (v : ecma_value_t) : ecma_completion_value_t :=
  Normal v.

(** Modelled from the spec: [ecma_make_throw_obj_completion_value] is
    missing; it builds the Throw that carries an error object. *)
Definition ecma_make_throw_obj_completion_value (obj_p : ecma_object_p) : ecma_completion_value_t :=
  Throw (ecma_make_object_value obj_p).

(** Modelled from the spec: [ecma_is_completion_value_throw] is missing; it
    recognises a Throw. *)
Definition ecma_is_completion_value_throw (c : ecma_completion_value_t) : bool :=
  match c with Throw _ => true | _ => false end.

(** Modelled from the spec: [ecma-try-catch-macro.h] is missing.  The
    short-circuit combinator of [ECMA_TRY_CATCH (var, op, ret_value)] ...
    [ECMA_FINALIZE (var)]: a Throw of [op] is forwarded as the result of the
    enclosing routine; otherwise the body runs with [var] bound, and [var]
    is released after it. *)
Definition ECMA_TRY_CATCH (op : jerry ecma_completion_value_t)
    (body : ecma_completion_value_t -> jerry ecma_completion_value_t)
    : jerry ecma_completion_value_t :=
  let* var := op in
  if ecma_is_completion_value_throw var then ret var
  else
    let* ret_value := body var in
    gc_call (Call_ecma_free_completion_value var) ;;;
    ret ret_value.

(** Modelled from the spec: [retain(Value)] of the allocator; with a false
    second argument the reference count of an object is left alone. *)
Definition ecma_copy_value (v : ecma_value_t) (ref_if_object : bool) : jerry ecma_value_t :=
  gc_call (Call_ecma_copy_value v ref_if_object) ;;; ret v.

(** Modelled from the spec: [release(Value)] of the allocator. *)
Definition ecma_free_value (v : ecma_value_t) (deref_if_object : bool) : jerry unit :=
  gc_call (Call_ecma_free_value v deref_if_object).

(** Modelled from the spec: [flag_may_reference_younger(object)] of the
    collector. *)
Definition ecma_gc_update_may_ref_younger_object_flag_by_value
    (obj_p : ecma_object_p) (v : ecma_value_t) : jerry unit :=
  gc_call (Call_ecma_gc_update_may_ref_younger_object_flag_by_value obj_p v).

Fixpoint builtin_object_lookup (tbl : list (ecma_builtin_id_t * ecma_object_p))
    (id : ecma_builtin_id_t) : option ecma_object_p :=
  match tbl with
  | [] => None
  | (id', p) :: tbl' => if decide (id' = id) then Some p else builtin_object_lookup tbl' id
  end.

(** Modelled from the spec: [ecma_builtin_is] is missing; an object is the
    built-in [id] when the table of instantiated built-ins maps [id] to it. *)
Definition ecma_builtin_is (obj_p : ecma_object_p) (id : ecma_builtin_id_t) : jerry bool :=
  fun st => Returned (bool_decide (builtin_object_lookup (ecma_builtin_objects st) id = Some obj_p)) st.

(** Modelled from the spec: [create_data_property(object, name, writable,
    enumerable, configurable) -> Record]; the new record holds undefined
    until it is assigned. *)
Definition ecma_create_named_data_property `{ecma_globals_h}
    (obj_p : ecma_object_p) (name : ecma_string_t)
    (writable : ecma_property_writable_value_t)
    (enumerable : ecma_property_enumerable_value_t)
    (configurable : ecma_property_configurable_value_t) : jerry ecma_named_property_p :=
  let* o := ECMA_GET_POINTER obj_p in
  set_object obj_p
    (mk_object (object_kind o)
       (ECMA_PROPERTY_NAMEDDATA name (ecma_make_simple_value ECMA_SIMPLE_VALUE_UNDEFINED)
          writable enumerable configurable :: properties o)) ;;;
  ret (obj_p, name).

(** Deletion of a named property by the object model (ECMA-262 v5, 8.12.7,
    [[Delete]]).  It stands for what the rest of the engine does to the
    named properties of an object between two instantiation attempts: it
    removes the record of the name and touches no internal slot. *)
Definition ecma_delete_named_property (obj_p : ecma_object_p) (name : ecma_string_t) : jerry unit :=
  let* o := ECMA_GET_POINTER obj_p in
  set_object obj_p (mk_object (object_kind o) (delete_named_property (properties o) name)).

Definition uint32_max : Z := 4294967295.

Section Boolean_prototype.

Context `{G : ecma_globals_h}.

Definition value_undefined : ecma_value_t := ecma_make_simple_value ECMA_SIMPLE_VALUE_UNDEFINED.

(** Modelled from the spec: [ecma_is_value_boolean] is missing; a value is a
    primitive boolean when it is the simple value true or false. *)
Definition ecma_is_value_boolean (v : ecma_value_t) : bool :=
  match v with
  | ecma_simple s => (s =? ECMA_SIMPLE_VALUE_TRUE) || (s =? ECMA_SIMPLE_VALUE_FALSE)
  | _ => false
  end.

(** Modelled from the spec: [ecma_is_completion_value_normal_true] is
    missing; it recognises Normal(true). *)
Definition ecma_is_completion_value_normal_true (c : ecma_completion_value_t) : bool :=
  match c with
  | Normal (ecma_simple s) => s =? ECMA_SIMPLE_VALUE_TRUE
  | _ => false
  end.

(** Modelled from the spec: [ecma_is_completion_value_normal_false] is
    missing; it recognises Normal(false). *)
Definition ecma_is_completion_value_normal_false (c : ecma_completion_value_t) : bool :=
  match c with
  | Normal (ecma_simple s) => s =? ECMA_SIMPLE_VALUE_FALSE
  | _ => false
  end.

(** Modelled from the spec: the layout of a standard error object is
    missing; it is an object of class Error that records its kind. *)
Definition standard_error_object (error : ecma_standard_error_t) : ecma_object_t :=
  mk_object (ECMA_OBJECT_STANDARD_ERROR error)
    [ECMA_PROPERTY_INTERNAL ECMA_INTERNAL_PROPERTY_CLASS ECMA_MAGIC_STRING_ERROR_UL].

(** Modelled from the spec: [ecma_new_standard_error] is missing; it
    constructs a new error object of the given kind. *)
Definition ecma_new_standard_error (error : ecma_standard_error_t) : jerry ecma_object_p :=
  ecma_create_object (standard_error_object error).

(** Modelled from the spec: [ecma_builtin_make_function_object_for_routine]
    is missing; a routine entry binds a new callable to the pair of the
    built-in's identifier and the routine's name. *)
Definition ecma_builtin_make_function_object_for_routine
    (builtin_id : ecma_builtin_id_t) (routine_id : ecma_magic_string_id_t) : jerry ecma_object_p :=
  ecma_create_object
    (mk_object (ECMA_OBJECT_BUILT_IN_ROUTINE builtin_id routine_id)
       [ECMA_PROPERTY_INTERNAL ECMA_INTERNAL_PROPERTY_CLASS ECMA_MAGIC_STRING_FUNCTION_UL]).

(** Modelled from the spec: the initialisation of a built-in object is
    missing; the object is created with its instantiation mask, every bit
    of which is set ("not yet instantiated"). *)
Definition ecma_builtin_init_object (id : ecma_builtin_id_t) : ecma_object_t :=
  mk_object (ECMA_OBJECT_BUILT_IN id)
    (match id with
     | ECMA_BUILTIN_ID_BOOLEAN =>
         [ECMA_PROPERTY_INTERNAL ECMA_INTERNAL_PROPERTY_CLASS ECMA_MAGIC_STRING_FUNCTION_UL]
     | ECMA_BUILTIN_ID_BOOLEAN_PROTOTYPE =>
         [ECMA_PROPERTY_INTERNAL ECMA_INTERNAL_PROPERTY_CLASS ECMA_MAGIC_STRING_BOOLEAN_UL;
          ECMA_PROPERTY_INTERNAL ECMA_INTERNAL_PROPERTY_PRIMITIVE_BOOLEAN_VALUE ECMA_SIMPLE_VALUE_FALSE]
     end ++
     [ECMA_PROPERTY_INTERNAL ECMA_INTERNAL_PROPERTY_NON_INSTANTIATED_BUILT_IN_MASK_0_31 uint32_max;
      ECMA_PROPERTY_INTERNAL ECMA_INTERNAL_PROPERTY_NON_INSTANTIATED_BUILT_IN_MASK_32_63 uint32_max]).

(** Modelled from the spec: [ecma_builtin_get] is missing; a value entry
    resolves a constant reference to the built-in object, which is created
    on first use; the caller receives a counted reference. *)
Definition ecma_builtin_get (id : ecma_builtin_id_t) : jerry ecma_object_p :=
  fun st =>
    match builtin_object_lookup (ecma_builtin_objects st) id with
    | Some p => (gc_call (Call_ecma_ref_object p) ;;; ret p) st
    | None =>
        (let* p := ecma_create_object (ecma_builtin_init_object id) in
         (fun st' => Returned tt (mk_engine (heap st') ((id, p) :: ecma_builtin_objects st') (gc_calls st'))) ;;;
         gc_call (Call_ecma_ref_object p) ;;;
         ret p) st
    end.

(** Modelled from the spec: the loop of the binary search
    ([lookup(sortedNames, id) -> index | NotFound]) is missing; [min] and
    [max] bound the part of the array still to search, -1 stands for
    NotFound.  The fuel bounds the number of iterations. *)
Fixpoint bin_search_loop (fuel : nat) (ids : list ecma_magic_string_id_t)
    (key : ecma_magic_string_id_t) (min max : Z) : Z :=
  match fuel with
  | O => -1
  | S fuel' =>
      if min <=? max then
        let mid := (min + max) `quot` 2 in
        match ids !! Z.to_nat mid with
        | Some x =>
            if x =? key then mid
            else if x >? key then bin_search_loop fuel' ids key min (mid - 1)
            else bin_search_loop fuel' ids key (mid + 1) max
        | None => -1
        end
      else -1
  end.

(** Modelled from the spec: [ecma_builtin_bin_search_for_magic_string_id_in_array]
    is missing; it searches the whole array, with fuel for more iterations
    than the array has elements. *)
Definition ecma_builtin_bin_search_for_magic_string_id_in_array
    (ids : list ecma_magic_string_id_t) (array_length : ecma_length_t)
    (key : ecma_magic_string_id_t) : Z :=
  bin_search_loop (S (Z.to_nat array_length)) ids key 0 (array_length - 1).

(** ** The source, function by function *)

(** The Boolean.prototype object's 'valueOf' routine (lines 134-165).  The
    nested [if] either returns or falls through to the final [return]. *)
Definition ecma_builtin_boolean_prototype_object_value_of (this : ecma_value_t)
    : jerry ecma_completion_value_t :=
  let* returned :=
    (if ecma_is_value_boolean this then
       ret (Some (ecma_make_normal_completion_value this))
     else
       match this with
       | ecma_object obj_p =>
           let* class_prop_p := ecma_get_internal_property obj_p ECMA_INTERNAL_PROPERTY_CLASS in
           let* class_value := internal_property_value class_prop_p in
           if class_value =? ECMA_MAGIC_STRING_BOOLEAN_UL then
             let* prim_value_prop_p :=
               ecma_get_internal_property obj_p ECMA_INTERNAL_PROPERTY_PRIMITIVE_BOOLEAN_VALUE in
             let* prim_value := internal_property_value prim_value_prop_p in
             JERRY_ASSERT 152 (prim_value <? ECMA_SIMPLE_VALUE__COUNT) ;;;
             let prim_simple_value : ecma_simple_value_t := prim_value in
             let ret_boolean_value := ecma_make_simple_value prim_simple_value in
             JERRY_ASSERT 158 (ecma_is_value_boolean ret_boolean_value) ;;;
             ret (Some (ecma_make_normal_completion_value ret_boolean_value))
           else ret None
       | _ => ret None
       end) in
  match returned with
  | Some completion => ret completion
  | None =>
      let* error_obj_p := ecma_new_standard_error ECMA_ERROR_TYPE in
      ret (ecma_make_throw_obj_completion_value error_obj_p)
  end.

(** The Boolean.prototype object's 'toString' routine (lines 96-123). *)
Definition ecma_builtin_boolean_prototype_object_to_string (this : ecma_value_t)
    : jerry ecma_completion_value_t :=
  ECMA_TRY_CATCH (ecma_builtin_boolean_prototype_object_value_of this)
    (fun completion_value_of =>
       let* ret_str_p :=
         (if ecma_is_completion_value_normal_true completion_value_of then
            ret (ecma_get_magic_string ECMA_MAGIC_STRING_TRUE)
          else
            JERRY_ASSERT 113 (ecma_is_completion_value_normal_false completion_value_of) ;;;
            ret (ecma_get_magic_string ECMA_MAGIC_STRING_FALSE)) in
       ret (ecma_make_normal_completion_value (ecma_make_string_value ret_str_p))).

(** An entry of the routine list: 'macro (name, C function name, arguments
    number of the routine, length value of the routine)'.  The C function
    receives [this] and the [args_number] arguments the dispatcher builds. *)
Record routine_property : Type := mk_routine {
  routine_name : ecma_magic_string_id_t;
  c_function : ecma_value_t -> list ecma_value_t -> jerry ecma_completion_value_t;
  args_number : nat;
  routine_length : ecma_length_t
}.

(** List of the Boolean.prototype object built-in object value properties in
    format 'macro (name, value)' (lines 44-45). *)
Definition ECMA_BUILTIN_BOOLEAN_PROTOTYPE_OBJECT_OBJECT_VALUES_PROPERTY_LIST
    : list (ecma_magic_string_id_t * jerry ecma_object_p) :=
  [ (ECMA_MAGIC_STRING_CONSTRUCTOR, ecma_builtin_get ECMA_BUILTIN_ID_BOOLEAN) ].

(** List of the Boolean.prototype object built-in routine properties
    (lines 51-59). *)
Definition ECMA_BUILTIN_BOOLEAN_PROTOTYPE_OBJECT_ROUTINES_PROPERTY_LIST
    : list routine_property :=
  [ mk_routine ECMA_MAGIC_STRING_TO_STRING_UL
      (fun this _ => ecma_builtin_boolean_prototype_object_to_string this) 0 0;
    mk_routine ECMA_MAGIC_STRING_VALUE_OF_UL
      (fun this _ => ecma_builtin_boolean_prototype_object_value_of this) 0 0 ].

(** List of the Boolean.prototype object's built-in property names
    (lines 71-79): the value properties, then the routine properties. *)
Definition ecma_builtin_property_names : list ecma_magic_string_id_t :=
  map fst ECMA_BUILTIN_BOOLEAN_PROTOTYPE_OBJECT_OBJECT_VALUES_PROPERTY_LIST ++
  map routine_name ECMA_BUILTIN_BOOLEAN_PROTOTYPE_OBJECT_ROUTINES_PROPERTY_LIST.

(** Number of the Boolean.prototype object's built-in properties
    (lines 84-85). *)
Definition ecma_builtin_boolean_prototype_property_number : ecma_length_t :=
  Z.of_nat (length ecma_builtin_property_names).

(** [(uint32_t) 1u << n] and [~bit] on [uint32_t]. *)
Definition uint32_shl1 (n : Z) : Z := (Z.shiftl 1 n) `mod` 2 ^ 32.
Definition uint32_not (x : Z) : Z := (Z.lnot x) `mod` 2 ^ 32.

(** [ecma_builtin_boolean_prototype_try_to_instantiate_property]
    (lines 175-285); [None] is the NULL pointer. *)
Definition ecma_builtin_boolean_prototype_try_to_instantiate_property
    (obj_p : ecma_object_p) (prop_name_p : ecma_string_t)
    : jerry (option ecma_named_property_p) :=
  let* is_builtin := ecma_builtin_is obj_p ECMA_BUILTIN_ID_BOOLEAN_PROTOTYPE in
  JERRY_ASSERT 179 is_builtin ;;;
  let* o := ECMA_GET_POINTER obj_p in
  JERRY_ASSERT 180 (bool_decide (ecma_find_named_property (properties o) prop_name_p = None)) ;;;
  match ecma_is_string_magic prop_name_p with
  | None => ret None
  | Some id =>
      let index :=
        ecma_builtin_bin_search_for_magic_string_id_in_array
          ecma_builtin_property_names ecma_builtin_boolean_prototype_property_number id in
      if index =? -1 then ret None
      else
        JERRY_ASSERT 198 ((index >=? 0) && (index <? 64)) ;;;
        let '(mask_prop_id, bit) :=
          if index >=? 32 then
            (ECMA_INTERNAL_PROPERTY_NON_INSTANTIATED_BUILT_IN_MASK_32_63, uint32_shl1 (index - 32))
          else
            (ECMA_INTERNAL_PROPERTY_NON_INSTANTIATED_BUILT_IN_MASK_0_31, uint32_shl1 index) in
        let* mask_prop_p := ecma_get_internal_property obj_p mask_prop_id in
        let* bit_mask := internal_property_value mask_prop_p in
        if Z.land bit_mask bit =? 0 then ret None
        else
          let bit_mask := Z.land bit_mask (uint32_not bit) in
          internal_property_assign mask_prop_p bit_mask ;;;
          let value := ecma_make_simple_value ECMA_SIMPLE_VALUE_EMPTY in
          let writable := ECMA_PROPERTY_WRITABLE in
          let enumerable := ECMA_PROPERTY_NOT_ENUMERABLE in
          let configurable := ECMA_PROPERTY_CONFIGURABLE in
          let* switched :=
            (if existsb (Z.eqb id)
                  (map routine_name ECMA_BUILTIN_BOOLEAN_PROTOTYPE_OBJECT_ROUTINES_PROPERTY_LIST)
             then
               let* func_obj_p :=
                 ecma_builtin_make_function_object_for_routine ECMA_BUILTIN_ID_BOOLEAN_PROTOTYPE id in
               ret (ecma_make_object_value func_obj_p, writable, enumerable, configurable)
             else if existsb (Z.eqb id)
                       (map fst ECMA_BUILTIN_BOOLEAN_PROTOTYPE_OBJECT_OBJECT_VALUES_PROPERTY_LIST)
             then
               let writable := ECMA_PROPERTY_NOT_WRITABLE in
               let enumerable := ECMA_PROPERTY_NOT_ENUMERABLE in
               let configurable := ECMA_PROPERTY_NOT_CONFIGURABLE in
               match find (fun entry => id =? fst entry)
                       ECMA_BUILTIN_BOOLEAN_PROTOTYPE_OBJECT_OBJECT_VALUES_PROPERTY_LIST with
               | Some (_, value_obj) =>
                   let* value_obj_p := value_obj in
                   ret (ecma_make_object_value value_obj_p, writable, enumerable, configurable)
               | None => JERRY_UNREACHABLE 259
               end
             else JERRY_UNREACHABLE 268) in
          let '(value, writable, enumerable, configurable) := switched in
          let* prop_p :=
            ecma_create_named_data_property obj_p prop_name_p writable enumerable configurable in
          let* copied := ecma_copy_value value false in
          named_data_property_assign prop_p copied ;;;
          ecma_gc_update_may_ref_younger_object_flag_by_value obj_p copied ;;;
          ecma_free_value value true ;;;
          ret (Some prop_p)
  end.

(** [ROUTINE_ARG(n)]: [(arguments_number >= n ? arguments_list[n - 1] :
    value_undefined)] (line 305). *)
Definition ROUTINE_ARG (arguments_list : list ecma_value_t) (arguments_number : ecma_length_t)
    (n : nat) : ecma_value_t :=
  if arguments_number >=? Z.of_nat n then nth (n - 1) arguments_list value_undefined
  else value_undefined.

(** [ROUTINE_ARG_LIST_n]: the arguments [ROUTINE_ARG(1)], ..., [ROUTINE_ARG(n)]
    (lines 306-309). *)
Definition ROUTINE_ARG_LIST (n : nat) (arguments_list : list ecma_value_t)
    (arguments_number : ecma_length_t) : list ecma_value_t :=
  ROUTINE_ARG arguments_list arguments_number <$> seq 1 n.

(** Dispatcher of the Boolean.prototype object's built-in routines
    (lines 293-329). *)
Definition ecma_builtin_boolean_prototype_dispatch_routine
    (builtin_routine_id : ecma_magic_string_id_t) (this_arg_value : ecma_value_t)
    (arguments_list : list ecma_value_t) (arguments_number : ecma_length_t)
    : jerry ecma_completion_value_t :=
  match find (fun r => builtin_routine_id =? routine_name r)
          ECMA_BUILTIN_BOOLEAN_PROTOTYPE_OBJECT_ROUTINES_PROPERTY_LIST with
  | Some r =>
      c_function r this_arg_value (ROUTINE_ARG_LIST (args_number r) arguments_list arguments_number)
  | None => JERRY_UNREACHABLE 326
  end.

(** Get number of routine's parameters (lines 336-352). *)
Definition ecma_builtin_boolean_prototype_get_routine_parameters_number
    (builtin_routine_id : ecma_magic_string_id_t) : jerry ecma_length_t :=
  match find (fun r => builtin_routine_id =? routine_name r)
          ECMA_BUILTIN_BOOLEAN_PROTOTYPE_OBJECT_ROUTINES_PROPERTY_LIST with
  | Some r => ret (routine_length r)
  | None => JERRY_UNREACHABLE 349
  end.

(** ** Notions the properties are stated with *)

(** The object-model invariant a [this] value meets: an object value refers
    to a live object that has a class slot, and an object of class Boolean
    has a primitive-value slot holding true or false. *)
Definition this_value_wf (st : ecma_engine) (this : ecma_value_t) : bool :=
  match this with
  | ecma_object obj_p =>
      match internal_slot st obj_p ECMA_INTERNAL_PROPERTY_CLASS with
      | Some class_value =>
          if class_value =? ECMA_MAGIC_STRING_BOOLEAN_UL then
            match internal_slot st obj_p ECMA_INTERNAL_PROPERTY_PRIMITIVE_BOOLEAN_VALUE with
            | Some b => ecma_is_value_boolean (ecma_simple b)
            | None => false
            end
          else true
      | None => false
      end
  | _ => true
  end.

(** The [switch (id)] of lines 231-270 of
    [ecma_builtin_boolean_prototype_try_to_instantiate_property]: the
    payload of the new property and its attributes. *)
Definition instantiate_switch (id : ecma_magic_string_id_t)
    : jerry (ecma_value_t * ecma_property_writable_value_t *
             ecma_property_enumerable_value_t * ecma_property_configurable_value_t) :=
  if existsb (Z.eqb id)
       (map routine_name ECMA_BUILTIN_BOOLEAN_PROTOTYPE_OBJECT_ROUTINES_PROPERTY_LIST)
  then
    let* func_obj_p :=
      ecma_builtin_make_function_object_for_routine ECMA_BUILTIN_ID_BOOLEAN_PROTOTYPE id in
    ret (ecma_make_object_value func_obj_p, ECMA_PROPERTY_WRITABLE,
         ECMA_PROPERTY_NOT_ENUMERABLE, ECMA_PROPERTY_CONFIGURABLE)
  else if existsb (Z.eqb id)
            (map fst ECMA_BUILTIN_BOOLEAN_PROTOTYPE_OBJECT_OBJECT_VALUES_PROPERTY_LIST)
  then
    match find (fun entry => id =? fst entry)
            ECMA_BUILTIN_BOOLEAN_PROTOTYPE_OBJECT_OBJECT_VALUES_PROPERTY_LIST with
    | Some (_, value_obj) =>
        let* value_obj_p := value_obj in
        ret (ecma_make_object_value value_obj_p, ECMA_PROPERTY_NOT_WRITABLE,
             ECMA_PROPERTY_NOT_ENUMERABLE, ECMA_PROPERTY_NOT_CONFIGURABLE)
    | None => JERRY_UNREACHABLE 259
    end
  else JERRY_UNREACHABLE 268.

(** Lines 272-284 of the same function: the creation of the property, the
    store of the payload and the hand-over to the collector. *)
Definition instantiate_store (obj_p : ecma_object_p) (prop_name_p : ecma_string_t)
    (switched : ecma_value_t * ecma_property_writable_value_t *
                ecma_property_enumerable_value_t * ecma_property_configurable_value_t)
    : jerry (option ecma_named_property_p) :=
  let '(value, writable, enumerable, configurable) := switched in
  let* prop_p :=
    ecma_create_named_data_property obj_p prop_name_p writable enumerable configurable in
  let* copied := ecma_copy_value value false in
  named_data_property_assign prop_p copied ;;;
  ecma_gc_update_may_ref_younger_object_flag_by_value obj_p copied ;;;
  ecma_free_value value true ;;;
  ret (Some prop_p).

(** The bit of the instantiation mask of a built-in object at a registry
    index: the low field covers the indices [0,32), the high one [32,64);
    a set bit means "not yet instantiated". *)
Definition mask_of_index (index : Z) : ecma_internal_property_id_t * Z :=
  if index >=? 32 then
    (ECMA_INTERNAL_PROPERTY_NON_INSTANTIATED_BUILT_IN_MASK_32_63, index - 32)
  else
    (ECMA_INTERNAL_PROPERTY_NON_INSTANTIATED_BUILT_IN_MASK_0_31, index).

Definition non_instantiated_bit (st : ecma_engine) (obj_p : ecma_object_p) (index : nat)
    : option bool :=
  match internal_slot st obj_p (fst (mask_of_index (Z.of_nat index))) with
  | Some bit_mask => Some (Z.testbit bit_mask (snd (mask_of_index (Z.of_nat index))))
  | None => None
  end.

(** Strictly increasing order of an array of identifiers. *)
Fixpoint strictly_increasing (ids : list ecma_magic_string_id_t) : bool :=
  match ids with
  | x :: ((y :: _) as ids') => (x <? y) && strictly_increasing ids'
  | _ => true
  end.

(** The preconditions asserted on entry of the instantiation (lines
    179-180), and the presence of the instantiation mask a built-in object
    is created with. *)
Definition try_to_instantiate_pre (st : ecma_engine) (obj_p : ecma_object_p)
    (prop_name_p : ecma_string_t) : bool :=
  bool_decide (builtin_object_lookup (ecma_builtin_objects st) ECMA_BUILTIN_ID_BOOLEAN_PROTOTYPE
               = Some obj_p) &&
  match heap st !! obj_p with
  | Some o =>
      bool_decide (ecma_find_named_property (properties o) prop_name_p = None) &&
      bool_decide (is_Some (ecma_find_internal_property (properties o)
                              ECMA_INTERNAL_PROPERTY_NON_INSTANTIATED_BUILT_IN_MASK_0_31))
  | None => false
  end.

(** One operation of the built-in on the engine: an instantiation attempt,
    a dispatched routine, an arity lookup, or the deletion of a named
    property by the object model. *)
Inductive builtin_step : ecma_engine -> ecma_engine -> Prop :=
| step_try_to_instantiate obj_p prop_name_p r st st' :
    ecma_builtin_boolean_prototype_try_to_instantiate_property obj_p prop_name_p st
    = Returned r st' ->
    builtin_step st st'
| step_dispatch_routine id this args n c st st' :
    ecma_builtin_boolean_prototype_dispatch_routine id this args n st = Returned c st' ->
    builtin_step st st'
| step_get_routine_parameters_number id n st st' :
    ecma_builtin_boolean_prototype_get_routine_parameters_number id st = Returned n st' ->
    builtin_step st st'
| step_delete_named_property obj_p name st st' :
    ecma_delete_named_property obj_p name st = Returned tt st' ->
    builtin_step st st'.

(** From one engine to a later one, the bits of the internal slots only
    ever clear: a slot that exists still exists, and each of its bits that
    is clear is still clear. *)
Definition bits_only_clear (st st' : ecma_engine) : Prop :=
  forall p id v,
    internal_slot st p id = Some v ->
    exists v', internal_slot st' p id = Some v' /\
               forall k, Z.testbit v k = false -> Z.testbit v' k = false.

(** Whether a call to the collector releases a value. *)
Definition is_free_value_call (c : ecma_gc_call) : bool :=
  match c with
  | Call_ecma_free_value _ _ => true
  | _ => false
  end.

Definition is_standard_error (o : ecma_object_t) : bool :=
  match object_kind o with
  | ECMA_OBJECT_STANDARD_ERROR _ => true
  | _ => false
  end.

(** One operation of the built-in itself on the engine: an instantiation
    attempt, a dispatched routine or an arity lookup. *)
Inductive builtin_op : ecma_engine -> ecma_engine -> Prop :=
| op_try_to_instantiate obj_p prop_name_p r st st' :
    ecma_builtin_boolean_prototype_try_to_instantiate_property obj_p prop_name_p st
    = Returned r st' ->
    builtin_op st st'
| op_dispatch_routine id this args n c st st' :
    ecma_builtin_boolean_prototype_dispatch_routine id this args n st = Returned c st' ->
    builtin_op st st'
| op_get_routine_parameters_number id n st st' :
    ecma_builtin_boolean_prototype_get_routine_parameters_number id st = Returned n st' ->
    builtin_op st st'.

(** The number of records a property list holds for a name. *)
Fixpoint count_named_properties (ps : list ecma_property_t) (name : ecma_string_t) : nat :=
  match ps with
  | [] => 0
  | ECMA_PROPERTY_NAMEDDATA name' _ _ _ _ :: ps' =>
      (if decide (name' = name) then 1 else 0) + count_named_properties ps' name
  | _ :: ps' => count_named_properties ps' name
  end.

(** The number of records an object of the heap holds for a name. *)
Definition named_property_count (st : ecma_engine) (obj_p : ecma_object_p)
    (name : ecma_string_t) : nat :=
  match heap st !! obj_p with
  | Some o => count_named_properties (properties o) name
  | None => 0
  end.

(** The completion that throws a TypeError constructed in [st], and the
    engine that holds the new error object. *)
Definition Throw_TypeError (st : ecma_engine) : outcome ecma_completion_value_t :=
  Returned (Throw (ecma_object (length (heap st))))
    (with_new_object st (standard_error_object ECMA_ERROR_TYPE)).

End Boolean_prototype.

(** ** A sample numbering of the enumerators, and sample engines *)

Definition example_globals : ecma_globals_h := {|
  ECMA_MAGIC_STRING_CONSTRUCTOR := 3;
  ECMA_MAGIC_STRING_TO_STRING_UL := 40;
  ECMA_MAGIC_STRING_VALUE_OF_UL := 41;
  ECMA_MAGIC_STRING_BOOLEAN_UL := 25;
  ECMA_MAGIC_STRING_FUNCTION_UL := 21;
  ECMA_MAGIC_STRING_ERROR_UL := 26;
  ECMA_MAGIC_STRING_TRUE := 9;
  ECMA_MAGIC_STRING_FALSE := 8;
  ECMA_SIMPLE_VALUE_EMPTY := 0;
  ECMA_SIMPLE_VALUE_UNDEFINED := 1;
  ECMA_SIMPLE_VALUE_FALSE := 3;
  ECMA_SIMPLE_VALUE_TRUE := 4;
  ECMA_SIMPLE_VALUE__COUNT := 6
|}.

(** An engine whose heap holds the Boolean.prototype built-in (object 0), a
    Boolean wrapper of true (object 1) and a plain object of class 20
    (object 2). *)
Definition example_engine : ecma_engine :=
  mk_engine
    [ @ecma_builtin_init_object example_globals ECMA_BUILTIN_ID_BOOLEAN_PROTOTYPE;
      mk_object ECMA_OBJECT_GENERAL
        [ECMA_PROPERTY_INTERNAL ECMA_INTERNAL_PROPERTY_CLASS 25;
         ECMA_PROPERTY_INTERNAL ECMA_INTERNAL_PROPERTY_PRIMITIVE_BOOLEAN_VALUE 4];
      mk_object ECMA_OBJECT_GENERAL
        [ECMA_PROPERTY_INTERNAL ECMA_INTERNAL_PROPERTY_CLASS 20] ]
    [(ECMA_BUILTIN_ID_BOOLEAN_PROTOTYPE, 0%nat)]
    [].

(** The engine an outcome returns, or a default one after a trap. *)
Definition engine_after {A} (o : outcome A) (default : ecma_engine) : ecma_engine :=
  match o with
  | Returned _ st => st
  | Trapped _ => default
  end.

(** [example_engine] after the instantiation of 'toString' on the
    Boolean.prototype built-in, and then after the deletion of the new
    property. *)
Definition example_engine_instantiated : ecma_engine :=
  Eval vm_compute in
    engine_after
      (@ecma_builtin_boolean_prototype_try_to_instantiate_property example_globals
         0%nat (ECMA_STRING_CONTAINER_MAGIC_STRING 40) example_engine)
      example_engine.

Definition example_engine_deleted : ecma_engine :=
  Eval vm_compute in
    engine_after
      (ecma_delete_named_property 0%nat (ECMA_STRING_CONTAINER_MAGIC_STRING 40)
         example_engine_instantiated)
      example_engine.

(** * Properties *)

(** ** Running the monad *)

Lemma bind_inv {A B} (m : jerry A) (k : A -> jerry B) st b st'' :
  bind m k st = Returned b st'' ->
  exists a st', m st = Returned a st' /\ k a st' = Returned b st''.
Proof.
  unfold bind. destruct (m st) as [a st'|t] eqn:E; [|discriminate].
  intros H. exists a, st'. split; [reflexivity|exact H].
Qed.

Lemma ECMA_GET_POINTER_inv st obj_p o st' :
  ECMA_GET_POINTER obj_p st = Returned o st' -> st' = st /\ heap st !! obj_p = Some o.
Proof.
  unfold ECMA_GET_POINTER. destruct (heap st !! obj_p); [|discriminate].
  intros [= -> ->]. split; reflexivity.
Qed.

Lemma JERRY_ASSERT_inv line cond st u st' :
  JERRY_ASSERT line cond st = Returned u st' -> cond = true /\ st' = st.
Proof. destruct cond; cbn; [intros [= _ ->]; split; reflexivity | discriminate]. Qed.

(** ** Binary search over a strictly sorted array *)

Lemma StronglySorted_lookup_lt (l : list Z) :
  StronglySorted Z.lt l ->
  forall (i j : nat) (x y : Z), l !! i = Some x -> l !! j = Some y -> (i < j)%nat -> x < y.
Proof.
  induction 1 as [|a l Hl IH Hall]; intros i j x y Hi Hj Hij.
  - rewrite lookup_nil in Hi. discriminate.
  - destruct j as [|j]; [lia|]. cbn in Hj. destruct i as [|i]; cbn in Hi.
    + injection Hi as ->. rewrite Forall_forall in Hall. apply Hall.
      apply list_elem_of_lookup. eauto.
    + apply (IH i j); [assumption|assumption|lia].
Qed.

Section Binary_search.

Variable ids : list ecma_magic_string_id_t.
Hypothesis ids_sorted : StronglySorted Z.lt ids.

Lemma sorted_lookup_lt (i j : nat) (x y : Z) :
  ids !! i = Some x -> ids !! j = Some y -> (i < j)%nat -> x < y.
Proof. exact (StronglySorted_lookup_lt ids ids_sorted i j x y). Qed.

Lemma sorted_lookup_inj (i j : nat) (x : Z) :
  ids !! i = Some x -> ids !! j = Some x -> i = j.
Proof.
  intros Hi Hj. destruct (Nat.lt_trichotomy i j) as [H|[H|H]]; [|assumption|].
  - pose proof (sorted_lookup_lt i j x x Hi Hj H). lia.
  - pose proof (sorted_lookup_lt j i x x Hj Hi H). lia.
Qed.

Lemma bin_search_loop_spec key fuel :
  forall min max,
    0 <= min -> max < Z.of_nat (length ids) -> max - min + 1 < Z.of_nat fuel ->
    (forall i, ids !! i = Some key -> min <= Z.of_nat i <= max) ->
    let r := bin_search_loop fuel ids key min max in
    (r = -1 /\ forall i, ids !! i <> Some key) \/
    (0 <= r /\ ids !! Z.to_nat r = Some key).
Proof.
  induction fuel as [|fuel IH]; intros min max Hmin Hmax Hfuel Hrange.
  { left. split; [reflexivity|]. intros i Hi. specialize (Hrange i Hi). lia. }
  cbn [bin_search_loop]. destruct (Z.leb_spec min max) as [Hle|Hgt].
  - assert (Hmid : min <= (min + max) `quot` 2 <= max).
    { rewrite Z.quot_div_nonneg by lia.
      split; [apply Z.div_le_lower_bound; lia | apply Z.div_le_upper_bound; lia]. }
    cbv zeta. remember ((min + max) `quot` 2) as mid eqn:Emid. clear Emid.
    destruct (ids !! Z.to_nat mid) as [x|] eqn:Ex.
    + destruct (Z.eqb_spec x key) as [->|Hne].
      * right. split; [lia|assumption].
      * destruct (Z.gtb_spec x key) as [Hgt|Hngt].
        -- apply IH; [lia|lia|lia|]. intros i Hi. specialize (Hrange i Hi).
           destruct (Nat.lt_trichotomy (Z.to_nat mid) i) as [Hlt|[Heq|Hlt]]; [| |lia].
           ++ pose proof (sorted_lookup_lt _ _ _ _ Ex Hi Hlt). lia.
           ++ rewrite Heq, Hi in Ex. injection Ex as Ex. lia.
        -- apply IH; [lia|lia|lia|]. intros i Hi. specialize (Hrange i Hi).
           destruct (Nat.lt_trichotomy (Z.to_nat mid) i) as [Hlt|[Heq|Hlt]]; [lia| |].
           ++ rewrite Heq, Hi in Ex. injection Ex as Ex. lia.
           ++ pose proof (sorted_lookup_lt _ _ _ _ Hi Ex Hlt). lia.
    + apply lookup_ge_None_1 in Ex. lia.
  - left. split; [reflexivity|]. intros i Hi. specialize (Hrange i Hi). lia.
Qed.

(** On a strictly sorted array the search returns the index of the key when
    the array holds it, and -1 otherwise. *)
Lemma bin_search_found (i : nat) key :
  ids !! i = Some key ->
  ecma_builtin_bin_search_for_magic_string_id_in_array ids (Z.of_nat (length ids)) key
  = Z.of_nat i.
Proof.
  intros Hi. unfold ecma_builtin_bin_search_for_magic_string_id_in_array.
  pose proof (lookup_lt_Some _ _ _ Hi) as Hlen.
  destruct (bin_search_loop_spec key (S (Z.to_nat (Z.of_nat (length ids)))) 0
              (Z.of_nat (length ids) - 1)) as [[_ Habs]|[Hr Hfound]]; try lia.
  - intros j Hj. apply lookup_lt_Some in Hj. lia.
  - exfalso. exact (Habs i Hi).
  - pose proof (sorted_lookup_inj _ _ _ Hfound Hi). lia.
Qed.

Lemma bin_search_not_found key :
  (forall i, ids !! i <> Some key) ->
  ecma_builtin_bin_search_for_magic_string_id_in_array ids (Z.of_nat (length ids)) key = -1.
Proof.
  intros Hnone. unfold ecma_builtin_bin_search_for_magic_string_id_in_array.
  destruct (bin_search_loop_spec key (S (Z.to_nat (Z.of_nat (length ids)))) 0
              (Z.of_nat (length ids) - 1)) as [[Hr _]|[_ Hfound]]; try lia.
  - intros j Hj. apply lookup_lt_Some in Hj. lia.
  - exfalso. exact (Hnone _ Hfound).
Qed.

End Binary_search.

(** ** Reading internal slots *)

Lemma ecma_get_internal_property_Some st obj_p id v :
  internal_slot st obj_p id = Some v ->
  ecma_get_internal_property obj_p id st = Returned (obj_p, id) st.
Proof.
  unfold internal_slot, ecma_get_internal_property, bind, ECMA_GET_POINTER.
  destruct (heap st !! obj_p) as [o|]; [|discriminate]. intros ->. reflexivity.
Qed.

Lemma internal_property_value_Some st obj_p id v :
  internal_slot st obj_p id = Some v ->
  internal_property_value (obj_p, id) st = Returned v st.
Proof.
  unfold internal_slot, internal_property_value, bind, ECMA_GET_POINTER. cbn [fst snd].
  destruct (heap st !! obj_p) as [o|]; [|discriminate]. intros ->. reflexivity.
Qed.

Lemma ecma_get_internal_property_None {A} st obj_p id (k : _ -> jerry A) :
  internal_slot st obj_p id = None ->
  exists t, bind (ecma_get_internal_property obj_p id) k st = Trapped t /\
            (t = ECMA_GET_POINTER_invalid obj_p \/ t = ecma_get_internal_property_missing obj_p id).
Proof.
  unfold internal_slot, ecma_get_internal_property, bind, ECMA_GET_POINTER.
  destruct (heap st !! obj_p) as [o|]; [intros ->|intros _]; eexists; split; eauto.
Qed.

Ltac read_slot H :=
  unfold bind at 1; rewrite (ecma_get_internal_property_Some _ _ _ _ H);
  unfold bind at 1; rewrite (internal_property_value_Some _ _ _ _ H).

(** ** The routines valueOf and toString *)

Section Routines.

Context `{G : ecma_globals_h}.

(** Every outcome of valueOf, by the shape of [this] and of the engine. *)
Lemma value_of_outcome st this :
  match ecma_builtin_boolean_prototype_object_value_of this st with
  | Returned c st' =>
      (ecma_is_value_boolean this = true /\ c = Normal this /\ st' = st) \/
      (exists obj_p b,
          this = ecma_object obj_p /\
          internal_slot st obj_p ECMA_INTERNAL_PROPERTY_CLASS = Some ECMA_MAGIC_STRING_BOOLEAN_UL /\
          internal_slot st obj_p ECMA_INTERNAL_PROPERTY_PRIMITIVE_BOOLEAN_VALUE = Some b /\
          ecma_is_value_boolean (ecma_simple b) = true /\
          c = Normal (ecma_simple b) /\ st' = st) \/
      (ecma_is_value_boolean this = false /\
       (forall obj_p, this = ecma_object obj_p ->
          internal_slot st obj_p ECMA_INTERNAL_PROPERTY_CLASS <> Some ECMA_MAGIC_STRING_BOOLEAN_UL) /\
       Returned c st' = Throw_TypeError st)
  | Trapped t =>
      t <> JERRY_ASSERT_failed 113 /\
      exists obj_p, this = ecma_object obj_p /\ this_value_wf st this = false \/
                    (this = ecma_object obj_p /\
                     ~ (ECMA_SIMPLE_VALUE_TRUE < ECMA_SIMPLE_VALUE__COUNT /\
                        ECMA_SIMPLE_VALUE_FALSE < ECMA_SIMPLE_VALUE__COUNT))
  end.
Proof.
  unfold ecma_builtin_boolean_prototype_object_value_of.
  destruct (ecma_is_value_boolean this) eqn:Hbool.
  { cbn. left. auto. }
  destruct this as [s|n|str|obj_p]; try (cbn; right; right; split; [reflexivity|split; [discriminate|reflexivity]]).
  unfold this_value_wf.
  destruct (internal_slot st obj_p ECMA_INTERNAL_PROPERTY_CLASS) as [class_value|] eqn:Hclass.
  2:{ unfold bind at 1.
      destruct (ecma_get_internal_property_None st obj_p _
                  (fun class_prop_p =>
                     let* class_value := internal_property_value class_prop_p in
                     if class_value =? ECMA_MAGIC_STRING_BOOLEAN_UL
                     then
                       let* prim_value_prop_p :=
                         ecma_get_internal_property obj_p ECMA_INTERNAL_PROPERTY_PRIMITIVE_BOOLEAN_VALUE in
                       let* prim_value := internal_property_value prim_value_prop_p in
                       JERRY_ASSERT 152 (prim_value <? ECMA_SIMPLE_VALUE__COUNT) ;;;
                       JERRY_ASSERT 158 (ecma_is_value_boolean (ecma_make_simple_value prim_value)) ;;;
                       ret (Some (ecma_make_normal_completion_value (ecma_make_simple_value prim_value)))
                     else ret None) Hclass) as [t [Ht Hshape]].
      rewrite Ht. split; [destruct Hshape; congruence|]. exists obj_p. left. auto. }
  unfold bind at 1. read_slot Hclass.
  destruct (Z.eqb_spec class_value ECMA_MAGIC_STRING_BOOLEAN_UL) as [->|Hne].
  2:{ cbn. right. right. split; [reflexivity|]. split; [|reflexivity].
      intros p [= <-]. rewrite Hclass. congruence. }
  destruct (internal_slot st obj_p ECMA_INTERNAL_PROPERTY_PRIMITIVE_BOOLEAN_VALUE) as [b|] eqn:Hprim.
  2:{ destruct (ecma_get_internal_property_None st obj_p _
                  (fun prim_value_prop_p =>
                     let* prim_value := internal_property_value prim_value_prop_p in
                     JERRY_ASSERT 152 (prim_value <? ECMA_SIMPLE_VALUE__COUNT) ;;;
                     JERRY_ASSERT 158 (ecma_is_value_boolean (ecma_make_simple_value prim_value)) ;;;
                     ret (Some (ecma_make_normal_completion_value (ecma_make_simple_value prim_value))))
                  Hprim) as [t [Ht Hshape]].
      rewrite Ht. split; [destruct Hshape; congruence|]. exists obj_p. left. auto. }
  read_slot Hprim. unfold ecma_make_simple_value.
  destruct (Z.ltb_spec b ECMA_SIMPLE_VALUE__COUNT) as [Hlt|Hge];
    destruct (ecma_is_value_boolean (ecma_simple b)) eqn:Hb; cbn.
  - right. left. exists obj_p, b. auto 10.
  - split; [discriminate|]. exists obj_p. left. auto.
  - split; [discriminate|]. exists obj_p. right. split; [reflexivity|]. intros [H1 H2].
    cbn in Hb. apply orb_true_iff in Hb as [Hb|Hb]; apply Z.eqb_eq in Hb; lia.
  - split; [discriminate|]. exists obj_p. left. auto.
Qed.

(** C1. For every [this] that meets the object-model invariant, valueOf
    returns Normal(this) when [this] is a primitive boolean; returns
    Normal(b) when [this] is an object whose class slot is the Boolean
    class tag, b being the primitive boolean of its primitive-value slot;
    and throws a newly constructed TypeError for every other [this]. *)
Theorem value_of_spec (st : ecma_engine) (this : ecma_value_t) :
  ECMA_SIMPLE_VALUE_TRUE < ECMA_SIMPLE_VALUE__COUNT ->
  ECMA_SIMPLE_VALUE_FALSE < ECMA_SIMPLE_VALUE__COUNT ->
  this_value_wf st this = true ->
  (ecma_is_value_boolean this = true ->
   ecma_builtin_boolean_prototype_object_value_of this st = Returned (Normal this) st) /\
  (forall obj_p b,
      this = ecma_object obj_p ->
      internal_slot st obj_p ECMA_INTERNAL_PROPERTY_CLASS = Some ECMA_MAGIC_STRING_BOOLEAN_UL ->
      internal_slot st obj_p ECMA_INTERNAL_PROPERTY_PRIMITIVE_BOOLEAN_VALUE = Some b ->
      ecma_is_value_boolean (ecma_simple b) = true /\
      ecma_builtin_boolean_prototype_object_value_of this st = Returned (Normal (ecma_simple b)) st) /\
  (ecma_is_value_boolean this = false ->
   (forall obj_p, this = ecma_object obj_p ->
      internal_slot st obj_p ECMA_INTERNAL_PROPERTY_CLASS <> Some ECMA_MAGIC_STRING_BOOLEAN_UL) ->
   ecma_builtin_boolean_prototype_object_value_of this st = Throw_TypeError st).
Proof.
  intros Htrue Hfalse Hwf. pose proof (value_of_outcome st this) as Hout.
  destruct (ecma_builtin_boolean_prototype_object_value_of this st) as [c st'|t].
  - destruct Hout as [(Hb & -> & ->)|[(p & b & -> & Hclass & Hprim & Hb & -> & ->)|(Hb & Hclass & Heq)]].
    + split; [reflexivity|]. split.
      * intros obj_p b ->. discriminate Hb.
      * intros Hb'. congruence.
    + split; [discriminate|]. split.
      * intros obj_p b' [= <-] _ Hprim'. rewrite Hprim in Hprim'. injection Hprim' as <-. auto.
      * intros _ Hclass'. destruct (Hclass' p eq_refl Hclass).
    + split; [congruence|]. split.
      * intros obj_p b -> Hclass'. destruct (Hclass obj_p eq_refl Hclass').
      * intros _ _. exact Heq.
  - destruct Hout as [_ [obj_p [[-> Hwf']|[-> Hcount]]]]; [congruence|].
    destruct Hcount. auto.
Qed.

(** C2. toString first evaluates valueOf: a Throw of valueOf is the result
    of toString, unchanged; Normal(true) gives the string "true" and
    Normal(false) the string "false" (the magic strings of these names),
    the completion of valueOf being released; a trap of valueOf is a trap
    of toString. *)
Theorem to_string_spec (st : ecma_engine) (this : ecma_value_t) :
  ECMA_SIMPLE_VALUE_TRUE <> ECMA_SIMPLE_VALUE_FALSE ->
  (forall e st',
      ecma_builtin_boolean_prototype_object_value_of this st = Returned (Throw e) st' ->
      ecma_builtin_boolean_prototype_object_to_string this st = Returned (Throw e) st') /\
  (forall st',
      ecma_builtin_boolean_prototype_object_value_of this st
      = Returned (Normal (ecma_simple ECMA_SIMPLE_VALUE_TRUE)) st' ->
      ecma_builtin_boolean_prototype_object_to_string this st
      = Returned (Normal (ecma_string (ECMA_STRING_CONTAINER_MAGIC_STRING ECMA_MAGIC_STRING_TRUE)))
          (with_gc_call st'
             (Call_ecma_free_completion_value (Normal (ecma_simple ECMA_SIMPLE_VALUE_TRUE))))) /\
  (forall st',
      ecma_builtin_boolean_prototype_object_value_of this st
      = Returned (Normal (ecma_simple ECMA_SIMPLE_VALUE_FALSE)) st' ->
      ecma_builtin_boolean_prototype_object_to_string this st
      = Returned (Normal (ecma_string (ECMA_STRING_CONTAINER_MAGIC_STRING ECMA_MAGIC_STRING_FALSE)))
          (with_gc_call st'
             (Call_ecma_free_completion_value (Normal (ecma_simple ECMA_SIMPLE_VALUE_FALSE))))) /\
  (forall t,
      ecma_builtin_boolean_prototype_object_value_of this st = Trapped t ->
      ecma_builtin_boolean_prototype_object_to_string this st = Trapped t).
Proof.
  intros Hdistinct.
  unfold ecma_builtin_boolean_prototype_object_to_string, ECMA_TRY_CATCH.
  repeat split.
  - intros e st' H. unfold bind at 1. rewrite H. reflexivity.
  - intros st' H. unfold bind at 1. rewrite H. cbn.
    rewrite Z.eqb_refl. reflexivity.
  - intros st' H. unfold bind at 1. rewrite H. cbn.
    destruct (Z.eqb_spec ECMA_SIMPLE_VALUE_FALSE ECMA_SIMPLE_VALUE_TRUE) as [Heq|_];
      [congruence|].
    cbn. rewrite Z.eqb_refl. reflexivity.
  - intros t H. unfold bind at 1. rewrite H. reflexivity.
Qed.

(** A trap of toString is a trap of valueOf. *)
Lemma to_string_trap st this t :
  ecma_builtin_boolean_prototype_object_to_string this st = Trapped t ->
  ecma_builtin_boolean_prototype_object_value_of this st = Trapped t.
Proof.
  unfold ecma_builtin_boolean_prototype_object_to_string, ECMA_TRY_CATCH.
  unfold bind at 1. pose proof (value_of_outcome st this) as Hout.
  destruct (ecma_builtin_boolean_prototype_object_value_of this st) as [c st'|t'];
    [|congruence].
  assert (Hc : (exists b, c = Normal (ecma_simple b) /\ ecma_is_value_boolean (ecma_simple b) = true)
               \/ exists e, c = Throw e).
  { destruct Hout as [(Hb & -> & _)|[(p & b & _ & _ & _ & Hb & -> & _)|(_ & _ & Heq)]].
    - left. destruct this as [s| | |]; try discriminate. eauto.
    - left. eauto.
    - right. injection Heq as -> _. eauto. }
  destruct Hc as [(b & -> & Hb)|(e & ->)]; cbn; [|discriminate].
  cbn in Hb. destruct (b =? ECMA_SIMPLE_VALUE_TRUE); cbn; [discriminate|].
  cbn in Hb. rewrite Hb. cbn. discriminate.
Qed.

(** C10. valueOf returns only Normal(true), Normal(false) or a Throw
    completion; hence the assertion of toString (line 113) never fails:
    toString traps only where valueOf itself traps. *)
Theorem value_of_boolean_or_throw (st : ecma_engine) (this : ecma_value_t) :
  (forall c st',
      ecma_builtin_boolean_prototype_object_value_of this st = Returned c st' ->
      c = Normal (ecma_simple ECMA_SIMPLE_VALUE_TRUE) \/
      c = Normal (ecma_simple ECMA_SIMPLE_VALUE_FALSE) \/
      exists e, c = Throw e) /\
  ecma_builtin_boolean_prototype_object_to_string this st <> Trapped (JERRY_ASSERT_failed 113) /\
  (forall t,
      ecma_builtin_boolean_prototype_object_to_string this st = Trapped t ->
      ecma_builtin_boolean_prototype_object_value_of this st = Trapped t).
Proof.
  pose proof (value_of_outcome st this) as Hout.
  assert (Hbool : forall b, ecma_is_value_boolean (ecma_simple b) = true ->
                            b = ECMA_SIMPLE_VALUE_TRUE \/ b = ECMA_SIMPLE_VALUE_FALSE).
  { intros b Hb. cbn in Hb. apply orb_true_iff in Hb as [Hb|Hb]; apply Z.eqb_eq in Hb; auto. }
  split; [|split].
  - intros c st' Hrun. rewrite Hrun in Hout.
    destruct Hout as [(Hb & -> & _)|[(p & b & _ & _ & _ & Hb & -> & _)|(_ & _ & Heq)]].
    + destruct this as [s| | |]; try discriminate.
      destruct (Hbool s Hb) as [->| ->]; auto.
    + destruct (Hbool b Hb) as [->| ->]; auto.
    + injection Heq as -> _. eauto.
  - intros Htrap. apply to_string_trap in Htrap. rewrite Htrap in Hout.
    destruct Hout as [Hne _]. congruence.
  - apply to_string_trap.
Qed.

End Routines.

(** ** The dispatcher and the arity lookup *)

Section Dispatcher.

Context `{G : ecma_globals_h}.

Lemma find_routine_TO_STRING_UL :
  exists r,
    find (fun r => ECMA_MAGIC_STRING_TO_STRING_UL =? routine_name r)
      ECMA_BUILTIN_BOOLEAN_PROTOTYPE_OBJECT_ROUTINES_PROPERTY_LIST = Some r /\
    args_number r = 0%nat /\ routine_length r = 0.
Proof. cbn. rewrite Z.eqb_refl. eexists. split; [reflexivity|]. split; reflexivity. Qed.

Lemma find_routine_VALUE_OF_UL :
  exists r,
    find (fun r => ECMA_MAGIC_STRING_VALUE_OF_UL =? routine_name r)
      ECMA_BUILTIN_BOOLEAN_PROTOTYPE_OBJECT_ROUTINES_PROPERTY_LIST = Some r /\
    args_number r = 0%nat /\ routine_length r = 0.
Proof.
  cbn. destruct (ECMA_MAGIC_STRING_VALUE_OF_UL =? ECMA_MAGIC_STRING_TO_STRING_UL).
  - eexists. split; [reflexivity|]. split; reflexivity.
  - rewrite Z.eqb_refl. eexists. split; [reflexivity|]. split; reflexivity.
Qed.

(** C6. The arity lookup returns 0 for toString and 0 for valueOf; it
    neither reads nor changes the engine (so it depends on no instantiation
    mask), and takes no argument count: for every routine identifier the
    returned number is the same in any two engines. *)
Theorem get_routine_parameters_number_spec (st : ecma_engine) :
  ecma_builtin_boolean_prototype_get_routine_parameters_number ECMA_MAGIC_STRING_TO_STRING_UL st
  = Returned 0 st /\
  ecma_builtin_boolean_prototype_get_routine_parameters_number ECMA_MAGIC_STRING_VALUE_OF_UL st
  = Returned 0 st /\
  (forall id n st1 st',
      ecma_builtin_boolean_prototype_get_routine_parameters_number id st = Returned n st1 ->
      st1 = st /\
      ecma_builtin_boolean_prototype_get_routine_parameters_number id st' = Returned n st').
Proof.
  unfold ecma_builtin_boolean_prototype_get_routine_parameters_number.
  split; [|split].
  - destruct find_routine_TO_STRING_UL as (r & -> & _ & Hlen). cbn. rewrite Hlen. reflexivity.
  - destruct find_routine_VALUE_OF_UL as (r & -> & _ & Hlen). cbn. rewrite Hlen. reflexivity.
  - intros id n st1 st'.
    destruct (find _ _) as [r|]; cbn; [|discriminate].
    intros [= -> ->]. split; reflexivity.
Qed.

Lemma ROUTINE_ARG_LIST_lookup (n k : nat) (args : list ecma_value_t) :
  (k < n)%nat ->
  ROUTINE_ARG_LIST n args (Z.of_nat (length args)) !! k
  = Some (default value_undefined (args !! k)).
Proof.
  intros Hk. unfold ROUTINE_ARG_LIST. rewrite list_lookup_fmap, lookup_seq_lt by lia.
  cbn [fmap option_fmap option_map]. f_equal. unfold ROUTINE_ARG.
  replace (1 + k - 1)%nat with k by lia.
  destruct (Z.geb_spec (Z.of_nat (length args)) (Z.of_nat (1 + k))) as [Hge|Hlt].
  - apply nth_lookup.
  - rewrite (lookup_ge_None_2 args k) by lia. reflexivity.
Qed.

(** C7. toString and valueOf are declared with arity 0, and a dispatch with
    any argument list returns what the dispatch with exactly the declared
    number of arguments returns.  The arguments a fixed-arity routine of
    arity n receives are the first n of the list, an absent one being
    replaced by undefined. *)
Theorem dispatch_routine_surplus_arguments
    (st : ecma_engine) (id : Z) (this : ecma_value_t) (args : list ecma_value_t) :
  id = ECMA_MAGIC_STRING_TO_STRING_UL \/ id = ECMA_MAGIC_STRING_VALUE_OF_UL ->
  exists r,
    find (fun r => id =? routine_name r)
      ECMA_BUILTIN_BOOLEAN_PROTOTYPE_OBJECT_ROUTINES_PROPERTY_LIST = Some r /\
    args_number r = 0%nat /\
    ecma_builtin_boolean_prototype_dispatch_routine id this args (Z.of_nat (length args)) st
    = ecma_builtin_boolean_prototype_dispatch_routine id this
        (take (args_number r) args) (Z.of_nat (args_number r)) st /\
    (forall n k : nat,
        (k < n)%nat ->
        ROUTINE_ARG_LIST n args (Z.of_nat (length args)) !! k
        = Some (default value_undefined (args !! k))).
Proof.
  intros Hid.
  assert (Hfind : exists r,
             find (fun r => id =? routine_name r)
               ECMA_BUILTIN_BOOLEAN_PROTOTYPE_OBJECT_ROUTINES_PROPERTY_LIST = Some r /\
             args_number r = 0%nat /\ routine_length r = 0).
  { destruct Hid as [-> | ->];
      [apply find_routine_TO_STRING_UL | apply find_routine_VALUE_OF_UL]. }
  destruct Hfind as (r & Hfind & Hargs & _). exists r.
  split; [exact Hfind|]. split; [exact Hargs|]. split.
  - unfold ecma_builtin_boolean_prototype_dispatch_routine. rewrite Hfind, Hargs. reflexivity.
  - intros n k. apply ROUTINE_ARG_LIST_lookup.
Qed.

End Dispatcher.

(** ** Lazy instantiation of the built-in properties *)

Section Instantiation.

Context `{G : ecma_globals_h}.

(** The instantiation, unfolded up to the switch: the outcome of the
    assertions, of the three NULL returns and of the write of the mask. *)
Lemma try_to_instantiate_property_unfold obj_p prop_name_p st :
  ecma_builtin_boolean_prototype_try_to_instantiate_property obj_p prop_name_p st =
  if negb (bool_decide (builtin_object_lookup (ecma_builtin_objects st)
                          ECMA_BUILTIN_ID_BOOLEAN_PROTOTYPE = Some obj_p))
  then Trapped (JERRY_ASSERT_failed 179)
  else
    match heap st !! obj_p with
    | None => Trapped (ECMA_GET_POINTER_invalid obj_p)
    | Some o =>
        if negb (bool_decide (ecma_find_named_property (properties o) prop_name_p = None))
        then Trapped (JERRY_ASSERT_failed 180)
        else
          match ecma_is_string_magic prop_name_p with
          | None => Returned None st
          | Some id =>
              let index :=
                ecma_builtin_bin_search_for_magic_string_id_in_array
                  ecma_builtin_property_names ecma_builtin_boolean_prototype_property_number id in
              if index =? -1 then Returned None st
              else if negb ((index >=? 0) && (index <? 64))
              then Trapped (JERRY_ASSERT_failed 198)
              else
                let mask_prop_id := fst (mask_of_index index) in
                let bit := uint32_shl1 (snd (mask_of_index index)) in
                match ecma_find_internal_property (properties o) mask_prop_id with
                | None => Trapped (ecma_get_internal_property_missing obj_p mask_prop_id)
                | Some bit_mask =>
                    if Z.land bit_mask bit =? 0 then Returned None st
                    else
                      (let* switched := instantiate_switch id in
                       instantiate_store obj_p prop_name_p switched)
                        (with_object st obj_p
                           (mk_object (object_kind o)
                              (set_internal_property_value (properties o) mask_prop_id
                                 (Z.land bit_mask (uint32_not bit)))))
                end
          end
    end.
Proof.
  unfold ecma_builtin_boolean_prototype_try_to_instantiate_property.
  unfold bind at 1. unfold ecma_builtin_is.
  destruct (bool_decide _) eqn:Hbuiltin; cbn [negb JERRY_ASSERT]; [|reflexivity].
  unfold bind at 1. cbn [ret]. unfold bind at 1. unfold ECMA_GET_POINTER at 1.
  destruct (heap st !! obj_p) as [o|] eqn:Ho; [|reflexivity].
  destruct (bool_decide (ecma_find_named_property (properties o) prop_name_p = None));
    cbn [negb JERRY_ASSERT]; [|reflexivity].
  unfold bind at 1. cbn [ret].
  destruct (ecma_is_string_magic prop_name_p) as [id|]; [|reflexivity].
  cbv zeta.
  destruct (_ =? -1); [reflexivity|].
  unfold mask_of_index.
  destruct ((_ >=? 0) && (_ <? 64)); cbn [negb JERRY_ASSERT]; [|reflexivity].
  unfold bind at 1. cbn [ret].
  destruct (_ >=? 32); cbn [fst snd].
  all: unfold bind at 1; unfold ecma_get_internal_property at 1;
    unfold bind at 1; unfold ECMA_GET_POINTER at 1; rewrite Ho;
    destruct (ecma_find_internal_property (properties o) _) as [bit_mask|] eqn:Hmask;
    [|reflexivity]; cbn [ret];
    unfold bind at 1; unfold internal_property_value at 1; cbn [fst snd];
    unfold bind at 1; unfold ECMA_GET_POINTER at 1; rewrite Ho, Hmask; cbn [ret];
    destruct (Z.land bit_mask _ =? 0); [reflexivity|];
    unfold bind at 1; unfold internal_property_assign at 1; cbn [fst snd];
    unfold bind at 1; unfold ECMA_GET_POINTER at 1; rewrite Ho;
    unfold set_object; reflexivity.
Qed.

Lemma instantiate_store_run obj_p prop_name_p value writable enumerable configurable st o :
  heap st !! obj_p = Some o ->
  instantiate_store obj_p prop_name_p (value, writable, enumerable, configurable) st
  = Returned (Some (obj_p, prop_name_p))
      (mk_engine
         (<[obj_p := mk_object (object_kind o)
                       (ECMA_PROPERTY_NAMEDDATA prop_name_p value writable enumerable configurable
                          :: properties o)]> (heap st))
         (ecma_builtin_objects st)
         (gc_calls st ++
            [Call_ecma_copy_value value false;
             Call_ecma_gc_update_may_ref_younger_object_flag_by_value obj_p value;
             Call_ecma_free_value value true])).
Proof.
  intros Ho. pose proof (lookup_lt_Some _ _ _ Ho) as Hlen.
  unfold instantiate_store, ecma_create_named_data_property, ecma_copy_value,
    named_data_property_assign, ecma_gc_update_may_ref_younger_object_flag_by_value,
    ecma_free_value, gc_call, set_object, bind, ret, ECMA_GET_POINTER.
  rewrite Ho. cbn [fst snd heap with_object with_gc_call ecma_builtin_objects gc_calls].
  rewrite list_lookup_insert_eq by exact Hlen.
  cbn [object_kind properties set_named_data_property_value].
  rewrite decide_True by reflexivity.
  unfold with_gc_call, with_object; cbn [heap ecma_builtin_objects gc_calls].
  rewrite list_insert_insert_eq, <- !app_assoc. reflexivity.
Qed.

(** What the switch returns: an object value as payload, with the
    attributes of the kind of the entry; it allocates at most one object,
    none of them an error object, and releases nothing. *)
Lemma instantiate_switch_inv id st switched st1 :
  instantiate_switch id st = Returned switched st1 ->
  exists payload_p writable enumerable configurable extra pre,
    switched = (ecma_object payload_p, writable, enumerable, configurable) /\
    heap st1 = heap st ++ extra /\
    gc_calls st1 = gc_calls st ++ pre /\
    forallb (fun o => negb (is_standard_error o)) extra = true /\
    forallb (fun c => negb (is_free_value_call c)) pre = true /\
    builtin_object_lookup (ecma_builtin_objects st1) ECMA_BUILTIN_ID_BOOLEAN_PROTOTYPE
    = builtin_object_lookup (ecma_builtin_objects st) ECMA_BUILTIN_ID_BOOLEAN_PROTOTYPE /\
    ((existsb (Z.eqb id)
        (map routine_name ECMA_BUILTIN_BOOLEAN_PROTOTYPE_OBJECT_ROUTINES_PROPERTY_LIST) = true /\
      (writable, enumerable, configurable)
      = (ECMA_PROPERTY_WRITABLE, ECMA_PROPERTY_NOT_ENUMERABLE, ECMA_PROPERTY_CONFIGURABLE)) \/
     (existsb (Z.eqb id)
        (map routine_name ECMA_BUILTIN_BOOLEAN_PROTOTYPE_OBJECT_ROUTINES_PROPERTY_LIST) = false /\
      id = ECMA_MAGIC_STRING_CONSTRUCTOR /\
      (writable, enumerable, configurable)
      = (ECMA_PROPERTY_NOT_WRITABLE, ECMA_PROPERTY_NOT_ENUMERABLE,
         ECMA_PROPERTY_NOT_CONFIGURABLE))).
Proof.
  unfold instantiate_switch.
  destruct (existsb (Z.eqb id) (map routine_name _)) eqn:Hroutine.
  - cbn. intros [= <- <-]. cbn.
    eexists _, _, _, _, [_], []. rewrite app_nil_r.
    repeat (split; [reflexivity|]). left. split; reflexivity.
  - cbn [map fst existsb find ECMA_BUILTIN_BOOLEAN_PROTOTYPE_OBJECT_OBJECT_VALUES_PROPERTY_LIST].
    destruct (Z.eqb_spec id ECMA_MAGIC_STRING_CONSTRUCTOR) as [->|Hne]; cbn [orb];
      [|discriminate].
    unfold bind at 1. unfold ecma_builtin_get.
    destruct (builtin_object_lookup (ecma_builtin_objects st) ECMA_BUILTIN_ID_BOOLEAN)
      as [p|] eqn:Hget; cbn; intros [= <- <-]; cbn.
    + eexists _, _, _, _, [], [_]. rewrite app_nil_r.
      repeat (split; [reflexivity|]). right. repeat split; reflexivity.
    + eexists _, _, _, _, [_], [_].
      repeat (split; [reflexivity|]). right. repeat split; reflexivity.
Qed.

End Instantiation.

(** ** Bits of the instantiation mask *)

Lemma uint32_shl1_pow2 (n : Z) : 0 <= n < 32 -> uint32_shl1 n = 2 ^ n.
Proof.
  intros Hn. unfold uint32_shl1. rewrite Z.shiftl_1_l.
  apply Z.mod_small. split; [apply Z.pow_nonneg; lia|].
  apply Z.pow_lt_mono_r; lia.
Qed.

Lemma land_bit_eqb (bit_mask n : Z) :
  0 <= n < 32 ->
  (Z.land bit_mask (uint32_shl1 n) =? 0) = negb (Z.testbit bit_mask n).
Proof.
  intros Hn. rewrite uint32_shl1_pow2 by exact Hn.
  destruct (Z.testbit bit_mask n) eqn:Hbit; cbn [negb].
  - apply Z.eqb_neq. intros Hzero.
    assert (Hn' : Z.testbit (Z.land bit_mask (2 ^ n)) n = true).
    { rewrite Z.land_spec, Hbit, Z.pow2_bits_true by lia. reflexivity. }
    rewrite Hzero, Z.bits_0 in Hn'. discriminate.
  - apply Z.eqb_eq. apply Z.bits_inj'. intros k Hk.
    rewrite Z.land_spec, Z.bits_0, Z.pow2_bits_eqb by lia.
    destruct (Z.eqb_spec n k) as [->|Hne]; [rewrite Hbit|]; auto using andb_false_r.
Qed.

Lemma testbit_clear_bit (bit_mask n k : Z) :
  0 <= n < 32 -> 0 <= k < 32 ->
  Z.testbit (Z.land bit_mask (uint32_not (uint32_shl1 n))) k
  = Z.testbit bit_mask k && negb (k =? n).
Proof.
  intros Hn Hk. rewrite uint32_shl1_pow2 by exact Hn. unfold uint32_not.
  rewrite Z.land_spec. f_equal.
  rewrite Z.mod_pow2_bits_low, Z.lnot_spec, Z.pow2_bits_eqb by lia.
  rewrite (Z.eqb_sym n k). reflexivity.
Qed.

Lemma testbit_land_false (bit_mask x k : Z) :
  Z.testbit bit_mask k = false -> Z.testbit (Z.land bit_mask x) k = false.
Proof. intros H. rewrite Z.land_spec, H. reflexivity. Qed.

(** ** Internal slots under the updates of an object *)

Lemma find_set_internal_property ps id v id' old :
  ecma_find_internal_property ps id = Some old ->
  ecma_find_internal_property (set_internal_property_value ps id v) id'
  = if decide (id' = id) then Some v else ecma_find_internal_property ps id'.
Proof.
  induction ps as [|[name pv w e c|pid pv] ps IH]; cbn; [discriminate|exact IH|].
  destruct (decide (pid = id)) as [->|Hne]; cbn.
  - intros _. destruct (decide (id = id')) as [->|Hne'].
    + rewrite decide_True by reflexivity. reflexivity.
    + rewrite decide_False by congruence. reflexivity.
  - intros Hold. destruct (decide (pid = id')) as [->|Hne'].
    + rewrite decide_False by congruence. reflexivity.
    + apply IH, Hold.
Qed.

Lemma find_internal_delete_named ps name id :
  ecma_find_internal_property (delete_named_property ps name) id
  = ecma_find_internal_property ps id.
Proof.
  induction ps as [|[name' pv w e c|pid pv] ps IH]; cbn; [reflexivity| |].
  - destruct (decide (name' = name)); [reflexivity|exact IH].
  - destruct (decide (pid = id)); [reflexivity|exact IH].
Qed.

Lemma internal_slot_with_new_object st o p id v :
  internal_slot st p id = Some v -> internal_slot (with_new_object st o) p id = Some v.
Proof.
  unfold internal_slot, with_new_object. cbn [heap].
  destruct (heap st !! p) as [o'|] eqn:Hp; [|discriminate].
  rewrite (lookup_app_l_Some _ _ _ _ Hp). auto.
Qed.

(** The loop of the binary search never runs out of fuel: any two amounts
    of fuel above the number of elements still to search give the same
    result, whatever the order of the array. *)
Lemma bin_search_loop_fuel (ids : list Z) (key : Z) (fuel : nat) :
  forall (fuel' : nat) min max,
    0 <= min ->
    max - min + 1 < Z.of_nat fuel -> max - min + 1 < Z.of_nat fuel' ->
    bin_search_loop fuel ids key min max = bin_search_loop fuel' ids key min max.
Proof.
  induction fuel as [|fuel IH]; intros fuel' min max Hmin Hfuel Hfuel'.
  - destruct fuel' as [|fuel']; [reflexivity|]. cbn [bin_search_loop].
    destruct (Z.leb_spec min max); [lia|reflexivity].
  - destruct fuel' as [|fuel']; cbn [bin_search_loop].
    + destruct (Z.leb_spec min max); [lia|reflexivity].
    + destruct (Z.leb_spec min max) as [Hle|Hgt]; [|reflexivity].
      assert (Hmid : min <= (min + max) `quot` 2 <= max).
      { rewrite Z.quot_div_nonneg by lia.
        split; [apply Z.div_le_lower_bound; lia | apply Z.div_le_upper_bound; lia]. }
      cbv zeta. remember ((min + max) `quot` 2) as mid eqn:Emid. clear Emid.
      destruct (ids !! Z.to_nat mid) as [x|]; [|reflexivity].
      destruct (x =? key); [reflexivity|].
      destruct (x >? key); apply IH; lia.
Qed.

(** Binary search returns an index only where the array holds the key,
    whatever the order of the array. *)
Lemma bin_search_loop_sound (ids : list Z) (key : Z) (fuel : nat) :
  forall min max,
    0 <= min ->
    bin_search_loop fuel ids key min max = -1 \/
    (min <= bin_search_loop fuel ids key min max /\
     ids !! Z.to_nat (bin_search_loop fuel ids key min max) = Some key).
Proof.
  induction fuel as [|fuel IH]; intros min max Hmin; cbn [bin_search_loop]; [auto|].
  destruct (Z.leb_spec min max) as [Hle|Hgt]; [|auto].
  assert (Hmid : min <= (min + max) `quot` 2).
  { rewrite Z.quot_div_nonneg by lia. apply Z.div_le_lower_bound; lia. }
  cbv zeta. remember ((min + max) `quot` 2) as mid eqn:Emid. clear Emid.
  destruct (ids !! Z.to_nat mid) as [x|] eqn:Ex; [|auto].
  destruct (Z.eqb_spec x key) as [->|Hne]; [auto|].
  destruct (x >? key).
  - destruct (IH min (mid - 1) Hmin) as [H|[H1 H2]]; auto.
  - destruct (IH (mid + 1) max ltac:(lia)) as [H|[H1 H2]]; [auto|].
    right. split; [lia|assumption].
Qed.

Lemma bin_search_sound (ids : list Z) (n key : Z) :
  let index := ecma_builtin_bin_search_for_magic_string_id_in_array ids n key in
  index = -1 \/ (0 <= index /\ ids !! Z.to_nat index = Some key).
Proof.
  unfold ecma_builtin_bin_search_for_magic_string_id_in_array.
  apply bin_search_loop_sound. lia.
Qed.

Lemma strictly_increasing_sorted (ids : list Z) :
  strictly_increasing ids = true -> StronglySorted Z.lt ids.
Proof.
  induction ids as [|x [|y ids'] IH]; intros H.
  - constructor.
  - repeat constructor.
  - cbn [strictly_increasing] in H. apply andb_true_iff in H as [Hxy H].
    apply Z.ltb_lt in Hxy. specialize (IH H). constructor; [exact IH|].
    apply StronglySorted_cons in IH as [Hall _].
    constructor; [exact Hxy|].
    eapply Forall_impl; [exact Hall|]. cbn. intros z Hz. lia.
Qed.

Section Instantiation_effect.

Context `{G : ecma_globals_h}.

Lemma instantiate_store_trap obj_p prop_name_p switched st :
  heap st !! obj_p = None ->
  exists t, instantiate_store obj_p prop_name_p switched st = Trapped t.
Proof.
  intros Hnone. destruct switched as [[[value w] e] c].
  unfold instantiate_store, ecma_create_named_data_property, bind, ECMA_GET_POINTER.
  rewrite Hnone. eauto.
Qed.

(** The effect of a successful instantiation on the engine. *)
Lemma try_to_instantiate_success obj_p prop_name_p st prop_p st' :
  ecma_builtin_boolean_prototype_try_to_instantiate_property obj_p prop_name_p st
  = Returned (Some prop_p) st' ->
  exists o id index bit_mask payload_p writable enumerable configurable extra pre,
    builtin_object_lookup (ecma_builtin_objects st) ECMA_BUILTIN_ID_BOOLEAN_PROTOTYPE
    = Some obj_p /\
    heap st !! obj_p = Some o /\
    ecma_find_named_property (properties o) prop_name_p = None /\
    ecma_is_string_magic prop_name_p = Some id /\
    index = ecma_builtin_bin_search_for_magic_string_id_in_array
              ecma_builtin_property_names ecma_builtin_boolean_prototype_property_number id /\
    0 <= index < 64 /\
    ecma_find_internal_property (properties o) (fst (mask_of_index index)) = Some bit_mask /\
    Z.land bit_mask (uint32_shl1 (snd (mask_of_index index))) <> 0 /\
    prop_p = (obj_p, prop_name_p) /\
    heap st' =
      <[obj_p := mk_object (object_kind o)
                   (ECMA_PROPERTY_NAMEDDATA prop_name_p (ecma_object payload_p)
                      writable enumerable configurable
                    :: set_internal_property_value (properties o) (fst (mask_of_index index))
                         (Z.land bit_mask (uint32_not (uint32_shl1 (snd (mask_of_index index))))))]>
        (heap st ++ extra) /\
    gc_calls st' =
      gc_calls st ++ pre ++
        [Call_ecma_copy_value (ecma_object payload_p) false;
         Call_ecma_gc_update_may_ref_younger_object_flag_by_value obj_p (ecma_object payload_p);
         Call_ecma_free_value (ecma_object payload_p) true] /\
    forallb (fun o => negb (is_standard_error o)) extra = true /\
    forallb (fun c => negb (is_free_value_call c)) pre = true /\
    builtin_object_lookup (ecma_builtin_objects st') ECMA_BUILTIN_ID_BOOLEAN_PROTOTYPE
    = Some obj_p /\
    ((existsb (Z.eqb id)
        (map routine_name ECMA_BUILTIN_BOOLEAN_PROTOTYPE_OBJECT_ROUTINES_PROPERTY_LIST) = true /\
      (writable, enumerable, configurable)
      = (ECMA_PROPERTY_WRITABLE, ECMA_PROPERTY_NOT_ENUMERABLE, ECMA_PROPERTY_CONFIGURABLE)) \/
     (existsb (Z.eqb id)
        (map routine_name ECMA_BUILTIN_BOOLEAN_PROTOTYPE_OBJECT_ROUTINES_PROPERTY_LIST) = false /\
      id = ECMA_MAGIC_STRING_CONSTRUCTOR /\
      (writable, enumerable, configurable)
      = (ECMA_PROPERTY_NOT_WRITABLE, ECMA_PROPERTY_NOT_ENUMERABLE,
         ECMA_PROPERTY_NOT_CONFIGURABLE))).
Proof.
  rewrite try_to_instantiate_property_unfold.
  destruct (bool_decide _) eqn:Hbuiltin; cbn [negb]; [|discriminate].
  apply bool_decide_eq_true in Hbuiltin.
  destruct (heap st !! obj_p) as [o|] eqn:Ho; [|discriminate].
  destruct (bool_decide (ecma_find_named_property _ _ = None)) eqn:Hnamed;
    cbn [negb]; [|discriminate].
  apply bool_decide_eq_true in Hnamed.
  destruct (ecma_is_string_magic prop_name_p) as [id|] eqn:Hmagic; [|discriminate].
  cbv zeta.
  remember (ecma_builtin_bin_search_for_magic_string_id_in_array _ _ id) as index eqn:Hindex.
  destruct (index =? -1); [discriminate|].
  destruct ((index >=? 0) && (index <? 64)) eqn:Hrange; cbn [negb]; [|discriminate].
  apply andb_true_iff in Hrange as [Hlo Hhi].
  apply Z.geb_le in Hlo. apply Z.ltb_lt in Hhi.
  destruct (ecma_find_internal_property (properties o) (fst (mask_of_index index)))
    as [bit_mask|] eqn:Hmask; [|discriminate].
  destruct (Z.eqb_spec (Z.land bit_mask (uint32_shl1 (snd (mask_of_index index)))) 0)
    as [|Hbit]; [discriminate|].
  intros Hrun. apply bind_inv in Hrun as (switched & st1 & Hswitch & Hstore).
  apply instantiate_switch_inv in Hswitch
    as (payload_p & w & e & c & extra & pre & -> & Hheap1 & Hcalls1 & Hextra & Hpre & Htbl & Hattrs).
  cbn [heap with_object ecma_builtin_objects gc_calls] in Hheap1, Hcalls1, Htbl.
  pose proof (lookup_lt_Some _ _ _ Ho) as Hlen.
  assert (Ho1 : heap st1 !! obj_p
                = Some (mk_object (object_kind o)
                          (set_internal_property_value (properties o) (fst (mask_of_index index))
                             (Z.land bit_mask (uint32_not (uint32_shl1 (snd (mask_of_index index)))))))).
  { rewrite Hheap1. rewrite lookup_app_l by (rewrite length_insert; exact Hlen).
    apply list_lookup_insert_eq, Hlen. }
  rewrite (instantiate_store_run _ _ _ _ _ _ _ _ Ho1) in Hstore.
  injection Hstore as <- <-. cbn [heap gc_calls ecma_builtin_objects object_kind properties].
  exists o, id, index, bit_mask, payload_p, w, e, c, extra, pre.
  repeat (split; [first [assumption|reflexivity|lia]|]).
  split.
  { rewrite Hheap1, <- insert_app_l by exact Hlen. apply list_insert_insert_eq. }
  split; [rewrite Hcalls1, <- app_assoc; reflexivity|].
  repeat (split; [first [assumption|congruence]|]). exact Hattrs.
Qed.

(** A NULL return leaves the engine as it was. *)
Lemma try_to_instantiate_NULL obj_p prop_name_p st st' :
  ecma_builtin_boolean_prototype_try_to_instantiate_property obj_p prop_name_p st
  = Returned None st' ->
  st' = st.
Proof.
  rewrite try_to_instantiate_property_unfold.
  destruct (negb _); [discriminate|].
  destruct (heap st !! obj_p) as [o|] eqn:Ho; [|discriminate].
  destruct (negb _); [discriminate|].
  destruct (ecma_is_string_magic prop_name_p) as [id|]; [|congruence].
  cbv zeta. destruct (_ =? -1); [congruence|].
  destruct (negb _); [discriminate|].
  destruct (ecma_find_internal_property _ _) as [bit_mask|]; [|discriminate].
  destruct (_ =? 0); [congruence|].
  intros Hrun. apply bind_inv in Hrun as (switched & st1 & Hswitch & Hstore).
  destruct (heap st1 !! obj_p) as [o1|] eqn:Ho1.
  - destruct switched as [[[value w] e] c].
    rewrite (instantiate_store_run _ _ _ _ _ _ _ _ Ho1) in Hstore. discriminate.
  - destruct (instantiate_store_trap obj_p prop_name_p switched st1 Ho1) as [t Ht].
    congruence.
Qed.

End Instantiation_effect.

(** ** The instantiation mask only ever clears *)

Section Mask_monotone.

Context `{G : ecma_globals_h}.

Lemma bits_only_clear_refl st : bits_only_clear st st.
Proof. intros p id v Hv. exists v. auto. Qed.

Lemma bits_only_clear_trans st1 st2 st3 :
  bits_only_clear st1 st2 -> bits_only_clear st2 st3 -> bits_only_clear st1 st3.
Proof.
  intros H12 H23 p id v Hv.
  destruct (H12 p id v Hv) as (v2 & Hv2 & Hbits2).
  destruct (H23 p id v2 Hv2) as (v3 & Hv3 & Hbits3).
  exists v3. auto.
Qed.

Lemma bits_only_clear_new_object st o : bits_only_clear st (with_new_object st o).
Proof. intros p id v Hv. exists v. auto using internal_slot_with_new_object. Qed.

Lemma bits_only_clear_gc_call st c : bits_only_clear st (with_gc_call st c).
Proof. intros p id v Hv. exists v. auto. Qed.

Lemma value_of_bits_only_clear this st c st' :
  ecma_builtin_boolean_prototype_object_value_of this st = Returned c st' ->
  bits_only_clear st st'.
Proof.
  intros Hrun. pose proof (value_of_outcome st this) as Hout. rewrite Hrun in Hout.
  destruct Hout as [(_ & _ & ->)|[(p & b & _ & _ & _ & _ & _ & ->)|(_ & _ & Heq)]].
  - apply bits_only_clear_refl.
  - apply bits_only_clear_refl.
  - injection Heq as _ ->. apply bits_only_clear_new_object.
Qed.

Lemma to_string_bits_only_clear this st c st' :
  ecma_builtin_boolean_prototype_object_to_string this st = Returned c st' ->
  bits_only_clear st st'.
Proof.
  unfold ecma_builtin_boolean_prototype_object_to_string, ECMA_TRY_CATCH.
  intros Hrun. apply bind_inv in Hrun as (var & st1 & Hvalue & Hrest).
  apply value_of_bits_only_clear in Hvalue.
  apply (bits_only_clear_trans _ _ _ Hvalue).
  destruct (ecma_is_completion_value_throw var).
  - injection Hrest as _ ->. apply bits_only_clear_refl.
  - apply bind_inv in Hrest as (ret_value & st2 & Hbody & Hfree).
    assert (st2 = st1) as ->.
    { apply bind_inv in Hbody as (str & st3 & Hstr & Hret). injection Hret as _ <-.
      destruct (ecma_is_completion_value_normal_true var).
      - injection Hstr as _ ->. reflexivity.
      - apply bind_inv in Hstr as (u & st4 & Hassert & Hret).
        apply JERRY_ASSERT_inv in Hassert as [_ ->]. injection Hret as _ ->. reflexivity. }
    apply bind_inv in Hfree as (u & st3 & Hcall & Hret).
    injection Hcall as _ <-. injection Hret as _ <-. apply bits_only_clear_gc_call.
Qed.

Lemma try_to_instantiate_bits_only_clear obj_p prop_name_p st r st' :
  ecma_builtin_boolean_prototype_try_to_instantiate_property obj_p prop_name_p st
  = Returned r st' ->
  bits_only_clear st st'.
Proof.
  intros Hrun. destruct r as [prop_p|].
  2:{ apply try_to_instantiate_NULL in Hrun as ->. apply bits_only_clear_refl. }
  apply try_to_instantiate_success in Hrun
    as (o & id & index & bit_mask & payload_p & w & e & c & extra & pre &
        _ & Ho & _ & _ & _ & _ & Hmask & _ & _ & Hheap & _).
  pose proof (lookup_lt_Some _ _ _ Ho) as Hlen.
  intros p slot v Hv. unfold internal_slot in *. rewrite Hheap.
  destruct (decide (p = obj_p)) as [->|Hne].
  - rewrite list_lookup_insert_eq by (rewrite length_app; lia).
    rewrite Ho in Hv. cbn [properties ecma_find_internal_property].
    rewrite (find_set_internal_property _ _ _ _ _ Hmask).
    destruct (decide (slot = fst (mask_of_index index))) as [->|Hslot].
    + rewrite Hmask in Hv. injection Hv as <-.
      eexists. split; [reflexivity|]. intros k. apply testbit_land_false.
    + exists v. auto.
  - rewrite list_lookup_insert_ne by congruence.
    destruct (heap st !! p) as [o'|] eqn:Hp; [|discriminate].
    rewrite (lookup_app_l_Some _ _ _ _ Hp). exists v. auto.
Qed.

Lemma delete_named_property_bits_only_clear obj_p name st st' :
  ecma_delete_named_property obj_p name st = Returned tt st' ->
  bits_only_clear st st'.
Proof.
  unfold ecma_delete_named_property. intros Hrun.
  apply bind_inv in Hrun as (o & st1 & Hget & Hset).
  apply ECMA_GET_POINTER_inv in Hget as [-> Ho]. injection Hset as <-.
  pose proof (lookup_lt_Some _ _ _ Ho) as Hlen.
  intros p slot v Hv. unfold internal_slot in *. cbn [heap with_object].
  destruct (decide (p = obj_p)) as [->|Hne].
  - rewrite list_lookup_insert_eq by exact Hlen. rewrite Ho in Hv.
    cbn [properties]. rewrite find_internal_delete_named. exists v. auto.
  - rewrite list_lookup_insert_ne by congruence. exists v. auto.
Qed.

Lemma get_routine_parameters_number_state id st n st' :
  ecma_builtin_boolean_prototype_get_routine_parameters_number id st = Returned n st' ->
  st' = st.
Proof.
  unfold ecma_builtin_boolean_prototype_get_routine_parameters_number.
  destruct (find _ _); cbn; [|discriminate]. intros [= _ ->]. reflexivity.
Qed.

Lemma dispatch_routine_bits_only_clear id this args n st c st' :
  ecma_builtin_boolean_prototype_dispatch_routine id this args n st = Returned c st' ->
  bits_only_clear st st'.
Proof.
  unfold ecma_builtin_boolean_prototype_dispatch_routine.
  cbn [find ECMA_BUILTIN_BOOLEAN_PROTOTYPE_OBJECT_ROUTINES_PROPERTY_LIST routine_name].
  destruct (id =? ECMA_MAGIC_STRING_TO_STRING_UL); cbn [c_function].
  - apply to_string_bits_only_clear.
  - destruct (id =? ECMA_MAGIC_STRING_VALUE_OF_UL); cbn [c_function].
    + apply value_of_bits_only_clear.
    + discriminate.
Qed.

Lemma builtin_step_bits_only_clear st st' :
  builtin_step st st' -> bits_only_clear st st'.
Proof.
  intros [obj_p name r st1 st2 H|id this args n c st1 st2 H|id n st1 st2 H|obj_p name st1 st2 H].
  - exact (try_to_instantiate_bits_only_clear _ _ _ _ _ H).
  - exact (dispatch_routine_bits_only_clear _ _ _ _ _ _ _ H).
  - apply get_routine_parameters_number_state in H as ->. apply bits_only_clear_refl.
  - exact (delete_named_property_bits_only_clear _ _ _ _ H).
Qed.

Lemma builtin_steps_bits_only_clear st st' :
  rtc builtin_step st st' -> bits_only_clear st st'.
Proof.
  induction 1 as [st|st1 st2 st3 Hstep _ IH].
  - apply bits_only_clear_refl.
  - exact (bits_only_clear_trans _ _ _ (builtin_step_bits_only_clear _ _ Hstep) IH).
Qed.

Lemma non_instantiated_bit_stays_clear st st' p index :
  bits_only_clear st st' ->
  non_instantiated_bit st p index = Some false ->
  non_instantiated_bit st' p index = Some false.
Proof.
  unfold non_instantiated_bit. intros Hclear.
  destruct (internal_slot st p _) as [v|] eqn:Hv; [|discriminate].
  intros [= Hbit]. destruct (Hclear _ _ _ Hv) as (v' & -> & Hbits).
  rewrite (Hbits _ Hbit). reflexivity.
Qed.

End Mask_monotone.

(** ** Instantiate-once *)

Section Instantiate_once.

Context `{G : ecma_globals_h}.

Lemma mask_of_index_shift index : 0 <= index < 64 -> 0 <= snd (mask_of_index index) < 32.
Proof. unfold mask_of_index. destruct (Z.geb_spec index 32); cbn [snd]; lia. Qed.

(** Where the bit of a name is clear, the instantiation returns NULL and
    leaves the engine as it is, unless an entry assertion fails. *)
Lemma try_to_instantiate_cleared obj_p prop_name_p id st :
  ecma_is_string_magic prop_name_p = Some id ->
  let index :=
    ecma_builtin_bin_search_for_magic_string_id_in_array
      ecma_builtin_property_names ecma_builtin_boolean_prototype_property_number id in
  0 <= index < 64 ->
  non_instantiated_bit st obj_p (Z.to_nat index) = Some false ->
  (forall r st',
      ecma_builtin_boolean_prototype_try_to_instantiate_property obj_p prop_name_p st
      = Returned r st' -> r = None /\ st' = st) /\
  (try_to_instantiate_pre st obj_p prop_name_p = true ->
   ecma_builtin_boolean_prototype_try_to_instantiate_property obj_p prop_name_p st
   = Returned None st).
Proof.
  intros Hmagic index Hrange. unfold non_instantiated_bit, internal_slot.
  rewrite Z2Nat.id by lia.
  destruct (heap st !! obj_p) as [o|] eqn:Ho; [|discriminate].
  destruct (ecma_find_internal_property (properties o) _) as [bit_mask|] eqn:Hmask;
    [|discriminate].
  intros [= Hbit].
  assert (Hrun :
    ecma_builtin_boolean_prototype_try_to_instantiate_property obj_p prop_name_p st
    = if negb (bool_decide (builtin_object_lookup (ecma_builtin_objects st)
                              ECMA_BUILTIN_ID_BOOLEAN_PROTOTYPE = Some obj_p))
      then Trapped (JERRY_ASSERT_failed 179)
      else if negb (bool_decide (ecma_find_named_property (properties o) prop_name_p = None))
           then Trapped (JERRY_ASSERT_failed 180)
           else if index =? -1 then Returned None st else Returned None st).
  { rewrite try_to_instantiate_property_unfold, Ho, Hmagic. cbv zeta. fold index.
    destruct (negb _); [reflexivity|]. destruct (negb _); [reflexivity|].
    destruct (index =? -1); [reflexivity|].
    destruct (Z.geb_spec index 0); [|lia]. destruct (Z.ltb_spec index 64); [|lia].
    cbn [andb negb]. rewrite Hmask.
    rewrite land_bit_eqb, Hbit by (apply mask_of_index_shift; lia). reflexivity. }
  rewrite Hrun. split.
  - intros r st'. destruct (negb _); [discriminate|]. destruct (negb _); [discriminate|].
    destruct (index =? -1); intros [= <- <-]; auto.
  - unfold try_to_instantiate_pre. rewrite Ho. intros Hpre.
    apply andb_true_iff in Hpre as [-> Hpre]. apply andb_true_iff in Hpre as [-> _].
    cbn [negb]. destruct (index =? -1); reflexivity.
Qed.

(** C3. A successful instantiation of a name clears exactly the mask bit at
    the registry index of the name (the bit was set before, every other bit
    of the mask is as before); from then on, whatever operations of the
    built-in follow, no bit that is clear is ever set again, and every
    later instantiation of the same name on the same object that returns
    returns NULL and changes nothing: it returns NULL whenever its entry
    preconditions hold. *)
Theorem try_to_instantiate_at_most_once
    (st : ecma_engine) (obj_p : nat) (prop_name_p : ecma_string_t)
    (prop_p : nat * ecma_string_t) (st1 : ecma_engine) :
  ecma_builtin_boolean_prototype_try_to_instantiate_property obj_p prop_name_p st
  = Returned (Some prop_p) st1 ->
  exists (id : Z) (index : nat),
    ecma_is_string_magic prop_name_p = Some id /\
    ecma_builtin_property_names !! index = Some id /\
    non_instantiated_bit st obj_p index = Some true /\
    (forall j : nat,
        (j < 64)%nat ->
        non_instantiated_bit st1 obj_p j
        = if decide (j = index) then Some false else non_instantiated_bit st obj_p j) /\
    (forall st2,
        rtc builtin_step st1 st2 ->
        (forall p j,
            non_instantiated_bit st1 p j = Some false ->
            non_instantiated_bit st2 p j = Some false) /\
        (forall r st3,
            ecma_builtin_boolean_prototype_try_to_instantiate_property obj_p prop_name_p st2
            = Returned r st3 -> r = None /\ st3 = st2) /\
        (try_to_instantiate_pre st2 obj_p prop_name_p = true ->
         ecma_builtin_boolean_prototype_try_to_instantiate_property obj_p prop_name_p st2
         = Returned None st2)).
Proof.
  intros Hrun.
  apply try_to_instantiate_success in Hrun
    as (o & id & index & bit_mask & payload_p & w & e & c & extra & pre &
        _ & Ho & _ & Hmagic & Hindex & Hrange & Hmask & Hbit & _ & Hheap & _).
  pose proof (lookup_lt_Some _ _ _ Ho) as Hlen.
  pose proof (mask_of_index_shift index Hrange) as Hshift.
  assert (Hfound : ecma_builtin_property_names !! Z.to_nat index = Some id).
  { pose proof (bin_search_sound ecma_builtin_property_names
                  ecma_builtin_boolean_prototype_property_number id) as Hsound.
    cbv zeta in Hsound. rewrite <- Hindex in Hsound.
    destruct Hsound as [Hnone|[_ Hsome]]; [lia|exact Hsome]. }
  assert (Hslot1 : forall slot,
             internal_slot st1 obj_p slot
             = if decide (slot = fst (mask_of_index index))
               then Some (Z.land bit_mask (uint32_not (uint32_shl1 (snd (mask_of_index index)))))
               else internal_slot st obj_p slot).
  { intros slot. unfold internal_slot. rewrite Hheap, Ho.
    rewrite list_lookup_insert_eq by (rewrite length_app; lia).
    cbn [properties ecma_find_internal_property].
    apply (find_set_internal_property _ _ _ _ _ Hmask). }
  assert (Hbit1 : forall j : nat,
             (j < 64)%nat ->
             non_instantiated_bit st1 obj_p j
             = if decide (j = Z.to_nat index) then Some false
               else non_instantiated_bit st obj_p j).
  { intros j Hj. unfold non_instantiated_bit. rewrite Hslot1.
    pose proof (mask_of_index_shift (Z.of_nat j) ltac:(lia)) as Hshiftj.
    destruct (decide (j = Z.to_nat index)) as [->|Hne].
    - rewrite Z2Nat.id by lia. rewrite decide_True by reflexivity.
      rewrite testbit_clear_bit, Z.eqb_refl, andb_false_r by lia. reflexivity.
    - destruct (decide (fst (mask_of_index (Z.of_nat j)) = fst (mask_of_index index)))
        as [Heq|Hneq]; [|reflexivity].
      unfold internal_slot. rewrite Ho, Heq, Hmask.
      rewrite testbit_clear_bit by lia.
      assert (Hsnd : snd (mask_of_index (Z.of_nat j)) <> snd (mask_of_index index)).
      { revert Heq. unfold mask_of_index.
        destruct (Z.geb_spec (Z.of_nat j) 32), (Z.geb_spec index 32);
          cbn [fst snd]; try discriminate; lia. }
      apply Z.eqb_neq in Hsnd. rewrite Hsnd, andb_true_r. reflexivity. }
  exists id, (Z.to_nat index).
  split; [exact Hmagic|]. split; [exact Hfound|]. split.
  { unfold non_instantiated_bit, internal_slot. rewrite Z2Nat.id, Ho, Hmask by lia.
    f_equal. destruct (Z.testbit bit_mask _) eqn:Htestbit; [reflexivity|].
    exfalso. apply Hbit, Z.eqb_eq. rewrite land_bit_eqb, Htestbit by lia. reflexivity. }
  split; [exact Hbit1|].
  intros st2 Hsteps. apply builtin_steps_bits_only_clear in Hsteps.
  split.
  { intros p j. apply non_instantiated_bit_stays_clear, Hsteps. }
  assert (Hclear2 : non_instantiated_bit st2 obj_p (Z.to_nat index) = Some false).
  { apply (non_instantiated_bit_stays_clear st1 st2 _ _ Hsteps).
    rewrite Hbit1 by lia. rewrite decide_True by reflexivity. reflexivity. }
  rewrite Hindex in Hclear2, Hrange.
  exact (try_to_instantiate_cleared obj_p prop_name_p id st2 Hmagic Hrange Hclear2).
Qed.

End Instantiate_once.

(** ** Outcomes of the instantiation *)

Section Instantiation_outcomes.

Context `{G : ecma_globals_h}.

Lemma property_names_eq :
  ecma_builtin_property_names
  = [ECMA_MAGIC_STRING_CONSTRUCTOR; ECMA_MAGIC_STRING_TO_STRING_UL; ECMA_MAGIC_STRING_VALUE_OF_UL].
Proof. reflexivity. Qed.

Lemma property_names_cases id :
  id ∈ ecma_builtin_property_names ->
  id = ECMA_MAGIC_STRING_CONSTRUCTOR \/ id = ECMA_MAGIC_STRING_TO_STRING_UL \/
  id = ECMA_MAGIC_STRING_VALUE_OF_UL.
Proof.
  rewrite property_names_eq. rewrite !elem_of_cons, elem_of_nil. tauto.
Qed.

(** For a registered name the switch returns: neither [JERRY_UNREACHABLE]
    is reached. *)
Lemma instantiate_switch_returns id st :
  id ∈ ecma_builtin_property_names ->
  exists switched st1, instantiate_switch id st = Returned switched st1.
Proof.
  intros Hin. apply property_names_cases in Hin. unfold instantiate_switch.
  cbn [map existsb routine_name fst find
       ECMA_BUILTIN_BOOLEAN_PROTOTYPE_OBJECT_ROUTINES_PROPERTY_LIST
       ECMA_BUILTIN_BOOLEAN_PROTOTYPE_OBJECT_OBJECT_VALUES_PROPERTY_LIST].
  destruct (Z.eqb_spec id ECMA_MAGIC_STRING_TO_STRING_UL) as [|Hts]; cbn [orb].
  { cbn. eauto. }
  destruct (Z.eqb_spec id ECMA_MAGIC_STRING_VALUE_OF_UL) as [|Hvo]; cbn [orb].
  { cbn. eauto. }
  destruct (Z.eqb_spec id ECMA_MAGIC_STRING_CONSTRUCTOR) as [|Hc]; cbn [orb]; [|tauto].
  unfold bind, ecma_builtin_get.
  destruct (builtin_object_lookup _ _); cbn; eauto.
Qed.

Lemma named_data_property_at_new st obj_p name v w e c (l : list ecma_object_t) o rest :
  (obj_p < length l)%nat ->
  heap st = <[obj_p := mk_object o (ECMA_PROPERTY_NAMEDDATA name v w e c :: rest)]> l ->
  named_data_property_at st (obj_p, name) = Some (ECMA_PROPERTY_NAMEDDATA name v w e c).
Proof.
  intros Hlen Hheap. unfold named_data_property_at. cbn [fst snd].
  rewrite Hheap, list_lookup_insert_eq by exact Hlen.
  cbn [properties ecma_find_named_property]. rewrite decide_True by reflexivity. reflexivity.
Qed.

(** C4. Under its entry preconditions (the object is the Boolean.prototype
    built-in, it has no record of the name) and on a sorted registry, the
    instantiation always returns: NULL exactly when the name is not a magic
    string, or is not in the registry, or its mask bit is already clear,
    and a property record of the object in every other case.  A NULL
    return changes nothing, and no error object is ever constructed: there
    is no Throw. *)
Theorem try_to_instantiate_total
    (st : ecma_engine) (obj_p : nat) (prop_name_p : ecma_string_t) :
  strictly_increasing ecma_builtin_property_names = true ->
  try_to_instantiate_pre st obj_p prop_name_p = true ->
  exists r st',
    ecma_builtin_boolean_prototype_try_to_instantiate_property obj_p prop_name_p st
    = Returned r st' /\
    (r = None <->
     (ecma_is_string_magic prop_name_p = None \/
      (exists id, ecma_is_string_magic prop_name_p = Some id /\
                  id ∉ ecma_builtin_property_names) \/
      (exists id index,
          ecma_is_string_magic prop_name_p = Some id /\
          ecma_builtin_property_names !! index = Some id /\
          non_instantiated_bit st obj_p index = Some false))) /\
    (r = None -> st' = st) /\
    (forall prop_p,
        r = Some prop_p ->
        exists v w e c,
          named_data_property_at st' prop_p = Some (ECMA_PROPERTY_NAMEDDATA prop_name_p v w e c)) /\
    (forall p o',
        heap st' !! p = Some o' -> is_standard_error o' = true ->
        exists o, heap st !! p = Some o /\ is_standard_error o = true).
Proof.
  intros Hsorted Hpre. apply strictly_increasing_sorted in Hsorted.
  assert (Hprogress : exists r st',
    ecma_builtin_boolean_prototype_try_to_instantiate_property obj_p prop_name_p st
    = Returned r st' /\
    (r = None <->
     (ecma_is_string_magic prop_name_p = None \/
      (exists id, ecma_is_string_magic prop_name_p = Some id /\
                  id ∉ ecma_builtin_property_names) \/
      (exists id index,
          ecma_is_string_magic prop_name_p = Some id /\
          ecma_builtin_property_names !! index = Some id /\
          non_instantiated_bit st obj_p index = Some false)))).
  { unfold try_to_instantiate_pre in Hpre.
    apply andb_true_iff in Hpre as [Hbuiltin Hpre].
    destruct (heap st !! obj_p) as [o|] eqn:Ho; [|discriminate].
    apply andb_true_iff in Hpre as [Hnamed Hmask0].
    apply bool_decide_eq_true in Hmask0 as [bit_mask Hmask0].
    pose proof (lookup_lt_Some _ _ _ Ho) as Hlen.
    rewrite try_to_instantiate_property_unfold, Hbuiltin, Ho, Hnamed. cbn [negb].
    destruct (ecma_is_string_magic prop_name_p) as [id|] eqn:Hmagic.
    2:{ exists None, st. split; [reflexivity|]. split; auto. }
    cbv zeta. unfold ecma_builtin_boolean_prototype_property_number.
    destruct (decide (id ∈ ecma_builtin_property_names)) as [Hin|Hnin].
    2:{ rewrite (bin_search_not_found _ Hsorted id).
        - exists None, st. split; [reflexivity|]. split; [|reflexivity].
          intros _. right. left. eauto.
        - intros i Hi. apply Hnin. apply list_elem_of_lookup. eauto. }
    pose proof Hin as Hin'. apply list_elem_of_lookup in Hin' as [i Hi].
    rewrite (bin_search_found _ Hsorted i id Hi).
    assert (Hi3 : (i < 3)%nat) by (apply lookup_lt_Some in Hi; exact Hi).
    destruct (Z.eqb_spec (Z.of_nat i) (-1)) as [|_]; [lia|].
    destruct (Z.geb_spec (Z.of_nat i) 0); [|lia].
    destruct (Z.ltb_spec (Z.of_nat i) 64); [|lia].
    cbn [andb negb]. unfold mask_of_index at 1 2 3 4 5.
    destruct (Z.geb_spec (Z.of_nat i) 32); [lia|]. cbn [fst snd].
    rewrite Hmask0, land_bit_eqb by lia.
    assert (Hbit : non_instantiated_bit st obj_p i = Some (Z.testbit bit_mask (Z.of_nat i))).
    { unfold non_instantiated_bit, internal_slot, mask_of_index.
      destruct (Z.geb_spec (Z.of_nat i) 32); [lia|]. cbn [fst snd].
      rewrite Ho, Hmask0. reflexivity. }
    destruct (Z.testbit bit_mask (Z.of_nat i)) eqn:Htestbit; cbn [negb].
    - match goal with
      | |- context [with_object st obj_p ?o1] => set (s1 := with_object st obj_p o1)
      end.
      destruct (instantiate_switch_returns id s1 Hin) as (switched & st1 & Hswitch).
      pose proof (instantiate_switch_inv _ _ _ _ Hswitch)
        as (payload_p & w & e & c & extra & pre & -> & Hheap1 & _).
      assert (is_Some (heap st1 !! obj_p)) as [o1 Ho1].
      { apply lookup_lt_is_Some. rewrite Hheap1, length_app. subst s1.
        cbn [heap with_object]. rewrite length_insert. lia. }
      exists (Some (obj_p, prop_name_p)). eexists. split.
      { unfold bind. rewrite Hswitch. apply (instantiate_store_run _ _ _ _ _ _ _ _ Ho1). }
      split; [discriminate|].
      intros [Habs|[(id' & Hid' & Hnin)|(id' & i' & Hid' & Hi' & Hclear)]].
      + discriminate.
      + injection Hid' as <-. contradiction.
      + injection Hid' as <-.
        pose proof (StronglySorted_lookup_lt _ Hsorted) as Hlt.
        assert (i' = i) as ->.
        { destruct (Nat.lt_trichotomy i' i) as [Hc|[Hc|Hc]]; [|exact Hc|].
          - pose proof (Hlt _ _ _ _ Hi' Hi Hc). lia.
          - pose proof (Hlt _ _ _ _ Hi Hi' Hc). lia. }
        congruence.
    - exists None, st. split; [reflexivity|]. split; [|reflexivity].
      intros _. right. right. exists id, i. auto. }
  destruct Hprogress as (r & st' & Hrun & Hnull). exists r, st'.
  split; [exact Hrun|]. split; [exact Hnull|].
  destruct r as [prop_p|].
  - apply try_to_instantiate_success in Hrun
      as (o & id & index & bit_mask & payload_p & w & e & c & extra & pre &
          _ & Ho & _ & _ & _ & _ & _ & _ & -> & Hheap & _ & Hextra & _).
    pose proof (lookup_lt_Some _ _ _ Ho) as Hlen.
    split; [discriminate|]. split.
    + intros prop_p [= <-]. exists (ecma_object payload_p), w, e, c.
      eapply named_data_property_at_new; [|exact Hheap]. rewrite length_app. lia.
    + intros p o' Hp Herr. rewrite Hheap in Hp.
      destruct (decide (p = obj_p)) as [->|Hne].
      * rewrite list_lookup_insert_eq in Hp by (rewrite length_app; lia).
        injection Hp as <-. exists o. split; [exact Ho|exact Herr].
      * rewrite list_lookup_insert_ne in Hp by congruence.
        apply lookup_app_Some in Hp as [Hp|[_ Hp]]; [eauto|].
        exfalso. apply list_elem_of_lookup_2 in Hp.
        rewrite forallb_forall in Hextra.
        apply list_elem_of_In in Hp. specialize (Hextra _ Hp).
        rewrite Herr in Hextra. discriminate.
  - apply try_to_instantiate_NULL in Hrun as ->.
    split; [reflexivity|]. split; [discriminate|]. eauto.
Qed.

(** C8. The attributes of the property a successful instantiation creates
    are those of the kind of its registry entry: writable, not enumerable,
    configurable for the routines toString and valueOf; not writable, not
    enumerable, not configurable for the value constructor. *)
Theorem instantiated_property_attributes
    (st : ecma_engine) (obj_p : nat) (prop_name_p : ecma_string_t)
    (prop_p : nat * ecma_string_t) (st' : ecma_engine) :
  NoDup ecma_builtin_property_names ->
  ecma_builtin_boolean_prototype_try_to_instantiate_property obj_p prop_name_p st
  = Returned (Some prop_p) st' ->
  exists id payload writable enumerable configurable,
    ecma_is_string_magic prop_name_p = Some id /\
    named_data_property_at st' prop_p
    = Some (ECMA_PROPERTY_NAMEDDATA prop_name_p payload writable enumerable configurable) /\
    (id = ECMA_MAGIC_STRING_TO_STRING_UL \/ id = ECMA_MAGIC_STRING_VALUE_OF_UL \/
     id = ECMA_MAGIC_STRING_CONSTRUCTOR) /\
    (id = ECMA_MAGIC_STRING_TO_STRING_UL \/ id = ECMA_MAGIC_STRING_VALUE_OF_UL ->
     (writable, enumerable, configurable)
     = (ECMA_PROPERTY_WRITABLE, ECMA_PROPERTY_NOT_ENUMERABLE, ECMA_PROPERTY_CONFIGURABLE)) /\
    (id = ECMA_MAGIC_STRING_CONSTRUCTOR ->
     (writable, enumerable, configurable)
     = (ECMA_PROPERTY_NOT_WRITABLE, ECMA_PROPERTY_NOT_ENUMERABLE,
        ECMA_PROPERTY_NOT_CONFIGURABLE)).
Proof.
  intros Hnodup Hrun. rewrite property_names_eq in Hnodup.
  apply NoDup_cons in Hnodup as [Hfresh _].
  rewrite !not_elem_of_cons in Hfresh. destruct Hfresh as (Hts & Hvo & _).
  apply try_to_instantiate_success in Hrun
    as (o & id & index & bit_mask & payload_p & w & e & c & extra & pre &
        _ & Ho & _ & Hmagic & _ & _ & _ & _ & -> & Hheap & _ & _ & _ & _ & Hattrs).
  pose proof (lookup_lt_Some _ _ _ Ho) as Hlen.
  exists id, (ecma_object payload_p), w, e, c.
  split; [exact Hmagic|]. split.
  { eapply named_data_property_at_new; [|exact Hheap]. rewrite length_app. lia. }
  cbn [map existsb routine_name ECMA_BUILTIN_BOOLEAN_PROTOTYPE_OBJECT_ROUTINES_PROPERTY_LIST]
    in Hattrs.
  destruct Hattrs as [[Hroutine Heq]|(Hroutine & -> & Heq)].
  - rewrite orb_false_r in Hroutine. apply orb_true_iff in Hroutine.
    rewrite !Z.eqb_eq in Hroutine.
    split; [tauto|]. split; [auto|].
    intros ->. destruct Hroutine; congruence.
  - split; [auto|]. split; [|auto].
    rewrite orb_false_r in Hroutine. apply orb_false_iff in Hroutine.
    rewrite !Z.eqb_neq in Hroutine. intros [H|H]; tauto.
Qed.

(** C9. In every successful instantiation the new property stores a heap
    reference, and the calls the run makes to the collector end with the
    flagging of the owning object followed by the release of the local
    handle to the payload: no release is made before the flagging. *)
Theorem instantiation_flags_before_release
    (st : ecma_engine) (obj_p : nat) (prop_name_p : ecma_string_t)
    (prop_p : nat * ecma_string_t) (st' : ecma_engine) :
  ecma_builtin_boolean_prototype_try_to_instantiate_property obj_p prop_name_p st
  = Returned (Some prop_p) st' ->
  exists payload writable enumerable configurable before,
    named_data_property_at st' prop_p
    = Some (ECMA_PROPERTY_NAMEDDATA prop_name_p payload writable enumerable configurable) /\
    value_type payload = ECMA_TYPE_OBJECT /\
    gc_calls st' =
      gc_calls st ++ before ++
        [Call_ecma_gc_update_may_ref_younger_object_flag_by_value obj_p payload;
         Call_ecma_free_value payload true] /\
    forallb (fun c => negb (is_free_value_call c)) before = true.
Proof.
  intros Hrun.
  apply try_to_instantiate_success in Hrun
    as (o & id & index & bit_mask & payload_p & w & e & c & extra & pre &
        _ & Ho & _ & _ & _ & _ & _ & _ & -> & Hheap & Hcalls & _ & Hpre & _).
  pose proof (lookup_lt_Some _ _ _ Ho) as Hlen.
  exists (ecma_object payload_p), w, e, c,
    (pre ++ [Call_ecma_copy_value (ecma_object payload_p) false]).
  split.
  { eapply named_data_property_at_new; [|exact Hheap]. rewrite length_app. lia. }
  split; [reflexivity|]. split.
  - rewrite Hcalls, <- !app_assoc. reflexivity.
  - rewrite forallb_app, Hpre. reflexivity.
Qed.

(** The binary search over an array of three identifiers, step by step. *)
Lemma bin_search_three (a b c key : Z) :
  ecma_builtin_bin_search_for_magic_string_id_in_array [a; b; c] 3 key
  = if b =? key then 1
    else if b >? key then (if a =? key then 0 else -1)
         else (if c =? key then 2 else -1).
Proof.
  unfold ecma_builtin_bin_search_for_magic_string_id_in_array.
  change (S (Z.to_nat 3)) with 4%nat. change (3 - 1) with 2.
  cbn [bin_search_loop]. change (0 <=? 2) with true. cbv iota zeta.
  change ((0 + 2) `quot` 2) with 1. change (Z.to_nat 1) with 1%nat.
  change ([a; b; c] !! 1%nat) with (Some b). cbv iota beta.
  change (1 - 1) with 0. change (1 + 1) with 2.
  change (0 <=? 0) with true. change (2 <=? 2) with true. cbv iota.
  change ((0 + 0) `quot` 2) with 0. change ((2 + 2) `quot` 2) with 2.
  change (Z.to_nat 0) with 0%nat. change (Z.to_nat 2) with 2%nat.
  change ([a; b; c] !! 0%nat) with (Some a). change ([a; b; c] !! 2%nat) with (Some c).
  cbv iota beta. change (0 - 1) with (-1). change (0 + 1) with 1.
  change (2 - 1) with 1. change (2 + 1) with 3.
  change (0 <=? -1) with false. change (1 <=? 0) with false.
  change (2 <=? 1) with false. change (3 <=? 2) with false. cbv iota.
  destruct (b =? key); [reflexivity|].
  destruct (b >? key).
  - destruct (a =? key); [reflexivity|]. destruct (a >? key); reflexivity.
  - destruct (c =? key); [reflexivity|]. destruct (c >? key); reflexivity.
Qed.

(** X14. The registry and the order of its identifiers: the labels of the switch
    being distinct, the binary search finds every registered name at its
    index exactly when the array of names is strictly increasing.  Whether
    it is depends on the values the enumerators have in [ecma-globals.h]. *)
Lemma registry_search_complete_iff_sorted :
  NoDup ecma_builtin_property_names ->
  (forall (i : nat) (id : Z),
      ecma_builtin_property_names !! i = Some id ->
      ecma_builtin_bin_search_for_magic_string_id_in_array
        ecma_builtin_property_names ecma_builtin_boolean_prototype_property_number id
      = Z.of_nat i) <->
  strictly_increasing ecma_builtin_property_names = true.
Proof.
  intros Hnodup. split.
  - intros Hfind.
    pose proof (Hfind 0%nat ECMA_MAGIC_STRING_CONSTRUCTOR eq_refl) as H0.
    pose proof (Hfind 2%nat ECMA_MAGIC_STRING_VALUE_OF_UL eq_refl) as H2.
    rewrite property_names_eq in Hnodup.
    apply NoDup_cons in Hnodup as [Hfresh Hnodup].
    apply NoDup_cons in Hnodup as [Hfresh' _].
    rewrite !not_elem_of_cons in Hfresh. rewrite !not_elem_of_cons in Hfresh'.
    destruct Hfresh as (Hct & Hcv & _). destruct Hfresh' as (Htv & _).
    unfold ecma_builtin_boolean_prototype_property_number in H0, H2.
    rewrite property_names_eq in H0, H2 |- *.
    change (Z.of_nat (length [ECMA_MAGIC_STRING_CONSTRUCTOR; ECMA_MAGIC_STRING_TO_STRING_UL;
                              ECMA_MAGIC_STRING_VALUE_OF_UL])) with 3 in H0, H2.
    rewrite bin_search_three in H0, H2. cbn [strictly_increasing].
    change (Z.of_nat 0) with 0 in H0. change (Z.of_nat 2) with 2 in H2.
    destruct (Z.eqb_spec ECMA_MAGIC_STRING_TO_STRING_UL ECMA_MAGIC_STRING_CONSTRUCTOR);
      [congruence|].
    destruct (Z.eqb_spec ECMA_MAGIC_STRING_TO_STRING_UL ECMA_MAGIC_STRING_VALUE_OF_UL);
      [congruence|].
    destruct (Z.gtb_spec ECMA_MAGIC_STRING_TO_STRING_UL ECMA_MAGIC_STRING_CONSTRUCTOR);
      [|destruct (ECMA_MAGIC_STRING_VALUE_OF_UL =? ECMA_MAGIC_STRING_CONSTRUCTOR);
        discriminate H0].
    destruct (Z.gtb_spec ECMA_MAGIC_STRING_TO_STRING_UL ECMA_MAGIC_STRING_VALUE_OF_UL);
      [destruct (ECMA_MAGIC_STRING_CONSTRUCTOR =? ECMA_MAGIC_STRING_VALUE_OF_UL);
       discriminate H2|].
    destruct (Z.ltb_spec ECMA_MAGIC_STRING_CONSTRUCTOR ECMA_MAGIC_STRING_TO_STRING_UL);
      destruct (Z.ltb_spec ECMA_MAGIC_STRING_TO_STRING_UL ECMA_MAGIC_STRING_VALUE_OF_UL);
      try reflexivity; lia.
  - intros Hsorted i id Hi.
    apply (bin_search_found _ (strictly_increasing_sorted _ Hsorted) i id Hi).
Qed.

End Instantiation_outcomes.

(** ** The properties on the sample engine *)

(** C1, on the engine [example_engine]: valueOf of the primitives true and
    false, of a Boolean wrapper of true, of a number and of a plain object. *)
Lemma value_of_spec_witness :
  @ecma_builtin_boolean_prototype_object_value_of example_globals (ecma_simple 4) example_engine
  = Returned (Normal (ecma_simple 4)) example_engine /\
  @ecma_builtin_boolean_prototype_object_value_of example_globals (ecma_simple 3) example_engine
  = Returned (Normal (ecma_simple 3)) example_engine /\
  @ecma_builtin_boolean_prototype_object_value_of example_globals (ecma_object 1%nat) example_engine
  = Returned (Normal (ecma_simple 4)) example_engine /\
  @ecma_builtin_boolean_prototype_object_value_of example_globals (ecma_number 42%nat) example_engine
  = @Throw_TypeError example_globals example_engine /\
  @ecma_builtin_boolean_prototype_object_value_of example_globals (ecma_object 2%nat) example_engine
  = @Throw_TypeError example_globals example_engine.
Proof.
  split; [|split; [|split; [|split]]].
  - apply (@value_of_spec example_globals example_engine (ecma_simple 4)); reflexivity.
  - apply (@value_of_spec example_globals example_engine (ecma_simple 3)); reflexivity.
  - apply (proj1 (proj2 (@value_of_spec example_globals example_engine (ecma_object 1%nat)
                           eq_refl eq_refl eq_refl)) 1%nat 4); reflexivity.
  - apply (@value_of_spec example_globals example_engine (ecma_number 42%nat));
      [reflexivity|reflexivity|reflexivity|reflexivity|discriminate].
  - apply (@value_of_spec example_globals example_engine (ecma_object 2%nat));
      [reflexivity|reflexivity|reflexivity|reflexivity|].
    intros obj_p [= <-]. discriminate.
Defined.

(** C2, on [example_engine]: toString of true, of false and of a number. *)
Lemma to_string_spec_witness :
  @ecma_builtin_boolean_prototype_object_to_string example_globals (ecma_simple 4) example_engine
  = Returned (Normal (ecma_string (ECMA_STRING_CONTAINER_MAGIC_STRING 9)))
      (with_gc_call example_engine (Call_ecma_free_completion_value (Normal (ecma_simple 4)))) /\
  @ecma_builtin_boolean_prototype_object_to_string example_globals (ecma_simple 3) example_engine
  = Returned (Normal (ecma_string (ECMA_STRING_CONTAINER_MAGIC_STRING 8)))
      (with_gc_call example_engine (Call_ecma_free_completion_value (Normal (ecma_simple 3)))) /\
  @ecma_builtin_boolean_prototype_object_to_string example_globals (ecma_number 42%nat) example_engine
  = @Throw_TypeError example_globals example_engine.
Proof.
  split; [|split].
  - apply (proj1 (proj2 (@to_string_spec example_globals example_engine (ecma_simple 4)
                           ltac:(cbn; lia)))).
    reflexivity.
  - apply (proj1 (proj2 (proj2 (@to_string_spec example_globals example_engine (ecma_simple 3)
                                  ltac:(cbn; lia))))).
    reflexivity.
  - apply (proj1 (@to_string_spec example_globals example_engine (ecma_number 42%nat)
                    ltac:(cbn; lia))).
    reflexivity.
Defined.

(** C3, on [example_engine]: once 'toString' is instantiated, and the new
    property deleted, a second instantiation returns NULL. *)
Lemma try_to_instantiate_at_most_once_witness :
  @ecma_builtin_boolean_prototype_try_to_instantiate_property example_globals
    0%nat (ECMA_STRING_CONTAINER_MAGIC_STRING 40) example_engine_deleted
  = Returned None example_engine_deleted.
Proof.
  destruct (@try_to_instantiate_at_most_once example_globals example_engine 0%nat
              (ECMA_STRING_CONTAINER_MAGIC_STRING 40)
              (0%nat, ECMA_STRING_CONTAINER_MAGIC_STRING 40)
              example_engine_instantiated eq_refl)
    as (id & index & _ & _ & _ & _ & Hlater).
  apply (Hlater example_engine_deleted); [|reflexivity].
  apply rtc_once.
  apply (@step_delete_named_property example_globals 0%nat (ECMA_STRING_CONTAINER_MAGIC_STRING 40)).
  reflexivity.
Defined.

(** C4, on [example_engine]: the instantiation of 'valueOf' returns a
    property record, that of a name that is no magic string returns NULL. *)
Lemma try_to_instantiate_total_witness :
  (exists r st',
      @ecma_builtin_boolean_prototype_try_to_instantiate_property example_globals
        0%nat (ECMA_STRING_CONTAINER_MAGIC_STRING 41) example_engine = Returned r st' /\
      r <> None) /\
  (exists r st',
      @ecma_builtin_boolean_prototype_try_to_instantiate_property example_globals
        0%nat (ECMA_STRING_CONTAINER_CHARS "length") example_engine = Returned r st' /\
      r = None).
Proof.
  split.
  - destruct (@try_to_instantiate_total example_globals example_engine 0%nat
                (ECMA_STRING_CONTAINER_MAGIC_STRING 41) eq_refl eq_refl)
      as (r & st' & Hrun & Hnull & _).
    exists r, st'. split; [exact Hrun|].
    intros Hr. apply (proj1 Hnull) in Hr.
    destruct Hr as [Hr|[(id & Hid & Hnin)|(id & index & Hid & Hindex & Hbit)]].
    + discriminate Hr.
    + injection Hid as <-. apply Hnin, list_elem_of_lookup. exists 2%nat. reflexivity.
    + injection Hid as <-.
      destruct index as [|[|[|index]]]; try discriminate Hindex. discriminate Hbit.
  - destruct (@try_to_instantiate_total example_globals example_engine 0%nat
                (ECMA_STRING_CONTAINER_CHARS "length") eq_refl eq_refl)
      as (r & st' & Hrun & Hnull & _).
    exists r, st'. split; [exact Hrun|]. apply Hnull. left. reflexivity.
Defined.

(** C7, on [example_engine]: valueOf dispatched on true with two surplus
    arguments, and with none. *)
Lemma dispatch_routine_surplus_arguments_witness :
  @ecma_builtin_boolean_prototype_dispatch_routine example_globals 41 (ecma_simple 4)
    [ecma_simple 1; ecma_number 7%nat] 2 example_engine
  = @ecma_builtin_boolean_prototype_dispatch_routine example_globals 41 (ecma_simple 4)
      [] 0 example_engine.
Proof.
  destruct (@dispatch_routine_surplus_arguments example_globals example_engine 41 (ecma_simple 4)
              [ecma_simple 1; ecma_number 7%nat] (or_intror eq_refl))
    as (r & _ & Hargs & Hsame & _).
  rewrite Hargs in Hsame. exact Hsame.
Defined.

(** C8, on [example_engine]: the attributes of the instantiated 'toString'. *)
Lemma instantiated_property_attributes_witness :
  exists payload,
    named_data_property_at example_engine_instantiated
      (0%nat, ECMA_STRING_CONTAINER_MAGIC_STRING 40)
    = Some (ECMA_PROPERTY_NAMEDDATA (ECMA_STRING_CONTAINER_MAGIC_STRING 40) payload
              ECMA_PROPERTY_WRITABLE ECMA_PROPERTY_NOT_ENUMERABLE ECMA_PROPERTY_CONFIGURABLE).
Proof.
  destruct (@instantiated_property_attributes example_globals example_engine 0%nat
              (ECMA_STRING_CONTAINER_MAGIC_STRING 40)
              (0%nat, ECMA_STRING_CONTAINER_MAGIC_STRING 40)
              example_engine_instantiated
              ltac:(compute_done) eq_refl)
    as (id & payload & w & e & c & Hid & Hrecord & _ & Hroutine & _).
  injection Hid as <-. specialize (Hroutine (or_introl eq_refl)).
  injection Hroutine as -> -> ->. exists payload. exact Hrecord.
Defined.

(** C9, on [example_engine]: the calls of the instantiation of 'toString'
    end with the flagging and then the release. *)
Lemma instantiation_flags_before_release_witness :
  exists payload before,
    gc_calls example_engine_instantiated =
      gc_calls example_engine ++ before ++
        [Call_ecma_gc_update_may_ref_younger_object_flag_by_value 0%nat payload;
         Call_ecma_free_value payload true] /\
    forallb (fun c => negb (is_free_value_call c)) before = true.
Proof.
  destruct (@instantiation_flags_before_release example_globals example_engine 0%nat
              (ECMA_STRING_CONTAINER_MAGIC_STRING 40)
              (0%nat, ECMA_STRING_CONTAINER_MAGIC_STRING 40)
              example_engine_instantiated eq_refl)
    as (payload & w & e & c & before & _ & _ & Hcalls & Hbefore).
  exists payload, before. split; [exact Hcalls|exact Hbefore].
Defined.

(** * Further properties of the routines *)

Section Routines_more.

Context `{G : ecma_globals_h}.

Lemma value_of_primitive st this :
  ecma_is_value_boolean this = true ->
  ecma_builtin_boolean_prototype_object_value_of this st = Returned (Normal this) st.
Proof.
  intros Hbool. unfold ecma_builtin_boolean_prototype_object_value_of.
  rewrite Hbool. reflexivity.
Qed.

(** The completions valueOf returns, and the engine it leaves. *)
Lemma value_of_returned st this c st' :
  ecma_builtin_boolean_prototype_object_value_of this st = Returned c st' ->
  (exists v, c = Normal v /\ ecma_is_value_boolean v = true /\ st' = st) \/
  Returned c st' = Throw_TypeError st.
Proof.
  intros Hrun. pose proof (value_of_outcome st this) as Hout. rewrite Hrun in Hout.
  destruct Hout as [(Hb & -> & ->)|[(p & b & _ & _ & _ & Hb & -> & ->)|(_ & _ & Heq)]]; eauto.
Qed.

(** valueOf on an object of class Boolean, by the content of its
    primitive-value slot. *)
Lemma value_of_wrapper st obj_p b :
  internal_slot st obj_p ECMA_INTERNAL_PROPERTY_CLASS = Some ECMA_MAGIC_STRING_BOOLEAN_UL ->
  internal_slot st obj_p ECMA_INTERNAL_PROPERTY_PRIMITIVE_BOOLEAN_VALUE = Some b ->
  ecma_builtin_boolean_prototype_object_value_of (ecma_object obj_p) st
  = if b <? ECMA_SIMPLE_VALUE__COUNT
    then if ecma_is_value_boolean (ecma_simple b)
         then Returned (Normal (ecma_simple b)) st
         else Trapped (JERRY_ASSERT_failed 158)
    else Trapped (JERRY_ASSERT_failed 152).
Proof.
  intros Hclass Hprim. unfold ecma_builtin_boolean_prototype_object_value_of.
  change (ecma_is_value_boolean (ecma_object obj_p)) with false. cbv iota.
  unfold bind at 1. read_slot Hclass.
  rewrite Z.eqb_refl. read_slot Hprim. unfold ecma_make_simple_value.
  destruct (b <? ECMA_SIMPLE_VALUE__COUNT); [|reflexivity].
  destruct (ecma_is_value_boolean (ecma_simple b)); reflexivity.
Qed.


(** X2. valueOf is idempotent on what it unwraps: the value of a Normal
    completion of valueOf is a primitive boolean, on which valueOf returns
    the same completion and leaves the engine as it is. *)
Theorem value_of_idempotent (st : ecma_engine) (this v : ecma_value_t) (st' : ecma_engine) :
  ecma_builtin_boolean_prototype_object_value_of this st = Returned (Normal v) st' ->
  ecma_is_value_boolean v = true /\
  ecma_builtin_boolean_prototype_object_value_of v st' = Returned (Normal v) st'.
Proof.
  intros Hrun. apply value_of_returned in Hrun as [(v' & [= <-] & Hbool & ->)|Heq].
  - split; [exact Hbool|]. apply value_of_primitive, Hbool.
  - discriminate Heq.
Qed.

(** X3. toString of a value equals toString of the primitive boolean
    valueOf unwraps from it: a Boolean wrapper object and the boolean it
    wraps have the same toString outcome. *)
Theorem to_string_of_unwrapped (st : ecma_engine) (this v : ecma_value_t) (st' : ecma_engine) :
  ecma_builtin_boolean_prototype_object_value_of this st = Returned (Normal v) st' ->
  ecma_builtin_boolean_prototype_object_to_string this st
  = ecma_builtin_boolean_prototype_object_to_string v st.
Proof.
  intros Hrun. pose proof Hrun as Hrun'.
  apply value_of_returned in Hrun' as [(v' & [= <-] & Hbool & ->)|Heq]; [|discriminate Heq].
  unfold ecma_builtin_boolean_prototype_object_to_string, ECMA_TRY_CATCH, bind.
  rewrite Hrun, (value_of_primitive st v Hbool). reflexivity.
Qed.

(** The engine toString leaves. *)
Lemma to_string_engine st this c st' :
  ecma_builtin_boolean_prototype_object_to_string this st = Returned c st' ->
  (exists v, st' = with_gc_call st (Call_ecma_free_completion_value (Normal v))) \/
  Returned c st' = Throw_TypeError st.
Proof.
  unfold ecma_builtin_boolean_prototype_object_to_string, ECMA_TRY_CATCH.
  intros Hrun. apply bind_inv in Hrun as (var & st1 & Hvalue & Hrest).
  apply value_of_returned in Hvalue as [(v & -> & Hbool & ->)|Heq].
  - left. exists v. cbn [ecma_is_completion_value_throw] in Hrest.
    apply bind_inv in Hrest as (ret_value & st2 & Hbody & Hfree).
    apply bind_inv in Hbody as (str & st3 & Hstr & Hret). injection Hret as _ <-.
    assert (st3 = st) as ->.
    { destruct (ecma_is_completion_value_normal_true (Normal v)).
      - injection Hstr as _ ->. reflexivity.
      - apply bind_inv in Hstr as (u & st4 & Hassert & Hret).
        apply JERRY_ASSERT_inv in Hassert as [_ ->]. injection Hret as _ ->. reflexivity. }
    injection Hfree as _ <-. reflexivity.
  - right. injection Heq as -> ->. cbn in Hrest. injection Hrest as <- <-. reflexivity.
Qed.


(** X5. A dispatched routine changes no object of the heap and not the
    table of built-ins: it allocates at most one object, the TypeError it
    throws, and makes at most one call to the collector, the release of a
    completion. *)
Theorem dispatch_routine_frame (st : ecma_engine) (id : Z) (this : ecma_value_t)
    (args : list ecma_value_t) (n : Z) (c : ecma_completion_value_t) (st' : ecma_engine) :
  ecma_builtin_boolean_prototype_dispatch_routine id this args n st = Returned c st' ->
  ecma_builtin_objects st' = ecma_builtin_objects st /\
  (forall p o, heap st !! p = Some o -> heap st' !! p = Some o) /\
  ((heap st' = heap st /\
    (gc_calls st' = gc_calls st \/
     exists v, gc_calls st' = gc_calls st ++ [Call_ecma_free_completion_value (Normal v)])) \/
   (heap st' = heap st ++ [standard_error_object ECMA_ERROR_TYPE] /\
    gc_calls st' = gc_calls st /\
    c = Throw (ecma_object (length (heap st))))).
Proof.
  unfold ecma_builtin_boolean_prototype_dispatch_routine.
  cbn [find ECMA_BUILTIN_BOOLEAN_PROTOTYPE_OBJECT_ROUTINES_PROPERTY_LIST routine_name].
  intros Hrun.
  assert (Hstate :
    st' = st \/
    (exists v, st' = with_gc_call st (Call_ecma_free_completion_value (Normal v))) \/
    Returned c st' = Throw_TypeError st).
  { destruct (id =? ECMA_MAGIC_STRING_TO_STRING_UL); cbn [c_function] in Hrun.
    - apply to_string_engine in Hrun as [(v & ->)|Heq]; eauto.
    - destruct (id =? ECMA_MAGIC_STRING_VALUE_OF_UL); cbn [c_function] in Hrun;
        [|discriminate Hrun].
      apply value_of_returned in Hrun as [(v & _ & _ & ->)|Heq]; eauto. }
  destruct Hstate as [->|[(v & ->)|Heq]].
  - split; [reflexivity|]. split; [auto|]. left. auto.
  - split; [reflexivity|]. split; [auto|]. left. split; [reflexivity|]. right. eauto.
  - injection Heq as -> ->. split; [reflexivity|]. split.
    + intros p o Hp. cbn [heap with_new_object]. apply lookup_app_l_Some, Hp.
    + right. auto.
Qed.

(** X6. The dispatcher and the arity lookup know the same two routines: the
    identifier of toString is routed to toString and that of valueOf to
    valueOf, whatever the arguments; any other identifier reaches
    JERRY_UNREACHABLE in both functions (lines 326 and 349). *)
Theorem dispatch_routine_routes (st : ecma_engine) (this : ecma_value_t)
    (args : list ecma_value_t) (n : Z) :
  ECMA_MAGIC_STRING_TO_STRING_UL <> ECMA_MAGIC_STRING_VALUE_OF_UL ->
  ecma_builtin_boolean_prototype_dispatch_routine ECMA_MAGIC_STRING_TO_STRING_UL this args n st
  = ecma_builtin_boolean_prototype_object_to_string this st /\
  ecma_builtin_boolean_prototype_dispatch_routine ECMA_MAGIC_STRING_VALUE_OF_UL this args n st
  = ecma_builtin_boolean_prototype_object_value_of this st /\
  (forall id,
      id <> ECMA_MAGIC_STRING_TO_STRING_UL -> id <> ECMA_MAGIC_STRING_VALUE_OF_UL ->
      ecma_builtin_boolean_prototype_dispatch_routine id this args n st
      = Trapped (JERRY_UNREACHABLE_reached 326) /\
      ecma_builtin_boolean_prototype_get_routine_parameters_number id st
      = Trapped (JERRY_UNREACHABLE_reached 349)).
Proof.
  intros Hdistinct.
  unfold ecma_builtin_boolean_prototype_dispatch_routine,
    ecma_builtin_boolean_prototype_get_routine_parameters_number.
  cbn [find ECMA_BUILTIN_BOOLEAN_PROTOTYPE_OBJECT_ROUTINES_PROPERTY_LIST routine_name].
  split; [|split].
  - rewrite Z.eqb_refl. reflexivity.
  - destruct (Z.eqb_spec ECMA_MAGIC_STRING_VALUE_OF_UL ECMA_MAGIC_STRING_TO_STRING_UL);
      [congruence|].
    rewrite Z.eqb_refl. reflexivity.
  - intros id Hts Hvo.
    destruct (Z.eqb_spec id ECMA_MAGIC_STRING_TO_STRING_UL); [contradiction|].
    destruct (Z.eqb_spec id ECMA_MAGIC_STRING_VALUE_OF_UL); [contradiction|].
    split; reflexivity.
Qed.

End Routines_more.

(** * Further properties of the lazy instantiation *)

Lemma testbit_uint32_high (m k : Z) : 0 <= m < 2 ^ 32 -> 32 <= k -> Z.testbit m k = false.
Proof.
  intros Hm Hk. rewrite <- (Z.mod_small m (2 ^ 32)) by exact Hm.
  apply Z.mod_pow2_bits_high. lia.
Qed.

(** Clearing a set bit of a [uint32_t] subtracts the power of two. *)
Lemma clear_bit_sub (m n : Z) :
  0 <= n < 32 -> 0 <= m < 2 ^ 32 -> Z.testbit m n = true ->
  Z.land m (uint32_not (uint32_shl1 n)) = m - 2 ^ n.
Proof.
  intros Hn Hm Hbit. rewrite uint32_shl1_pow2 by exact Hn.
  rewrite Z.sub_nocarry_ldiff.
  - rewrite Z.ldiff_land. apply Z.bits_inj'. intros k Hk.
    rewrite !Z.land_spec. unfold uint32_not.
    destruct (Z.ltb_spec k 32) as [Hlt|Hge].
    + rewrite Z.mod_pow2_bits_low by lia. reflexivity.
    + rewrite (testbit_uint32_high m k Hm Hge). reflexivity.
  - apply Z.bits_inj'. intros k Hk.
    rewrite Z.ldiff_spec, Z.bits_0, Z.pow2_bits_eqb by lia.
    destruct (Z.eqb_spec n k) as [->|Hne]; [rewrite Hbit|]; reflexivity.
Qed.

Lemma find_named_set_internal ps id v name :
  ecma_find_named_property (set_internal_property_value ps id v) name
  = ecma_find_named_property ps name.
Proof.
  induction ps as [|[name' pv w e c|pid pv] ps IH]; cbn; [reflexivity| |].
  - destruct (decide (name' = name)); [reflexivity|exact IH].
  - destruct (decide (pid = id)); cbn; [reflexivity|exact IH].
Qed.

Lemma count_named_set_internal ps id v name :
  count_named_properties (set_internal_property_value ps id v) name
  = count_named_properties ps name.
Proof.
  induction ps as [|[name' pv w e c|pid pv] ps IH]; cbn; [reflexivity| |].
  - rewrite IH. reflexivity.
  - destruct (decide (pid = id)); cbn; [reflexivity|exact IH].
Qed.

Lemma count_named_find_None ps name :
  ecma_find_named_property ps name = None <-> count_named_properties ps name = 0%nat.
Proof.
  induction ps as [|[name' pv w e c|pid pv] ps IH]; cbn; [tauto| |exact IH].
  destruct (decide (name' = name)); [split; [discriminate|lia]|]. cbn. exact IH.
Qed.

Section Instantiation_more.

Context `{G : ecma_globals_h}.

(** The registry has three names: an index the search returns is below 3. *)
Lemma registry_index_bound id :
  let index :=
    ecma_builtin_bin_search_for_magic_string_id_in_array
      ecma_builtin_property_names ecma_builtin_boolean_prototype_property_number id in
  index = -1 \/
  (0 <= index < 3 /\ ecma_builtin_property_names !! Z.to_nat index = Some id).
Proof.
  cbv zeta.
  destruct (bin_search_sound ecma_builtin_property_names
              ecma_builtin_boolean_prototype_property_number id) as [Hnone|[Hlo Hfound]];
    [left; exact Hnone|right].
  split; [|exact Hfound]. apply lookup_lt_Some in Hfound.
  change (length ecma_builtin_property_names) with 3%nat in Hfound. lia.
Qed.

(** The payload the switch returns, case by case. *)
Lemma instantiate_switch_payload id st switched st1 :
  instantiate_switch id st = Returned switched st1 ->
  (existsb (Z.eqb id)
     (map routine_name ECMA_BUILTIN_BOOLEAN_PROTOTYPE_OBJECT_ROUTINES_PROPERTY_LIST) = true /\
   switched = (ecma_object (length (heap st)), ECMA_PROPERTY_WRITABLE,
               ECMA_PROPERTY_NOT_ENUMERABLE, ECMA_PROPERTY_CONFIGURABLE) /\
   st1 = with_new_object st
           (mk_object (ECMA_OBJECT_BUILT_IN_ROUTINE ECMA_BUILTIN_ID_BOOLEAN_PROTOTYPE id)
              [ECMA_PROPERTY_INTERNAL ECMA_INTERNAL_PROPERTY_CLASS ECMA_MAGIC_STRING_FUNCTION_UL])) \/
  (existsb (Z.eqb id)
     (map routine_name ECMA_BUILTIN_BOOLEAN_PROTOTYPE_OBJECT_ROUTINES_PROPERTY_LIST) = false /\
   id = ECMA_MAGIC_STRING_CONSTRUCTOR /\
   exists p,
     switched = (ecma_object p, ECMA_PROPERTY_NOT_WRITABLE,
                 ECMA_PROPERTY_NOT_ENUMERABLE, ECMA_PROPERTY_NOT_CONFIGURABLE) /\
     builtin_object_lookup (ecma_builtin_objects st1) ECMA_BUILTIN_ID_BOOLEAN = Some p /\
     ((builtin_object_lookup (ecma_builtin_objects st) ECMA_BUILTIN_ID_BOOLEAN = Some p /\
       st1 = with_gc_call st (Call_ecma_ref_object p)) \/
      (builtin_object_lookup (ecma_builtin_objects st) ECMA_BUILTIN_ID_BOOLEAN = None /\
       p = length (heap st) /\
       st1 = mk_engine (heap st ++ [ecma_builtin_init_object ECMA_BUILTIN_ID_BOOLEAN])
               ((ECMA_BUILTIN_ID_BOOLEAN, p) :: ecma_builtin_objects st)
               (gc_calls st ++ [Call_ecma_ref_object p])))).
Proof.
  unfold instantiate_switch.
  destruct (existsb (Z.eqb id) (map routine_name _)) eqn:Hroutine.
  - cbn. intros [= <- <-]. left. auto.
  - cbn [map fst existsb find ECMA_BUILTIN_BOOLEAN_PROTOTYPE_OBJECT_OBJECT_VALUES_PROPERTY_LIST].
    destruct (Z.eqb_spec id ECMA_MAGIC_STRING_CONSTRUCTOR) as [->|Hne]; cbn [orb];
      [|discriminate].
    unfold bind at 1. unfold ecma_builtin_get.
    destruct (builtin_object_lookup (ecma_builtin_objects st) ECMA_BUILTIN_ID_BOOLEAN)
      as [p|] eqn:Hget; cbn; intros [= <- <-]; right; split; try reflexivity;
      split; try reflexivity.
    + exists p. cbn. auto.
    + exists (length (heap st)). cbn. auto 10.
Qed.

(** A successful instantiation, step by step: the object with its mask
    written, the switch run on it, and the store of the payload. *)
Lemma try_to_instantiate_run obj_p prop_name_p st prop_p st' :
  ecma_builtin_boolean_prototype_try_to_instantiate_property obj_p prop_name_p st
  = Returned (Some prop_p) st' ->
  exists o id index bit_mask payload writable enumerable configurable st1,
    let o1 :=
      mk_object (object_kind o)
        (set_internal_property_value (properties o)
           ECMA_INTERNAL_PROPERTY_NON_INSTANTIATED_BUILT_IN_MASK_0_31
           (Z.land bit_mask (uint32_not (uint32_shl1 index)))) in
    builtin_object_lookup (ecma_builtin_objects st) ECMA_BUILTIN_ID_BOOLEAN_PROTOTYPE
    = Some obj_p /\
    heap st !! obj_p = Some o /\
    ecma_find_named_property (properties o) prop_name_p = None /\
    ecma_is_string_magic prop_name_p = Some id /\
    0 <= index < 3 /\
    ecma_builtin_property_names !! Z.to_nat index = Some id /\
    ecma_find_internal_property (properties o)
      ECMA_INTERNAL_PROPERTY_NON_INSTANTIATED_BUILT_IN_MASK_0_31 = Some bit_mask /\
    Z.testbit bit_mask index = true /\
    prop_p = (obj_p, prop_name_p) /\
    instantiate_switch id (with_object st obj_p o1)
    = Returned (payload, writable, enumerable, configurable) st1 /\
    heap st1 !! obj_p = Some o1 /\
    st' = mk_engine
            (<[obj_p := mk_object (object_kind o)
                          (ECMA_PROPERTY_NAMEDDATA prop_name_p payload
                             writable enumerable configurable :: properties o1)]> (heap st1))
            (ecma_builtin_objects st1)
            (gc_calls st1 ++
               [Call_ecma_copy_value payload false;
                Call_ecma_gc_update_may_ref_younger_object_flag_by_value obj_p payload;
                Call_ecma_free_value payload true]).
Proof.
  rewrite try_to_instantiate_property_unfold.
  destruct (bool_decide _) eqn:Hbuiltin; cbn [negb]; [|discriminate].
  apply bool_decide_eq_true in Hbuiltin.
  destruct (heap st !! obj_p) as [o|] eqn:Ho; [|discriminate].
  destruct (bool_decide (ecma_find_named_property _ _ = None)) eqn:Hnamed;
    cbn [negb]; [|discriminate].
  apply bool_decide_eq_true in Hnamed.
  destruct (ecma_is_string_magic prop_name_p) as [id|] eqn:Hmagic; [|discriminate].
  cbv zeta. pose proof (registry_index_bound id) as Hbound. cbv zeta in Hbound.
  remember (ecma_builtin_bin_search_for_magic_string_id_in_array _ _ id) as index eqn:Hindex.
  destruct (Z.eqb_spec index (-1)) as [|Hfound]; [discriminate|].
  destruct Hbound as [|[Hrange Hlookup]]; [contradiction|].
  destruct ((index >=? 0) && (index <? 64)); cbn [negb]; [|discriminate].
  unfold mask_of_index. destruct (Z.geb_spec index 32); [lia|]. cbn [fst snd].
  destruct (ecma_find_internal_property (properties o)
              ECMA_INTERNAL_PROPERTY_NON_INSTANTIATED_BUILT_IN_MASK_0_31)
    as [bit_mask|] eqn:Hmask; [|discriminate].
  rewrite land_bit_eqb by lia.
  destruct (Z.testbit bit_mask index) eqn:Hbit; cbn [negb]; [|discriminate].
  intros Hrun. apply bind_inv in Hrun as (switched & st1 & Hswitch & Hstore).
  destruct switched as [[[payload w] e] c].
  pose proof (instantiate_switch_inv _ _ _ _ Hswitch)
    as (payload_p & w' & e' & c' & extra & pre & _ & Hheap1 & _).
  cbn [heap with_object] in Hheap1.
  pose proof (lookup_lt_Some _ _ _ Ho) as Hlen.
  match type of Hswitch with
  | instantiate_switch _ (with_object _ _ ?o1) = _ =>
      assert (Ho1 : heap st1 !! obj_p = Some o1)
  end.
  { rewrite Hheap1. rewrite lookup_app_l by (rewrite length_insert; exact Hlen).
    apply list_lookup_insert_eq, Hlen. }
  rewrite (instantiate_store_run _ _ _ _ _ _ _ _ Ho1) in Hstore.
  injection Hstore as <- <-.
  exists o, id, index, bit_mask, payload, w, e, c, st1. cbv zeta.
  cbn [object_kind]. auto 15.
Qed.

End Instantiation_more.

Section Instantiation_extras.

Context `{G : ecma_globals_h}.

Lemma mask_of_index_low index :
  0 <= index < 32 ->
  mask_of_index index = (ECMA_INTERNAL_PROPERTY_NON_INSTANTIATED_BUILT_IN_MASK_0_31, index).
Proof. intros H. unfold mask_of_index. destruct (Z.geb_spec index 32); [lia|reflexivity]. Qed.

Lemma ecma_is_string_magic_inv name id :
  ecma_is_string_magic name = Some id -> name = ECMA_STRING_CONTAINER_MAGIC_STRING id.
Proof. destruct name; cbn; congruence. Qed.

(** The heap a successful instantiation leaves: the owning object with its
    mask written and the new record in front, after the heap as it was and
    the objects the switch allocated. *)
Lemma try_to_instantiate_heap obj_p prop_name_p st prop_p st' :
  ecma_builtin_boolean_prototype_try_to_instantiate_property obj_p prop_name_p st
  = Returned (Some prop_p) st' ->
  exists o id index bit_mask payload_p writable enumerable configurable extra,
    heap st !! obj_p = Some o /\
    ecma_find_named_property (properties o) prop_name_p = None /\
    ecma_is_string_magic prop_name_p = Some id /\
    0 <= index < 3 /\
    ecma_builtin_property_names !! Z.to_nat index = Some id /\
    ecma_find_internal_property (properties o)
      ECMA_INTERNAL_PROPERTY_NON_INSTANTIATED_BUILT_IN_MASK_0_31 = Some bit_mask /\
    Z.testbit bit_mask index = true /\
    prop_p = (obj_p, prop_name_p) /\
    builtin_object_lookup (ecma_builtin_objects st') ECMA_BUILTIN_ID_BOOLEAN_PROTOTYPE
    = Some obj_p /\
    heap st' =
      <[obj_p := mk_object (object_kind o)
                   (ECMA_PROPERTY_NAMEDDATA prop_name_p (ecma_object payload_p)
                      writable enumerable configurable
                    :: set_internal_property_value (properties o)
                         ECMA_INTERNAL_PROPERTY_NON_INSTANTIATED_BUILT_IN_MASK_0_31
                         (Z.land bit_mask (uint32_not (uint32_shl1 index))))]>
        (heap st ++ extra).
Proof.
  intros Hrun.
  apply try_to_instantiate_success in Hrun
    as (o & id & index & bit_mask & payload_p & w & e & c & extra & pre &
        _ & Ho & Hnamed & Hmagic & Hindex & _ & Hmask & Hbit & Hprop & Hheap & _ & _ & _ &
        Htbl & _).
  destruct (registry_index_bound id) as [Hnone|[Hrange Hlookup]].
  { exfalso. rewrite <- Hindex in Hnone. subst index.
    rewrite Hnone in Hbit. cbn in Hbit.
    unfold uint32_shl1 in Hbit. rewrite Z.shiftl_1_l in Hbit. cbn in Hbit.
    rewrite Z.land_0_r in Hbit. apply Hbit. reflexivity. }
  rewrite <- Hindex in Hrange, Hlookup.
  rewrite mask_of_index_low in Hmask, Hbit, Hheap by lia. cbn [fst snd] in Hmask, Hbit, Hheap.
  exists o, id, index, bit_mask, payload_p, w, e, c, extra.
  repeat (split; [assumption|]). split; [|auto].
  destruct (Z.testbit bit_mask index) eqn:Htestbit; [reflexivity|].
  exfalso. apply Hbit, Z.eqb_eq. rewrite land_bit_eqb, Htestbit by lia. reflexivity.
Qed.

(** On a sorted registry and under the entry preconditions, the
    instantiation of a registered name whose bit is set succeeds. *)
Lemma try_to_instantiate_succeeds obj_p prop_name_p st id (i : nat) :
  strictly_increasing ecma_builtin_property_names = true ->
  try_to_instantiate_pre st obj_p prop_name_p = true ->
  ecma_is_string_magic prop_name_p = Some id ->
  ecma_builtin_property_names !! i = Some id ->
  non_instantiated_bit st obj_p i = Some true ->
  exists st',
    ecma_builtin_boolean_prototype_try_to_instantiate_property obj_p prop_name_p st
    = Returned (Some (obj_p, prop_name_p)) st'.
Proof.
  intros Hsorted Hpre Hmagic Hi Hbit. apply strictly_increasing_sorted in Hsorted.
  unfold try_to_instantiate_pre in Hpre.
  apply andb_true_iff in Hpre as [Hbuiltin Hpre].
  destruct (heap st !! obj_p) as [o|] eqn:Ho; [|discriminate].
  apply andb_true_iff in Hpre as [Hnamed Hmask0].
  apply bool_decide_eq_true in Hmask0 as [bit_mask Hmask0].
  pose proof (lookup_lt_Some _ _ _ Ho) as Hlen.
  assert (Hi3 : (i < 3)%nat) by (apply lookup_lt_Some in Hi; exact Hi).
  unfold non_instantiated_bit, internal_slot in Hbit.
  rewrite mask_of_index_low in Hbit by lia. cbn [fst snd] in Hbit.
  rewrite Ho, Hmask0 in Hbit. injection Hbit as Hbit.
  rewrite try_to_instantiate_property_unfold, Hbuiltin, Ho, Hnamed, Hmagic. cbn [negb].
  cbv zeta. unfold ecma_builtin_boolean_prototype_property_number.
  rewrite (bin_search_found _ Hsorted i id Hi).
  destruct (Z.eqb_spec (Z.of_nat i) (-1)) as [|_]; [lia|].
  destruct (Z.geb_spec (Z.of_nat i) 0); [|lia].
  destruct (Z.ltb_spec (Z.of_nat i) 64); [|lia].
  cbn [andb negb]. rewrite mask_of_index_low by lia. cbn [fst snd].
  rewrite Hmask0, land_bit_eqb, Hbit by lia. cbn [negb].
  match goal with
  | |- context [with_object st obj_p ?o1] => set (s1 := with_object st obj_p o1)
  end.
  assert (Hin : id ∈ ecma_builtin_property_names) by (apply list_elem_of_lookup; eauto).
  destruct (instantiate_switch_returns id s1 Hin) as (switched & st1 & Hswitch).
  pose proof (instantiate_switch_inv _ _ _ _ Hswitch)
    as (payload_p & w & e & c & extra & pre & -> & Hheap1 & _).
  assert (is_Some (heap st1 !! obj_p)) as [o1 Ho1].
  { apply lookup_lt_is_Some. rewrite Hheap1, length_app. subst s1.
    cbn [heap with_object]. rewrite length_insert. lia. }
  eexists. unfold bind. rewrite Hswitch.
  apply (instantiate_store_run _ _ _ _ _ _ _ _ Ho1).
Qed.

(** X7. An instantiation attempted again right after a successful one, while
    the new record is still there, fails the entry assertion of line 180. *)
Theorem try_to_instantiate_again_asserts
    (st : ecma_engine) (obj_p : nat) (prop_name_p : ecma_string_t)
    (prop_p : nat * ecma_string_t) (st1 : ecma_engine) :
  ecma_builtin_boolean_prototype_try_to_instantiate_property obj_p prop_name_p st
  = Returned (Some prop_p) st1 ->
  ecma_builtin_boolean_prototype_try_to_instantiate_property obj_p prop_name_p st1
  = Trapped (JERRY_ASSERT_failed 180).
Proof.
  intros Hrun.
  apply try_to_instantiate_heap in Hrun
    as (o & id & index & bit_mask & payload_p & w & e & c & extra &
        Ho & _ & _ & _ & _ & _ & _ & _ & Htbl & Hheap).
  pose proof (lookup_lt_Some _ _ _ Ho) as Hlen.
  rewrite try_to_instantiate_property_unfold, Htbl.
  rewrite bool_decide_eq_true_2 by reflexivity. cbn [negb].
  rewrite Hheap, list_lookup_insert_eq by (rewrite length_app; lia).
  cbn [properties ecma_find_named_property]. rewrite decide_True by reflexivity.
  rewrite bool_decide_eq_false_2 by discriminate. reflexivity.
Qed.

(** X8. A successful instantiation changes one object only, the owning one,
    and of it only the low instantiation mask and the new record: every
    other object of the heap, the kind of the owning object, its records of
    other names and its other internal slots are as before. *)
Theorem try_to_instantiate_frame
    (st : ecma_engine) (obj_p : nat) (prop_name_p : ecma_string_t)
    (prop_p : nat * ecma_string_t) (st' : ecma_engine) :
  ecma_builtin_boolean_prototype_try_to_instantiate_property obj_p prop_name_p st
  = Returned (Some prop_p) st' ->
  (forall q o', q <> obj_p -> heap st !! q = Some o' -> heap st' !! q = Some o') /\
  exists o o',
    heap st !! obj_p = Some o /\ heap st' !! obj_p = Some o' /\
    object_kind o' = object_kind o /\
    (forall name,
        name <> prop_name_p ->
        ecma_find_named_property (properties o') name
        = ecma_find_named_property (properties o) name) /\
    (forall slot,
        slot <> ECMA_INTERNAL_PROPERTY_NON_INSTANTIATED_BUILT_IN_MASK_0_31 ->
        ecma_find_internal_property (properties o') slot
        = ecma_find_internal_property (properties o) slot).
Proof.
  intros Hrun.
  apply try_to_instantiate_heap in Hrun
    as (o & id & index & bit_mask & payload_p & w & e & c & extra &
        Ho & _ & _ & _ & _ & Hmask & _ & _ & _ & Hheap).
  pose proof (lookup_lt_Some _ _ _ Ho) as Hlen.
  split.
  - intros q o' Hne Hq. rewrite Hheap, list_lookup_insert_ne by congruence.
    apply lookup_app_l_Some, Hq.
  - exists o. eexists. split; [exact Ho|]. split.
    { rewrite Hheap. apply list_lookup_insert_eq. rewrite length_app. lia. }
    cbn [object_kind properties]. split; [reflexivity|]. split.
    + intros name Hname. cbn [ecma_find_named_property].
      rewrite decide_False by congruence. apply find_named_set_internal.
    + intros slot Hslot. cbn [ecma_find_internal_property].
      rewrite (find_set_internal_property _ _ _ _ _ Hmask).
      rewrite decide_False by exact Hslot. reflexivity.
Qed.

End Instantiation_extras.

Section Instantiation_composition.

Context `{G : ecma_globals_h}.

(** X9. Instantiations of different names do not disturb each other: after
    the successful instantiation of one name, a second name that could be
    instantiated before (entry preconditions, registered, bit set) is
    instantiated successfully as well. *)
Theorem try_to_instantiate_independent
    (st : ecma_engine) (obj_p : nat) (name1 name2 : ecma_string_t)
    (prop_p1 : nat * ecma_string_t) (st1 : ecma_engine) (id2 : Z) (i2 : nat) :
  strictly_increasing ecma_builtin_property_names = true ->
  ecma_builtin_boolean_prototype_try_to_instantiate_property obj_p name1 st
  = Returned (Some prop_p1) st1 ->
  name2 <> name1 ->
  try_to_instantiate_pre st obj_p name2 = true ->
  ecma_is_string_magic name2 = Some id2 ->
  ecma_builtin_property_names !! i2 = Some id2 ->
  non_instantiated_bit st obj_p i2 = Some true ->
  exists st2,
    ecma_builtin_boolean_prototype_try_to_instantiate_property obj_p name2 st1
    = Returned (Some (obj_p, name2)) st2.
Proof.
  intros Hsorted Hrun Hname Hpre Hmagic2 Hi2 Hbit2.
  apply try_to_instantiate_heap in Hrun
    as (o & id1 & index & bit_mask & payload_p & w & e & c & extra &
        Ho & _ & Hmagic1 & Hrange & Hlookup & Hmask & _ & _ & Htbl & Hheap).
  pose proof (lookup_lt_Some _ _ _ Ho) as Hlen.
  assert (Hi3 : (i2 < 3)%nat) by (apply lookup_lt_Some in Hi2; exact Hi2).
  assert (Hne : Z.of_nat i2 <> index).
  { intros <-. rewrite Nat2Z.id, Hi2 in Hlookup. injection Hlookup as ->.
    apply ecma_is_string_magic_inv in Hmagic1, Hmagic2. congruence. }
  assert (Ho1 : heap st1 !! obj_p
                = Some (mk_object (object_kind o)
                          (ECMA_PROPERTY_NAMEDDATA name1 (ecma_object payload_p) w e c
                           :: set_internal_property_value (properties o)
                                ECMA_INTERNAL_PROPERTY_NON_INSTANTIATED_BUILT_IN_MASK_0_31
                                (Z.land bit_mask (uint32_not (uint32_shl1 index)))))).
  { rewrite Hheap. apply list_lookup_insert_eq. rewrite length_app. lia. }
  unfold try_to_instantiate_pre in Hpre. rewrite Ho in Hpre.
  apply andb_true_iff in Hpre as [_ Hpre]. apply andb_true_iff in Hpre as [Hnamed2 _].
  apply bool_decide_eq_true in Hnamed2.
  apply (try_to_instantiate_succeeds obj_p name2 st1 id2 i2 Hsorted); try assumption.
  - unfold try_to_instantiate_pre. rewrite Htbl, Ho1.
    rewrite bool_decide_eq_true_2 by reflexivity.
    cbn [properties ecma_find_named_property ecma_find_internal_property andb].
    rewrite decide_False by congruence.
    rewrite find_named_set_internal, (find_set_internal_property _ _ _ _ _ Hmask).
    rewrite decide_True by reflexivity.
    rewrite (bool_decide_eq_true_2 _ Hnamed2), bool_decide_eq_true_2 by eauto. reflexivity.
  - unfold non_instantiated_bit, internal_slot in *.
    rewrite mask_of_index_low in * by lia. cbn [fst snd] in *.
    rewrite Ho, Hmask in Hbit2. injection Hbit2 as Hbit2.
    rewrite Ho1. cbn [properties ecma_find_internal_property].
    rewrite (find_set_internal_property _ _ _ _ _ Hmask), decide_True by reflexivity.
    rewrite testbit_clear_bit, Hbit2 by lia.
    apply Z.eqb_neq in Hne. rewrite Hne. reflexivity.
Qed.

(** X10. A successful instantiation subtracts from the low instantiation
    mask, a [uint32_t], the power of two of the registry index of the name,
    an index below 3: the mask decreases and stays a [uint32_t]; the high
    mask is not touched. *)
Theorem try_to_instantiate_mask_decrement
    (st : ecma_engine) (obj_p : nat) (prop_name_p : ecma_string_t)
    (prop_p : nat * ecma_string_t) (st' : ecma_engine) (bit_mask : Z) :
  ecma_builtin_boolean_prototype_try_to_instantiate_property obj_p prop_name_p st
  = Returned (Some prop_p) st' ->
  internal_slot st obj_p ECMA_INTERNAL_PROPERTY_NON_INSTANTIATED_BUILT_IN_MASK_0_31
  = Some bit_mask ->
  0 <= bit_mask < 2 ^ 32 ->
  exists (id : Z) (index : nat),
    ecma_is_string_magic prop_name_p = Some id /\
    ecma_builtin_property_names !! index = Some id /\
    (index < 3)%nat /\
    internal_slot st' obj_p ECMA_INTERNAL_PROPERTY_NON_INSTANTIATED_BUILT_IN_MASK_0_31
    = Some (bit_mask - 2 ^ Z.of_nat index) /\
    0 <= bit_mask - 2 ^ Z.of_nat index < bit_mask /\
    internal_slot st' obj_p ECMA_INTERNAL_PROPERTY_NON_INSTANTIATED_BUILT_IN_MASK_32_63
    = internal_slot st obj_p ECMA_INTERNAL_PROPERTY_NON_INSTANTIATED_BUILT_IN_MASK_32_63.
Proof.
  intros Hrun Hslot Huint.
  apply try_to_instantiate_heap in Hrun
    as (o & id & index & m & payload_p & w & e & c & extra &
        Ho & _ & Hmagic & Hrange & Hlookup & Hmask & Hbit & _ & _ & Hheap).
  pose proof (lookup_lt_Some _ _ _ Ho) as Hlen.
  unfold internal_slot in *. rewrite Ho in Hslot. rewrite Hslot in Hmask.
  injection Hmask as <-.
  rewrite Hheap, Ho, list_lookup_insert_eq by (rewrite length_app; lia).
  cbn [properties ecma_find_internal_property].
  rewrite !(find_set_internal_property _ _ _ _ _ Hslot).
  rewrite decide_True by reflexivity. rewrite decide_False by discriminate.
  exists id, (Z.to_nat index). rewrite Z2Nat.id by lia.
  split; [exact Hmagic|]. split; [exact Hlookup|]. split; [lia|].
  rewrite clear_bit_sub by (lia || assumption).
  split; [reflexivity|]. split; [|reflexivity].
  assert (0 < 2 ^ index) by (apply Z.pow_pos_nonneg; lia).
  assert (0 <= Z.land bit_mask (uint32_not (uint32_shl1 index))).
  { apply Z.land_nonneg. left. lia. }
  rewrite clear_bit_sub in * by (lia || assumption). lia.
Qed.

Lemma value_of_preserves_objects this st c st' p o :
  ecma_builtin_boolean_prototype_object_value_of this st = Returned c st' ->
  heap st !! p = Some o -> heap st' !! p = Some o.
Proof.
  intros Hrun Hp. apply value_of_returned in Hrun as [(v & _ & _ & ->)|Heq]; [exact Hp|].
  injection Heq as _ ->. cbn [heap with_new_object]. apply lookup_app_l_Some, Hp.
Qed.

Lemma dispatch_routine_preserves_objects id this args n st c st' p o :
  ecma_builtin_boolean_prototype_dispatch_routine id this args n st = Returned c st' ->
  heap st !! p = Some o -> heap st' !! p = Some o.
Proof.
  unfold ecma_builtin_boolean_prototype_dispatch_routine.
  cbn [find ECMA_BUILTIN_BOOLEAN_PROTOTYPE_OBJECT_ROUTINES_PROPERTY_LIST routine_name].
  intros Hrun Hp.
  destruct (id =? ECMA_MAGIC_STRING_TO_STRING_UL); cbn [c_function] in Hrun.
  - apply to_string_engine in Hrun as [(v & ->)|Heq]; [exact Hp|].
    injection Heq as _ ->. cbn [heap with_new_object]. apply lookup_app_l_Some, Hp.
  - destruct (id =? ECMA_MAGIC_STRING_VALUE_OF_UL); cbn [c_function] in Hrun;
      [|discriminate Hrun].
    exact (value_of_preserves_objects _ _ _ _ _ _ Hrun Hp).
Qed.

(** One operation of the built-in keeps the one record of a name. *)
Lemma builtin_op_keeps_record st st' obj_p name record :
  builtin_op st st' ->
  named_data_property_at st (obj_p, name) = Some record ->
  named_property_count st obj_p name = 1%nat ->
  named_data_property_at st' (obj_p, name) = Some record /\
  named_property_count st' obj_p name = 1%nat.
Proof.
  unfold named_data_property_at, named_property_count. cbn [fst snd].
  intros [q name' r st1 st2 Hrun|id this args n c st1 st2 Hrun|id n st1 st2 Hrun].
  - destruct r as [prop_p|].
    2:{ apply try_to_instantiate_NULL in Hrun as ->. auto. }
    apply try_to_instantiate_heap in Hrun
      as (o & id & index & bit_mask & payload_p & w & e & c & extra &
          Ho & Hnamed & _ & _ & _ & _ & _ & _ & _ & Hheap).
    pose proof (lookup_lt_Some _ _ _ Ho) as Hlen. rewrite Hheap.
    destruct (decide (obj_p = q)) as [->|Hne].
    + rewrite Ho, list_lookup_insert_eq by (rewrite length_app; lia).
      cbn [properties ecma_find_named_property count_named_properties].
      intros Hrecord Hcount.
      assert (name' <> name) by (intros ->; congruence).
      rewrite !decide_False by assumption.
      rewrite find_named_set_internal, count_named_set_internal. auto.
    + rewrite list_lookup_insert_ne by congruence.
      destruct (heap st1 !! obj_p) as [o'|] eqn:Hp; [|discriminate].
      rewrite (lookup_app_l_Some _ _ _ _ Hp). auto.
  - destruct (heap st1 !! obj_p) as [o'|] eqn:Hp; [|discriminate].
    rewrite (dispatch_routine_preserves_objects _ _ _ _ _ _ _ _ _ Hrun Hp). auto.
  - apply get_routine_parameters_number_state in Hrun as ->. auto.
Qed.

(** X11. No duplicate record: after a successful instantiation the owning
    object holds exactly one record of the name, the one returned, and
    whatever instantiations, dispatched routines and arity lookups follow,
    it still holds exactly that record. *)
Theorem instantiated_record_is_kept
    (st : ecma_engine) (obj_p : nat) (prop_name_p : ecma_string_t)
    (prop_p : nat * ecma_string_t) (st1 : ecma_engine) :
  ecma_builtin_boolean_prototype_try_to_instantiate_property obj_p prop_name_p st
  = Returned (Some prop_p) st1 ->
  exists record,
    named_data_property_at st1 prop_p = Some record /\
    named_property_count st1 obj_p prop_name_p = 1%nat /\
    forall st2,
      rtc builtin_op st1 st2 ->
      named_data_property_at st2 prop_p = Some record /\
      named_property_count st2 obj_p prop_name_p = 1%nat.
Proof.
  intros Hrun.
  apply try_to_instantiate_heap in Hrun
    as (o & id & index & bit_mask & payload_p & w & e & c & extra &
        Ho & Hnamed & _ & _ & _ & _ & _ & -> & _ & Hheap).
  pose proof (lookup_lt_Some _ _ _ Ho) as Hlen.
  assert (Hrecord1 : named_data_property_at st1 (obj_p, prop_name_p)
                     = Some (ECMA_PROPERTY_NAMEDDATA prop_name_p (ecma_object payload_p) w e c)).
  { eapply named_data_property_at_new; [|exact Hheap]. rewrite length_app. lia. }
  assert (Hcount1 : named_property_count st1 obj_p prop_name_p = 1%nat).
  { unfold named_property_count.
    rewrite Hheap, list_lookup_insert_eq by (rewrite length_app; lia).
    cbn [properties count_named_properties]. rewrite decide_True by reflexivity.
    rewrite count_named_set_internal.
    apply count_named_find_None in Hnamed. rewrite Hnamed. reflexivity. }
  eexists. split; [exact Hrecord1|]. split; [exact Hcount1|].
  intros st2 Hsteps. revert Hrecord1 Hcount1.
  generalize (ECMA_PROPERTY_NAMEDDATA prop_name_p (ecma_object payload_p) w e c).
  clear -Hsteps. intros record.
  induction Hsteps as [st|st1 st2 st3 Hop _ IH]; intros Hrecord Hcount; [auto|].
  destruct (builtin_op_keeps_record _ _ _ _ _ Hop Hrecord Hcount) as [Hrecord2 Hcount2].
  exact (IH Hrecord2 Hcount2).
Qed.

(** X12. What the new property refers to.  For a routine (toString,
    valueOf) the payload is a function object allocated by this very
    instantiation, bound to the Boolean.prototype built-in and to the name
    of the routine, a name whose arity the arity lookup knows.  For
    constructor the payload is the object registered as the Boolean
    built-in: the one already registered if there is one, no object being
    allocated then, and otherwise one created and registered now. *)
Theorem instantiated_property_payload
    (st : ecma_engine) (obj_p : nat) (prop_name_p : ecma_string_t)
    (prop_p : nat * ecma_string_t) (st' : ecma_engine) :
  ecma_builtin_boolean_prototype_try_to_instantiate_property obj_p prop_name_p st
  = Returned (Some prop_p) st' ->
  exists id payload_p writable enumerable configurable,
    ecma_is_string_magic prop_name_p = Some id /\
    named_data_property_at st' prop_p
    = Some (ECMA_PROPERTY_NAMEDDATA prop_name_p (ecma_object payload_p)
              writable enumerable configurable) /\
    ((id = ECMA_MAGIC_STRING_TO_STRING_UL \/ id = ECMA_MAGIC_STRING_VALUE_OF_UL) /\
     payload_p = length (heap st) /\
     heap st' !! payload_p
     = Some (mk_object (ECMA_OBJECT_BUILT_IN_ROUTINE ECMA_BUILTIN_ID_BOOLEAN_PROTOTYPE id)
               [ECMA_PROPERTY_INTERNAL ECMA_INTERNAL_PROPERTY_CLASS
                  ECMA_MAGIC_STRING_FUNCTION_UL]) /\
     length (heap st') = S (length (heap st)) /\
     ecma_builtin_boolean_prototype_get_routine_parameters_number id st' = Returned 0 st'
     \/
     id = ECMA_MAGIC_STRING_CONSTRUCTOR /\
     builtin_object_lookup (ecma_builtin_objects st') ECMA_BUILTIN_ID_BOOLEAN = Some payload_p /\
     match builtin_object_lookup (ecma_builtin_objects st) ECMA_BUILTIN_ID_BOOLEAN with
     | Some registered => payload_p = registered /\ length (heap st') = length (heap st)
     | None =>
         payload_p = length (heap st) /\
         heap st' !! payload_p = Some (ecma_builtin_init_object ECMA_BUILTIN_ID_BOOLEAN)
     end).
Proof.
  intros Hrun.
  apply try_to_instantiate_run in Hrun
    as (o & id & index & bit_mask & payload & w & e & c & st1 &
        _ & Ho & _ & Hmagic & _ & _ & _ & _ & -> & Hswitch & Ho1 & ->).
  pose proof (lookup_lt_Some _ _ _ Ho) as Hlen.
  pose proof (lookup_lt_Some _ _ _ Ho1) as Hlen1.
  assert (Hrecord : forall v,
    named_data_property_at
      (mk_engine
         (<[obj_p := mk_object (object_kind o)
                       (ECMA_PROPERTY_NAMEDDATA prop_name_p v w e c
                        :: set_internal_property_value (properties o)
                             ECMA_INTERNAL_PROPERTY_NON_INSTANTIATED_BUILT_IN_MASK_0_31
                             (Z.land bit_mask (uint32_not (uint32_shl1 index))))]> (heap st1))
         (ecma_builtin_objects st1)
         (gc_calls st1 ++
            [Call_ecma_copy_value v false;
             Call_ecma_gc_update_may_ref_younger_object_flag_by_value obj_p v;
             Call_ecma_free_value v true]))
      (obj_p, prop_name_p)
    = Some (ECMA_PROPERTY_NAMEDDATA prop_name_p v w e c)).
  { intros v. eapply named_data_property_at_new; [exact Hlen1|reflexivity]. }
  apply instantiate_switch_payload in Hswitch
    as [(Hroutine & [= -> -> -> ->] & ->)|(Hroutine & -> & p & [= -> -> -> ->] & Htbl & Hcases)].
  - cbn [heap with_new_object with_object ecma_builtin_objects gc_calls properties object_kind]
      in *.
    rewrite length_insert in *.
    exists id, (length (heap st)), ECMA_PROPERTY_WRITABLE, ECMA_PROPERTY_NOT_ENUMERABLE,
      ECMA_PROPERTY_CONFIGURABLE.
    split; [exact Hmagic|]. split; [apply Hrecord|]. left.
    cbn [map existsb routine_name ECMA_BUILTIN_BOOLEAN_PROTOTYPE_OBJECT_ROUTINES_PROPERTY_LIST]
      in Hroutine.
    rewrite orb_false_r in Hroutine. apply orb_true_iff in Hroutine.
    rewrite !Z.eqb_eq in Hroutine.
    split; [exact Hroutine|]. split; [reflexivity|]. split.
    { rewrite list_lookup_insert_ne by lia.
      rewrite lookup_app_r by (rewrite length_insert; lia).
      rewrite length_insert, Nat.sub_diag. reflexivity. }
    split.
    { rewrite length_insert, length_app, length_insert. cbn. lia. }
    unfold ecma_builtin_boolean_prototype_get_routine_parameters_number.
    destruct Hroutine as [-> | ->].
    + destruct find_routine_TO_STRING_UL as (r & -> & _ & ->). reflexivity.
    + destruct find_routine_VALUE_OF_UL as (r & -> & _ & ->). reflexivity.
  - exists ECMA_MAGIC_STRING_CONSTRUCTOR, p, ECMA_PROPERTY_NOT_WRITABLE,
      ECMA_PROPERTY_NOT_ENUMERABLE, ECMA_PROPERTY_NOT_CONFIGURABLE.
    split; [exact Hmagic|]. split; [apply Hrecord|]. right.
    split; [reflexivity|]. split; [exact Htbl|].
    cbn [heap with_object ecma_builtin_objects gc_calls] in Hcases |- *.
    destruct Hcases as [(Hreg & ->)|(Hreg & -> & ->)]; rewrite Hreg.
    + split; [reflexivity|].
      cbn [heap with_gc_call with_object]. rewrite !length_insert. reflexivity.
    + cbn [heap]. rewrite length_insert. split; [reflexivity|].
      rewrite list_lookup_insert_ne by lia.
      rewrite lookup_app_r by (rewrite length_insert; lia).
      rewrite length_insert, Nat.sub_diag. reflexivity.
Qed.

End Instantiation_composition.

Section Instantiation_and_routines.

Context `{G : ecma_globals_h}.

Lemma internal_slot_after_instantiation obj_p prop_name_p st prop_p st' p slot v :
  ecma_builtin_boolean_prototype_try_to_instantiate_property obj_p prop_name_p st
  = Returned (Some prop_p) st' ->
  slot <> ECMA_INTERNAL_PROPERTY_NON_INSTANTIATED_BUILT_IN_MASK_0_31 ->
  internal_slot st p slot = Some v ->
  internal_slot st' p slot = Some v.
Proof.
  intros Hrun Hslot.
  apply try_to_instantiate_heap in Hrun
    as (o & id & index & bit_mask & payload_p & w & e & c & extra &
        Ho & _ & _ & _ & _ & Hmask & _ & _ & _ & Hheap).
  pose proof (lookup_lt_Some _ _ _ Ho) as Hlen.
  unfold internal_slot. rewrite Hheap.
  destruct (decide (p = obj_p)) as [->|Hne].
  - rewrite Ho, list_lookup_insert_eq by (rewrite length_app; lia).
    cbn [properties ecma_find_internal_property].
    rewrite (find_set_internal_property _ _ _ _ _ Hmask), decide_False by exact Hslot.
    auto.
  - rewrite list_lookup_insert_ne by congruence.
    destruct (heap st !! p) as [o'|] eqn:Hp; [|discriminate].
    rewrite (lookup_app_l_Some _ _ _ _ Hp). auto.
Qed.

(** X13. The lazy instantiation is invisible to valueOf: a value on which
    valueOf returns Normal(v) before a successful instantiation (of any
    name, on any object) has the same completion Normal(v) after it. *)
Theorem value_of_after_instantiation
    (st : ecma_engine) (obj_p : nat) (prop_name_p : ecma_string_t)
    (prop_p : nat * ecma_string_t) (st' : ecma_engine)
    (this v : ecma_value_t) (st_v : ecma_engine) :
  ecma_builtin_boolean_prototype_try_to_instantiate_property obj_p prop_name_p st
  = Returned (Some prop_p) st' ->
  ecma_builtin_boolean_prototype_object_value_of this st = Returned (Normal v) st_v ->
  ecma_builtin_boolean_prototype_object_value_of this st' = Returned (Normal v) st'.
Proof.
  intros Hinst Hrun. pose proof (value_of_outcome st this) as Hout. rewrite Hrun in Hout.
  destruct Hout as [(Hb & [= <-] & _)|[(p & b & -> & Hclass & Hprim & Hb & [= ->] & _)|
                                       (_ & _ & Heq)]].
  - apply value_of_primitive, Hb.
  - rewrite (value_of_wrapper st p b Hclass Hprim) in Hrun.
    destruct (b <? ECMA_SIMPLE_VALUE__COUNT) eqn:Hlt; [|discriminate Hrun].
    apply (internal_slot_after_instantiation _ _ _ _ _ _ _ _ Hinst) in Hclass, Hprim;
      try discriminate.
    rewrite (value_of_wrapper st' p b Hclass Hprim), Hlt, Hb. reflexivity.
  - discriminate Heq.
Qed.

End Instantiation_and_routines.

(** ** The further properties on the sample engine *)


(** X2, on [example_engine]: valueOf of what valueOf unwraps from the
    Boolean wrapper. *)
Lemma value_of_idempotent_witness :
  @ecma_builtin_boolean_prototype_object_value_of example_globals (ecma_simple 4) example_engine
  = Returned (Normal (ecma_simple 4)) example_engine.
Proof.
  apply (@value_of_idempotent example_globals example_engine (ecma_object 1%nat)
           (ecma_simple 4) example_engine eq_refl).
Defined.

(** X3, on [example_engine]: toString of the wrapper and of true. *)
Lemma to_string_of_unwrapped_witness :
  @ecma_builtin_boolean_prototype_object_to_string example_globals (ecma_object 1%nat) example_engine
  = @ecma_builtin_boolean_prototype_object_to_string example_globals (ecma_simple 4) example_engine.
Proof.
  apply (@to_string_of_unwrapped example_globals example_engine (ecma_object 1%nat)
           (ecma_simple 4) example_engine eq_refl).
Defined.


(** X5, on [example_engine]: toString dispatched on a number leaves the
    Boolean wrapper as it is. *)
Lemma dispatch_routine_frame_witness :
  heap (engine_after
          (@ecma_builtin_boolean_prototype_dispatch_routine example_globals 40
             (ecma_number 42%nat) [] 0 example_engine) example_engine) !! 1%nat
  = heap example_engine !! 1%nat.
Proof.
  apply (proj1 (proj2 (@dispatch_routine_frame example_globals example_engine 40
                         (ecma_number 42%nat) [] 0 (Throw (ecma_object 3%nat))
                         (engine_after
                            (@ecma_builtin_boolean_prototype_dispatch_routine example_globals 40
                               (ecma_number 42%nat) [] 0 example_engine) example_engine)
                         eq_refl)) 1%nat).
  reflexivity.
Defined.

(** X6, on [example_engine]: an identifier that names no routine. *)
Lemma dispatch_routine_routes_witness :
  @ecma_builtin_boolean_prototype_dispatch_routine example_globals 3 (ecma_simple 4) [] 0
    example_engine
  = Trapped (JERRY_UNREACHABLE_reached 326).
Proof.
  apply (proj2 (proj2 (@dispatch_routine_routes example_globals example_engine (ecma_simple 4)
                         [] 0 ltac:(cbn; lia))) 3); cbn; lia.
Defined.

(** X7, on [example_engine]: 'toString' instantiated, then attempted again. *)
Lemma try_to_instantiate_again_asserts_witness :
  @ecma_builtin_boolean_prototype_try_to_instantiate_property example_globals
    0%nat (ECMA_STRING_CONTAINER_MAGIC_STRING 40) example_engine_instantiated
  = Trapped (JERRY_ASSERT_failed 180).
Proof.
  apply (@try_to_instantiate_again_asserts example_globals example_engine 0%nat
           (ECMA_STRING_CONTAINER_MAGIC_STRING 40)
           (0%nat, ECMA_STRING_CONTAINER_MAGIC_STRING 40) example_engine_instantiated eq_refl).
Defined.

(** X8, on [example_engine]: the Boolean wrapper is as it was after the
    instantiation of 'toString' on the prototype. *)
Lemma try_to_instantiate_frame_witness :
  heap example_engine_instantiated !! 1%nat = heap example_engine !! 1%nat.
Proof.
  apply (proj1 (@try_to_instantiate_frame example_globals example_engine 0%nat
                  (ECMA_STRING_CONTAINER_MAGIC_STRING 40)
                  (0%nat, ECMA_STRING_CONTAINER_MAGIC_STRING 40)
                  example_engine_instantiated eq_refl) 1%nat);
    [lia|reflexivity].
Defined.

(** X9, on [example_engine]: 'valueOf' after 'toString'. *)
Lemma try_to_instantiate_independent_witness :
  exists st2,
    @ecma_builtin_boolean_prototype_try_to_instantiate_property example_globals
      0%nat (ECMA_STRING_CONTAINER_MAGIC_STRING 41) example_engine_instantiated
    = Returned (Some (0%nat, ECMA_STRING_CONTAINER_MAGIC_STRING 41)) st2.
Proof.
  apply (@try_to_instantiate_independent example_globals example_engine 0%nat
           (ECMA_STRING_CONTAINER_MAGIC_STRING 40) (ECMA_STRING_CONTAINER_MAGIC_STRING 41)
           (0%nat, ECMA_STRING_CONTAINER_MAGIC_STRING 40) example_engine_instantiated
           41 2%nat eq_refl eq_refl ltac:(discriminate) eq_refl eq_refl eq_refl eq_refl).
Defined.

(** X10, on [example_engine]: the low mask after 'toString', index 1. *)
Lemma try_to_instantiate_mask_decrement_witness :
  exists index : nat,
    internal_slot example_engine_instantiated 0%nat
      ECMA_INTERNAL_PROPERTY_NON_INSTANTIATED_BUILT_IN_MASK_0_31
    = Some (4294967295 - 2 ^ Z.of_nat index) /\ (index < 3)%nat.
Proof.
  destruct (@try_to_instantiate_mask_decrement example_globals example_engine 0%nat
              (ECMA_STRING_CONTAINER_MAGIC_STRING 40)
              (0%nat, ECMA_STRING_CONTAINER_MAGIC_STRING 40)
              example_engine_instantiated 4294967295 eq_refl eq_refl ltac:(lia))
    as (id & index & _ & _ & Hindex & Hslot & _).
  exists index. split; [exact Hslot|exact Hindex].
Defined.

(** X11, on [example_engine]: the record of 'toString' after a dispatched
    valueOf. *)
Lemma instantiated_record_is_kept_witness :
  named_data_property_at
    (engine_after
       (@ecma_builtin_boolean_prototype_dispatch_routine example_globals 41 (ecma_simple 4) [] 0
          example_engine_instantiated) example_engine)
    (0%nat, ECMA_STRING_CONTAINER_MAGIC_STRING 40)
  = named_data_property_at example_engine_instantiated
      (0%nat, ECMA_STRING_CONTAINER_MAGIC_STRING 40).
Proof.
  destruct (@instantiated_record_is_kept example_globals example_engine 0%nat
              (ECMA_STRING_CONTAINER_MAGIC_STRING 40)
              (0%nat, ECMA_STRING_CONTAINER_MAGIC_STRING 40)
              example_engine_instantiated eq_refl)
    as (record & Hrecord & _ & Hkept).
  rewrite Hrecord. apply Hkept. apply rtc_once.
  apply (@op_dispatch_routine example_globals 41 (ecma_simple 4) [] 0 (Normal (ecma_simple 4))).
  reflexivity.
Defined.

(** X12, on [example_engine]: the payload of 'toString'. *)
Lemma instantiated_property_payload_witness :
  exists id payload_p writable enumerable configurable,
    named_data_property_at example_engine_instantiated
      (0%nat, ECMA_STRING_CONTAINER_MAGIC_STRING 40)
    = Some (ECMA_PROPERTY_NAMEDDATA (ECMA_STRING_CONTAINER_MAGIC_STRING 40)
              (ecma_object payload_p) writable enumerable configurable) /\
    (payload_p = 3%nat \/
     builtin_object_lookup (ecma_builtin_objects example_engine_instantiated)
       ECMA_BUILTIN_ID_BOOLEAN = Some payload_p) /\
    Some id = Some 40.
Proof.
  destruct (@instantiated_property_payload example_globals example_engine 0%nat
              (ECMA_STRING_CONTAINER_MAGIC_STRING 40)
              (0%nat, ECMA_STRING_CONTAINER_MAGIC_STRING 40)
              example_engine_instantiated eq_refl)
    as (id & payload_p & w & e & c & Hid & Hrecord & Hpayload).
  exists id, payload_p, w, e, c. split; [exact Hrecord|]. split.
  - destruct Hpayload as [(_ & -> & _)|(_ & Htbl & _)]; [left; reflexivity|right; exact Htbl].
  - symmetry. exact Hid.
Defined.

(** X13, on [example_engine]: valueOf of the wrapper after the
    instantiation of 'toString'. *)
Lemma value_of_after_instantiation_witness :
  @ecma_builtin_boolean_prototype_object_value_of example_globals (ecma_object 1%nat)
    example_engine_instantiated
  = Returned (Normal (ecma_simple 4)) example_engine_instantiated.
Proof.
  apply (@value_of_after_instantiation example_globals example_engine 0%nat
           (ECMA_STRING_CONTAINER_MAGIC_STRING 40)
           (0%nat, ECMA_STRING_CONTAINER_MAGIC_STRING 40) example_engine_instantiated
           (ecma_object 1%nat) (ecma_simple 4) example_engine eq_refl eq_refl).
Defined.

(** X14, on the sample numbering: the search finds 'valueOf' at index 2. *)
Lemma registry_search_complete_iff_sorted_witness :
  ecma_builtin_bin_search_for_magic_string_id_in_array
    (@ecma_builtin_property_names example_globals)
    (@ecma_builtin_boolean_prototype_property_number example_globals) 41
  = 2.
Proof.
  apply (proj2 (@registry_search_complete_iff_sorted example_globals ltac:(compute_done))
           eq_refl 2%nat 41 eq_refl).
Defined.
